(** * Hang source (MoQ consumer) of obs-moq: session lifecycle and decode pipeline

    A shallow embedding of [src/hang-source.cpp].  The C++ code keeps one
    [struct hang_source] per source, guarded by one mutex, and talks to three
    collaborators: the MoQ transport ([moq_*]), libav ([avcodec_*], [sws_*])
    and the OBS host ([obs_source_output_video], [os_*]).

    - The struct is the record [hang_source]; fixed-width integers are [Z]
      with the wrap-around written out ([u32], [u64], [to_int]).
    - Every function is a computation in the monad [M]: it threads the struct
      and appends to a trace of [event]s, in program order, the calls that
      create or close a transport handle, feed or flush the decoder, convert
      a frame, reach the host's output, or sleep.
    - What a collaborator returns is not decided by this code, so each
      function takes a record of those results (its [*_env]).  Calls that
      only fetch or allocate ([moq_consume_frame_chunk],
      [moq_consume_video_config], [av_packet_alloc], [sws_getContext],
      [bmalloc], ...) show through these results alone.
    - Between a [pthread_mutex_unlock] and the next [pthread_mutex_lock] of
      the same call other threads may run their critical sections; [released]
      stands where the mutex is taken again and applies what the other
      threads did to the struct meanwhile, again taken from the [*_env].
    - Logging ([LOG_*]) and the C heap are left out: a pointer is [None] when
      it is [NULL], and an allocation that the code checks for failure takes
      its outcome from the [*_env]. *)

From Stdlib Require Import ZArith String List Bool Lia.
Import ListNotations.
Open Scope string_scope.
Open Scope list_scope.
Open Scope Z_scope.

(** ** Machine integers *)

Definition u32 (x : Z) : Z := x mod 2 ^ 32.
Definition u64 (x : Z) : Z := x mod 2 ^ 64.
(** The value of [(int)x] for a 32-bit [x]. *)
Definition to_int (x : Z) : Z := (x + 2 ^ 31) mod 2 ^ 32 - 2 ^ 31.

Definition isSome {A : Type} (o : option A) : bool :=
  match o with Some _ => true | None => false end.

(** ** Constants of the source *)

Definition FRAME_WIDTH : Z := 1920.
Definition FRAME_HEIGHT : Z := 1080.
Definition DEBOUNCE_DELAY_MS : Z := 500.
(** libavutil's [AVERROR], for the positive error codes of <errno.h>. *)
Definition AVERROR (e : Z) : Z := - e.

(** ** Data *)

Inductive video_format : Type := VIDEO_FORMAT_NONE | VIDEO_FORMAT_RGBA.

(** A heap block, known by its size in bytes. *)
Record buffer : Type := { buf_size : Z }.

(** [struct obs_source_frame], the fields the source touches. *)
Record obs_source_frame : Type := {
  width : Z;
  height : Z;
  format : video_format;
  linesize0 : Z;
  data0 : option buffer;
  timestamp : Z
}.

(** The decoder context: the geometry and extradata size it was opened with. *)
Record AVCodecContext : Type := {
  cc_width : Z;
  cc_height : Z;
  cc_extradata_size : Z
}.

(** A YUV420P to RGBA scaler of equal source and destination geometry. *)
Record SwsContext : Type := { sws_width : Z; sws_height : Z }.

(** [struct moq_video_config] as [hang_source_init_decoder] reads it. *)
Record moq_video_config : Type := {
  coded_width : option Z;
  coded_height : option Z;
  description : option (list Z);
  description_len : Z
}.

(** [struct moq_frame] as [hang_source_decode_frame] reads it. *)
Record moq_frame : Type := {
  payload_size : Z;
  timestamp_us : Z;
  keyframe : bool
}.

(** [struct hang_source] (without the host's [source] pointer and the mutex). *)
Record hang_source : Type := {
  url : option string;
  broadcast : option string;
  pending_url : option string;
  pending_broadcast : option string;
  settings_changed_time : Z;
  reconnect_pending : bool;
  shutting_down : bool;
  generation : Z;
  reconnect_in_progress : bool;
  origin : Z;
  session : Z;
  consume : Z;
  catalog_handle : Z;
  video_track : Z;
  codec_ctx : option AVCodecContext;
  sws_ctx : option SwsContext;
  got_keyframe : bool;
  frames_waiting_for_keyframe : Z;
  consecutive_decode_errors : Z;
  frame : obs_source_frame;
  frame_buffer : option buffer
}.

(** Field assignments. *)

Definition set_width (v : Z) (f : obs_source_frame) : obs_source_frame :=
  {| width := v; height := height f; format := format f; linesize0 := linesize0 f; data0 := data0 f; timestamp := timestamp f |}.

Definition set_height (v : Z) (f : obs_source_frame) : obs_source_frame :=
  {| width := width f; height := v; format := format f; linesize0 := linesize0 f; data0 := data0 f; timestamp := timestamp f |}.

Definition set_format (v : video_format) (f : obs_source_frame) : obs_source_frame :=
  {| width := width f; height := height f; format := v; linesize0 := linesize0 f; data0 := data0 f; timestamp := timestamp f |}.

Definition set_linesize0 (v : Z) (f : obs_source_frame) : obs_source_frame :=
  {| width := width f; height := height f; format := format f; linesize0 := v; data0 := data0 f; timestamp := timestamp f |}.

Definition set_data0 (v : option buffer) (f : obs_source_frame) : obs_source_frame :=
  {| width := width f; height := height f; format := format f; linesize0 := linesize0 f; data0 := v; timestamp := timestamp f |}.

Definition set_timestamp (v : Z) (f : obs_source_frame) : obs_source_frame :=
  {| width := width f; height := height f; format := format f; linesize0 := linesize0 f; data0 := data0 f; timestamp := v |}.

Definition set_url (v : option string) (s : hang_source) : hang_source :=
  {| url := v; broadcast := broadcast s; pending_url := pending_url s; pending_broadcast :=
     pending_broadcast s; settings_changed_time := settings_changed_time s; reconnect_pending :=
     reconnect_pending s; shutting_down := shutting_down s; generation := generation s;
     reconnect_in_progress := reconnect_in_progress s; origin := origin s; session := session s;
     consume := consume s; catalog_handle := catalog_handle s; video_track := video_track s;
     codec_ctx := codec_ctx s; sws_ctx := sws_ctx s; got_keyframe := got_keyframe s;
     frames_waiting_for_keyframe := frames_waiting_for_keyframe s; consecutive_decode_errors :=
     consecutive_decode_errors s; frame := frame s; frame_buffer := frame_buffer s |}.

Definition set_broadcast (v : option string) (s : hang_source) : hang_source :=
  {| url := url s; broadcast := v; pending_url := pending_url s; pending_broadcast :=
     pending_broadcast s; settings_changed_time := settings_changed_time s; reconnect_pending :=
     reconnect_pending s; shutting_down := shutting_down s; generation := generation s;
     reconnect_in_progress := reconnect_in_progress s; origin := origin s; session := session s;
     consume := consume s; catalog_handle := catalog_handle s; video_track := video_track s;
     codec_ctx := codec_ctx s; sws_ctx := sws_ctx s; got_keyframe := got_keyframe s;
     frames_waiting_for_keyframe := frames_waiting_for_keyframe s; consecutive_decode_errors :=
     consecutive_decode_errors s; frame := frame s; frame_buffer := frame_buffer s |}.

Definition set_pending_url (v : option string) (s : hang_source) : hang_source :=
  {| url := url s; broadcast := broadcast s; pending_url := v; pending_broadcast :=
     pending_broadcast s; settings_changed_time := settings_changed_time s; reconnect_pending :=
     reconnect_pending s; shutting_down := shutting_down s; generation := generation s;
     reconnect_in_progress := reconnect_in_progress s; origin := origin s; session := session s;
     consume := consume s; catalog_handle := catalog_handle s; video_track := video_track s;
     codec_ctx := codec_ctx s; sws_ctx := sws_ctx s; got_keyframe := got_keyframe s;
     frames_waiting_for_keyframe := frames_waiting_for_keyframe s; consecutive_decode_errors :=
     consecutive_decode_errors s; frame := frame s; frame_buffer := frame_buffer s |}.

Definition set_pending_broadcast (v : option string) (s : hang_source) : hang_source :=
  {| url := url s; broadcast := broadcast s; pending_url := pending_url s; pending_broadcast :=
     v; settings_changed_time := settings_changed_time s; reconnect_pending := reconnect_pending
     s; shutting_down := shutting_down s; generation := generation s; reconnect_in_progress :=
     reconnect_in_progress s; origin := origin s; session := session s; consume := consume s;
     catalog_handle := catalog_handle s; video_track := video_track s; codec_ctx := codec_ctx s;
     sws_ctx := sws_ctx s; got_keyframe := got_keyframe s; frames_waiting_for_keyframe :=
     frames_waiting_for_keyframe s; consecutive_decode_errors := consecutive_decode_errors s;
     frame := frame s; frame_buffer := frame_buffer s |}.

Definition set_settings_changed_time (v : Z) (s : hang_source) : hang_source :=
  {| url := url s; broadcast := broadcast s; pending_url := pending_url s; pending_broadcast :=
     pending_broadcast s; settings_changed_time := v; reconnect_pending := reconnect_pending s;
     shutting_down := shutting_down s; generation := generation s; reconnect_in_progress :=
     reconnect_in_progress s; origin := origin s; session := session s; consume := consume s;
     catalog_handle := catalog_handle s; video_track := video_track s; codec_ctx := codec_ctx s;
     sws_ctx := sws_ctx s; got_keyframe := got_keyframe s; frames_waiting_for_keyframe :=
     frames_waiting_for_keyframe s; consecutive_decode_errors := consecutive_decode_errors s;
     frame := frame s; frame_buffer := frame_buffer s |}.

Definition set_reconnect_pending (v : bool) (s : hang_source) : hang_source :=
  {| url := url s; broadcast := broadcast s; pending_url := pending_url s; pending_broadcast :=
     pending_broadcast s; settings_changed_time := settings_changed_time s; reconnect_pending :=
     v; shutting_down := shutting_down s; generation := generation s; reconnect_in_progress :=
     reconnect_in_progress s; origin := origin s; session := session s; consume := consume s;
     catalog_handle := catalog_handle s; video_track := video_track s; codec_ctx := codec_ctx s;
     sws_ctx := sws_ctx s; got_keyframe := got_keyframe s; frames_waiting_for_keyframe :=
     frames_waiting_for_keyframe s; consecutive_decode_errors := consecutive_decode_errors s;
     frame := frame s; frame_buffer := frame_buffer s |}.

Definition set_shutting_down (v : bool) (s : hang_source) : hang_source :=
  {| url := url s; broadcast := broadcast s; pending_url := pending_url s; pending_broadcast :=
     pending_broadcast s; settings_changed_time := settings_changed_time s; reconnect_pending :=
     reconnect_pending s; shutting_down := v; generation := generation s; reconnect_in_progress
     := reconnect_in_progress s; origin := origin s; session := session s; consume := consume s;
     catalog_handle := catalog_handle s; video_track := video_track s; codec_ctx := codec_ctx s;
     sws_ctx := sws_ctx s; got_keyframe := got_keyframe s; frames_waiting_for_keyframe :=
     frames_waiting_for_keyframe s; consecutive_decode_errors := consecutive_decode_errors s;
     frame := frame s; frame_buffer := frame_buffer s |}.

Definition set_generation (v : Z) (s : hang_source) : hang_source :=
  {| url := url s; broadcast := broadcast s; pending_url := pending_url s; pending_broadcast :=
     pending_broadcast s; settings_changed_time := settings_changed_time s; reconnect_pending :=
     reconnect_pending s; shutting_down := shutting_down s; generation := v;
     reconnect_in_progress := reconnect_in_progress s; origin := origin s; session := session s;
     consume := consume s; catalog_handle := catalog_handle s; video_track := video_track s;
     codec_ctx := codec_ctx s; sws_ctx := sws_ctx s; got_keyframe := got_keyframe s;
     frames_waiting_for_keyframe := frames_waiting_for_keyframe s; consecutive_decode_errors :=
     consecutive_decode_errors s; frame := frame s; frame_buffer := frame_buffer s |}.

Definition set_reconnect_in_progress (v : bool) (s : hang_source) : hang_source :=
  {| url := url s; broadcast := broadcast s; pending_url := pending_url s; pending_broadcast :=
     pending_broadcast s; settings_changed_time := settings_changed_time s; reconnect_pending :=
     reconnect_pending s; shutting_down := shutting_down s; generation := generation s;
     reconnect_in_progress := v; origin := origin s; session := session s; consume := consume s;
     catalog_handle := catalog_handle s; video_track := video_track s; codec_ctx := codec_ctx s;
     sws_ctx := sws_ctx s; got_keyframe := got_keyframe s; frames_waiting_for_keyframe :=
     frames_waiting_for_keyframe s; consecutive_decode_errors := consecutive_decode_errors s;
     frame := frame s; frame_buffer := frame_buffer s |}.

Definition set_origin (v : Z) (s : hang_source) : hang_source :=
  {| url := url s; broadcast := broadcast s; pending_url := pending_url s; pending_broadcast :=
     pending_broadcast s; settings_changed_time := settings_changed_time s; reconnect_pending :=
     reconnect_pending s; shutting_down := shutting_down s; generation := generation s;
     reconnect_in_progress := reconnect_in_progress s; origin := v; session := session s;
     consume := consume s; catalog_handle := catalog_handle s; video_track := video_track s;
     codec_ctx := codec_ctx s; sws_ctx := sws_ctx s; got_keyframe := got_keyframe s;
     frames_waiting_for_keyframe := frames_waiting_for_keyframe s; consecutive_decode_errors :=
     consecutive_decode_errors s; frame := frame s; frame_buffer := frame_buffer s |}.

Definition set_session (v : Z) (s : hang_source) : hang_source :=
  {| url := url s; broadcast := broadcast s; pending_url := pending_url s; pending_broadcast :=
     pending_broadcast s; settings_changed_time := settings_changed_time s; reconnect_pending :=
     reconnect_pending s; shutting_down := shutting_down s; generation := generation s;
     reconnect_in_progress := reconnect_in_progress s; origin := origin s; session := v; consume
     := consume s; catalog_handle := catalog_handle s; video_track := video_track s; codec_ctx
     := codec_ctx s; sws_ctx := sws_ctx s; got_keyframe := got_keyframe s;
     frames_waiting_for_keyframe := frames_waiting_for_keyframe s; consecutive_decode_errors :=
     consecutive_decode_errors s; frame := frame s; frame_buffer := frame_buffer s |}.

Definition set_consume (v : Z) (s : hang_source) : hang_source :=
  {| url := url s; broadcast := broadcast s; pending_url := pending_url s; pending_broadcast :=
     pending_broadcast s; settings_changed_time := settings_changed_time s; reconnect_pending :=
     reconnect_pending s; shutting_down := shutting_down s; generation := generation s;
     reconnect_in_progress := reconnect_in_progress s; origin := origin s; session := session s;
     consume := v; catalog_handle := catalog_handle s; video_track := video_track s; codec_ctx
     := codec_ctx s; sws_ctx := sws_ctx s; got_keyframe := got_keyframe s;
     frames_waiting_for_keyframe := frames_waiting_for_keyframe s; consecutive_decode_errors :=
     consecutive_decode_errors s; frame := frame s; frame_buffer := frame_buffer s |}.

Definition set_catalog_handle (v : Z) (s : hang_source) : hang_source :=
  {| url := url s; broadcast := broadcast s; pending_url := pending_url s; pending_broadcast :=
     pending_broadcast s; settings_changed_time := settings_changed_time s; reconnect_pending :=
     reconnect_pending s; shutting_down := shutting_down s; generation := generation s;
     reconnect_in_progress := reconnect_in_progress s; origin := origin s; session := session s;
     consume := consume s; catalog_handle := v; video_track := video_track s; codec_ctx :=
     codec_ctx s; sws_ctx := sws_ctx s; got_keyframe := got_keyframe s;
     frames_waiting_for_keyframe := frames_waiting_for_keyframe s; consecutive_decode_errors :=
     consecutive_decode_errors s; frame := frame s; frame_buffer := frame_buffer s |}.

Definition set_video_track (v : Z) (s : hang_source) : hang_source :=
  {| url := url s; broadcast := broadcast s; pending_url := pending_url s; pending_broadcast :=
     pending_broadcast s; settings_changed_time := settings_changed_time s; reconnect_pending :=
     reconnect_pending s; shutting_down := shutting_down s; generation := generation s;
     reconnect_in_progress := reconnect_in_progress s; origin := origin s; session := session s;
     consume := consume s; catalog_handle := catalog_handle s; video_track := v; codec_ctx :=
     codec_ctx s; sws_ctx := sws_ctx s; got_keyframe := got_keyframe s;
     frames_waiting_for_keyframe := frames_waiting_for_keyframe s; consecutive_decode_errors :=
     consecutive_decode_errors s; frame := frame s; frame_buffer := frame_buffer s |}.

Definition set_codec_ctx (v : option AVCodecContext) (s : hang_source) : hang_source :=
  {| url := url s; broadcast := broadcast s; pending_url := pending_url s; pending_broadcast :=
     pending_broadcast s; settings_changed_time := settings_changed_time s; reconnect_pending :=
     reconnect_pending s; shutting_down := shutting_down s; generation := generation s;
     reconnect_in_progress := reconnect_in_progress s; origin := origin s; session := session s;
     consume := consume s; catalog_handle := catalog_handle s; video_track := video_track s;
     codec_ctx := v; sws_ctx := sws_ctx s; got_keyframe := got_keyframe s;
     frames_waiting_for_keyframe := frames_waiting_for_keyframe s; consecutive_decode_errors :=
     consecutive_decode_errors s; frame := frame s; frame_buffer := frame_buffer s |}.

Definition set_sws_ctx (v : option SwsContext) (s : hang_source) : hang_source :=
  {| url := url s; broadcast := broadcast s; pending_url := pending_url s; pending_broadcast :=
     pending_broadcast s; settings_changed_time := settings_changed_time s; reconnect_pending :=
     reconnect_pending s; shutting_down := shutting_down s; generation := generation s;
     reconnect_in_progress := reconnect_in_progress s; origin := origin s; session := session s;
     consume := consume s; catalog_handle := catalog_handle s; video_track := video_track s;
     codec_ctx := codec_ctx s; sws_ctx := v; got_keyframe := got_keyframe s;
     frames_waiting_for_keyframe := frames_waiting_for_keyframe s; consecutive_decode_errors :=
     consecutive_decode_errors s; frame := frame s; frame_buffer := frame_buffer s |}.

Definition set_got_keyframe (v : bool) (s : hang_source) : hang_source :=
  {| url := url s; broadcast := broadcast s; pending_url := pending_url s; pending_broadcast :=
     pending_broadcast s; settings_changed_time := settings_changed_time s; reconnect_pending :=
     reconnect_pending s; shutting_down := shutting_down s; generation := generation s;
     reconnect_in_progress := reconnect_in_progress s; origin := origin s; session := session s;
     consume := consume s; catalog_handle := catalog_handle s; video_track := video_track s;
     codec_ctx := codec_ctx s; sws_ctx := sws_ctx s; got_keyframe := v;
     frames_waiting_for_keyframe := frames_waiting_for_keyframe s; consecutive_decode_errors :=
     consecutive_decode_errors s; frame := frame s; frame_buffer := frame_buffer s |}.

Definition set_frames_waiting_for_keyframe (v : Z) (s : hang_source) : hang_source :=
  {| url := url s; broadcast := broadcast s; pending_url := pending_url s; pending_broadcast :=
     pending_broadcast s; settings_changed_time := settings_changed_time s; reconnect_pending :=
     reconnect_pending s; shutting_down := shutting_down s; generation := generation s;
     reconnect_in_progress := reconnect_in_progress s; origin := origin s; session := session s;
     consume := consume s; catalog_handle := catalog_handle s; video_track := video_track s;
     codec_ctx := codec_ctx s; sws_ctx := sws_ctx s; got_keyframe := got_keyframe s;
     frames_waiting_for_keyframe := v; consecutive_decode_errors := consecutive_decode_errors s;
     frame := frame s; frame_buffer := frame_buffer s |}.

Definition set_consecutive_decode_errors (v : Z) (s : hang_source) : hang_source :=
  {| url := url s; broadcast := broadcast s; pending_url := pending_url s; pending_broadcast :=
     pending_broadcast s; settings_changed_time := settings_changed_time s; reconnect_pending :=
     reconnect_pending s; shutting_down := shutting_down s; generation := generation s;
     reconnect_in_progress := reconnect_in_progress s; origin := origin s; session := session s;
     consume := consume s; catalog_handle := catalog_handle s; video_track := video_track s;
     codec_ctx := codec_ctx s; sws_ctx := sws_ctx s; got_keyframe := got_keyframe s;
     frames_waiting_for_keyframe := frames_waiting_for_keyframe s; consecutive_decode_errors :=
     v; frame := frame s; frame_buffer := frame_buffer s |}.

Definition set_frame (v : obs_source_frame) (s : hang_source) : hang_source :=
  {| url := url s; broadcast := broadcast s; pending_url := pending_url s; pending_broadcast :=
     pending_broadcast s; settings_changed_time := settings_changed_time s; reconnect_pending :=
     reconnect_pending s; shutting_down := shutting_down s; generation := generation s;
     reconnect_in_progress := reconnect_in_progress s; origin := origin s; session := session s;
     consume := consume s; catalog_handle := catalog_handle s; video_track := video_track s;
     codec_ctx := codec_ctx s; sws_ctx := sws_ctx s; got_keyframe := got_keyframe s;
     frames_waiting_for_keyframe := frames_waiting_for_keyframe s; consecutive_decode_errors :=
     consecutive_decode_errors s; frame := v; frame_buffer := frame_buffer s |}.

Definition set_frame_buffer (v : option buffer) (s : hang_source) : hang_source :=
  {| url := url s; broadcast := broadcast s; pending_url := pending_url s; pending_broadcast :=
     pending_broadcast s; settings_changed_time := settings_changed_time s; reconnect_pending :=
     reconnect_pending s; shutting_down := shutting_down s; generation := generation s;
     reconnect_in_progress := reconnect_in_progress s; origin := origin s; session := session s;
     consume := consume s; catalog_handle := catalog_handle s; video_track := video_track s;
     codec_ctx := codec_ctx s; sws_ctx := sws_ctx s; got_keyframe := got_keyframe s;
     frames_waiting_for_keyframe := frames_waiting_for_keyframe s; consecutive_decode_errors :=
     consecutive_decode_errors s; frame := frame s; frame_buffer := v |}.

(** ** Collaborator calls *)

Inductive event : Type :=
| moq_origin_create
| moq_session_connect (url : option string) (origin_consume : Z)
| moq_origin_consume (origin : Z) (broadcast : option string)
| moq_consume_catalog (consume : Z)
| moq_consume_video_ordered (catalog : Z)
| moq_session_close (h : Z)
| moq_origin_close (h : Z)
| moq_consume_close (h : Z)
| moq_consume_catalog_close (h : Z)
| moq_consume_video_close (h : Z)
| moq_consume_frame_close (h : Z)
| avcodec_flush_buffers
| avcodec_send_packet (size pts : Z)
| avcodec_receive_frame
| sws_scale (c : option SwsContext) (src_slice_h : Z) (dst : option buffer) (dst_linesize : Z)
| obs_source_output_video (f : option obs_source_frame)
| os_sleep_ms (ms : Z).

(** ** The monad: the struct threaded through, calls appended to the trace *)

Definition M (A : Type) : Type := hang_source -> A * hang_source * list event.

Definition ret {A : Type} (a : A) : M A := fun s => (a, s, []).

Definition bind {A B : Type} (c : M A) (k : A -> M B) : M B :=
  fun s =>
    match c s with
    | (a, s1, t1) =>
        match k a s1 with
        | (b, s2, t2) => (b, s2, t1 ++ t2)
        end
    end.

Definition get : M hang_source := fun s => (s, s, []).
Definition modify (f : hang_source -> hang_source) : M unit := fun s => (tt, f s, []).
Definition call (e : event) : M unit := fun s => (tt, s, [e]).
Definition when (b : bool) (c : M unit) : M unit := if b then c else ret tt.

(** The mutex is free between an unlock and the next lock: [other] is what
    the critical sections of other threads did to the struct meanwhile. *)
Definition released (other : hang_source -> hang_source) : M unit := modify other.

Definition state_of {A : Type} (r : A * hang_source * list event) : hang_source := snd (fst r).
Definition trace_of {A : Type} (r : A * hang_source * list event) : list event := snd r.
Definition value_of {A : Type} (r : A * hang_source * list event) : A := fst (fst r).

Declare Scope hang_scope.
Delimit Scope hang_scope with hang.
Notation "x <- c ;; k" := (bind c (fun x => k))
  (at level 61, c at next level, right associativity) : hang_scope.
Notation "c ;; k" := (bind c (fun _ => k))
  (at level 61, right associativity) : hang_scope.
Open Scope hang_scope.

(** ** Results of the collaborators, one record per function *)

(** [hang_source_init_decoder]: which of its allocations succeed. *)
Record init_env : Type := {
  ie_released : hang_source -> hang_source;
  ie_find_decoder : bool;      (* avcodec_find_decoder(AV_CODEC_ID_H264) != NULL *)
  ie_alloc_context : bool;     (* avcodec_alloc_context3 != NULL *)
  ie_extradata : bool;         (* av_mallocz != NULL *)
  ie_open2 : Z;                (* avcodec_open2 *)
  ie_bmalloc : bool;           (* bmalloc(buffer_size) != NULL *)
  ie_sws_getContext : bool     (* sws_getContext != NULL *)
}.

(** [hang_source_decode_frame]. *)
Record decode_env : Type := {
  de_chunk : option moq_frame; (* moq_consume_frame_chunk: None when < 0 *)
  de_packet_alloc : bool;      (* av_packet_alloc != NULL *)
  de_send_packet : Z;          (* avcodec_send_packet *)
  de_frame_alloc : bool;       (* av_frame_alloc != NULL *)
  de_receive_frame : Z;        (* avcodec_receive_frame *)
  de_width : Z;                (* frame->width of the decoded AVFrame *)
  de_height : Z;               (* frame->height *)
  de_sws_getContext : bool;    (* sws_getContext != NULL *)
  de_bmalloc : bool;           (* bmalloc(new_buffer_size) != NULL *)
  de_EAGAIN : positive         (* EAGAIN of <errno.h> where the source is built *)
}.

(** [EAGAIN] is a macro of <errno.h>, not of this repository: a positive
    [int] whose value depends on the platform (11 on Linux, 35 on macOS).
    It is taken as given, together with what the decoder returns. *)
Definition EAGAIN (e : decode_env) : Z := Z.pos (de_EAGAIN e).

(** [hang_source_reconnect]. *)
Record reconnect_env : Type := {
  re_released : hang_source -> hang_source;
  re_origin_create : Z;        (* moq_origin_create *)
  re_session_connect : Z       (* moq_session_connect *)
}.

(** [hang_source_start_consume]. *)
Record consume_env : Type := {
  ce_released1 : hang_source -> hang_source;
  ce_origin_consume : Z;       (* moq_origin_consume *)
  ce_released2 : hang_source -> hang_source;
  ce_consume_catalog : Z       (* moq_consume_catalog *)
}.

(** [on_session_status]. *)
Record status_env : Type := {
  se_released : hang_source -> hang_source;
  se_consume : consume_env
}.

(** [on_catalog]. *)
Record catalog_env : Type := {
  ca_video_config : option moq_video_config; (* moq_consume_video_config: None when < 0 *)
  ca_init : init_env;
  ca_released : hang_source -> hang_source;
  ca_video_ordered : Z         (* moq_consume_video_ordered *)
}.

(** [on_video_frame]. *)
Record frame_env : Type := {
  fe_released : hang_source -> hang_source;
  fe_decode : decode_env
}.

(** [hang_source_video_tick]. *)
Record tick_env : Type := {
  te_now : Z;                  (* os_gettime_ns *)
  te_released : hang_source -> hang_source;
  te_reconnect : reconnect_env
}.

(** ** The functions of hang-source.cpp *)

(** Blanks the video preview by outputting a NULL frame. *)
Definition hang_source_blank_video : M unit :=
  call (obs_source_output_video None).

(** Caller holds the mutex. *)
Definition hang_source_destroy_decoder_locked : M unit :=
  s <- get ;;
  when (isSome (sws_ctx s)) (modify (set_sws_ctx None)) ;;
  when (isSome (codec_ctx s)) (modify (set_codec_ctx None)) ;;
  when (isSome (frame_buffer s))
    (modify (set_frame_buffer None) ;;
     modify (fun s => set_frame (set_data0 None (frame s)) s)).

(** Caller holds the mutex.  Closes track, catalog, consume, session and
    origin, in this order, then drops the decoder. *)
Definition hang_source_disconnect_locked : M unit :=
  s <- get ;;
  when (0 <=? video_track s)
    (call (moq_consume_video_close (video_track s)) ;; modify (set_video_track (-1))) ;;
  when (0 <=? catalog_handle s)
    (call (moq_consume_catalog_close (catalog_handle s)) ;; modify (set_catalog_handle (-1))) ;;
  when (0 <=? consume s)
    (call (moq_consume_close (consume s)) ;; modify (set_consume (-1))) ;;
  when (0 <=? session s)
    (call (moq_session_close (session s)) ;; modify (set_session (-1))) ;;
  when (0 <=? origin s)
    (call (moq_origin_close (origin s)) ;; modify (set_origin (-1))) ;;
  hang_source_destroy_decoder_locked ;;
  modify (set_got_keyframe false) ;;
  modify (set_frames_waiting_for_keyframe 0) ;;
  modify (set_consecutive_decode_errors 0).

(** [strcmp(a, b) != 0] against a stored string that may be NULL:
    [!ctx->pending || strcmp(ctx->pending, v) != 0]. *)
Definition differs_from (stored : option string) (v : string) : bool :=
  match stored with
  | None => true
  | Some p => negb (String.eqb p v)
  end.

(** The settings-update entry point; [url] and [broadcast] are what
    [obs_data_get_string] returned and [now] is [os_gettime_ns()]. *)
Definition hang_source_update (url broadcast : string) (now : Z) : M unit :=
  s <- get ;;
  let url_differs := differs_from (pending_url s) url in
  let broadcast_differs := differs_from (pending_broadcast s) broadcast in
  when url_differs (modify (set_pending_url (Some url))) ;;
  when broadcast_differs (modify (set_pending_broadcast (Some broadcast))) ;;
  let pending_changed := url_differs || broadcast_differs in
  when pending_changed
    (modify (set_settings_changed_time now) ;;
     modify (set_reconnect_pending true)).

(** The struct after [bzalloc] and the initialisations of [hang_source_create]. *)
Definition hang_source_initial : hang_source :=
  {| url := None; broadcast := None;
     pending_url := None; pending_broadcast := None;
     settings_changed_time := 0; reconnect_pending := false;
     shutting_down := false;
     generation := 0; reconnect_in_progress := false;
     origin := -1; session := -1; consume := -1; catalog_handle := -1; video_track := -1;
     codec_ctx := None; sws_ctx := None;
     got_keyframe := false; frames_waiting_for_keyframe := 0; consecutive_decode_errors := 0;
     frame := {| width := FRAME_WIDTH; height := FRAME_HEIGHT; format := VIDEO_FORMAT_RGBA;
                 linesize0 := FRAME_WIDTH * 4; data0 := None; timestamp := 0 |};
     frame_buffer := None |}.

Definition hang_source_create (url broadcast : string) (now : Z) : hang_source * list event :=
  let r := hang_source_update url broadcast now hang_source_initial in
  (state_of r, trace_of r).

(** [hang_source_destroy] up to the release of the struct itself. *)
Definition hang_source_destroy : M unit :=
  modify (set_shutting_down true) ;;
  hang_source_disconnect_locked ;;
  call (os_sleep_ms 100).

(** [hang_source_reconnect].  The code takes [strlen(url_copy)], so it
    relies on the url being there, as the validity test of the tick, its
    one caller, has established; the url found is carried into
    [moq_session_connect] as it is. *)
Definition hang_source_reconnect (e : reconnect_env) : M unit :=
  s <- get ;;
  if reconnect_in_progress s then ret tt
  else
    modify (set_reconnect_in_progress true) ;;
    let new_gen := u32 (generation s + 1) in
    modify (set_generation new_gen) ;;
    hang_source_disconnect_locked ;;
    s <- get ;;
    let url_copy := url s in
    hang_source_blank_video ;;
    call (os_sleep_ms 50) ;;
    call moq_origin_create ;;
    let new_origin := re_origin_create e in
    if new_origin <? 0 then
      released (re_released e) ;;
      modify (set_reconnect_in_progress false)
    else
      call (moq_session_connect url_copy new_origin) ;;
      let new_session := re_session_connect e in
      if new_session <? 0 then
        call (moq_origin_close new_origin) ;;
        released (re_released e) ;;
        modify (set_reconnect_in_progress false)
      else
        released (re_released e) ;;
        s <- get ;;
        if negb (generation s =? new_gen) then
          modify (set_reconnect_in_progress false) ;;
          call (moq_session_close new_session) ;;
          call (moq_origin_close new_origin)
        else
          modify (set_origin new_origin) ;;
          modify (set_session new_session) ;;
          modify (set_reconnect_in_progress false).

(** [(!a && p) || (a && !p) || (a && p && strcmp(a, p) != 0)]. *)
Definition setting_changed (a p : option string) : bool :=
  (negb (isSome a) && isSome p)
  || (isSome a && negb (isSome p))
  || match a, p with
     | Some x, Some y => negb (String.eqb x y)
     | _, _ => false
     end.

(** [s && strlen(s) > 0]. *)
Definition non_empty (o : option string) : bool :=
  match o with
  | Some x => 0 <? Z.of_nat (String.length x)
  | None => false
  end.

(** [(now - ctx->settings_changed_time) / 1000000] in [uint64_t]. *)
Definition elapsed_ms (now : Z) (s : hang_source) : Z :=
  u64 (now - settings_changed_time s) / 1000000.

(** The periodic tick: debounced reconnection. *)
Definition hang_source_video_tick (e : tick_env) : M unit :=
  s <- get ;;
  if shutting_down s then ret tt
  else if negb (reconnect_pending s) then ret tt
  else if elapsed_ms (te_now e) s <? DEBOUNCE_DELAY_MS then ret tt
  else
    modify (set_reconnect_pending false) ;;
    let url_changed := setting_changed (url s) (pending_url s) in
    let broadcast_changed := setting_changed (broadcast s) (pending_broadcast s) in
    if negb url_changed && negb broadcast_changed then ret tt
    else
      modify (set_url (pending_url s)) ;;
      modify (set_broadcast (pending_broadcast s)) ;;
      s <- get ;;
      let valid := non_empty (url s) && non_empty (broadcast s) in
      if negb valid then
        hang_source_disconnect_locked ;;
        hang_source_blank_video
      else
        released (te_released e) ;;
        hang_source_reconnect (te_reconnect e).

(** Called after the session is connected. *)
Definition hang_source_start_consume (e : consume_env) (expected_gen : Z) : M unit :=
  s <- get ;;
  if (origin s <? 0) || negb (generation s =? expected_gen) then ret tt
  else
    let origin_copy := origin s in
    let broadcast_copy := broadcast s in
    call (moq_origin_consume origin_copy broadcast_copy) ;;
    let consume_h := ce_origin_consume e in
    released (ce_released1 e) ;;
    if consume_h <? 0 then
      s <- get ;;
      when (generation s =? expected_gen)
        (when (0 <=? session s)
           (call (moq_session_close (session s)) ;; modify (set_session (-1))) ;;
         when (0 <=? origin s)
           (call (moq_origin_close (origin s)) ;; modify (set_origin (-1)))) ;;
      hang_source_blank_video
    else
      s <- get ;;
      if negb (generation s =? expected_gen) then
        call (moq_consume_close consume_h)
      else
        modify (set_consume consume_h) ;;
        call (moq_consume_catalog consume_h) ;;
        let catalog_h := ce_consume_catalog e in
        if catalog_h <? 0 then
          released (ce_released2 e) ;;
          s <- get ;;
          when (generation s =? expected_gen)
            (when (0 <=? consume s)
               (call (moq_consume_close (consume s)) ;; modify (set_consume (-1))) ;;
             when (0 <=? session s)
               (call (moq_session_close (session s)) ;; modify (set_session (-1))) ;;
             when (0 <=? origin s)
               (call (moq_origin_close (origin s)) ;; modify (set_origin (-1)))) ;;
          hang_source_blank_video
        else ret tt.

(** Session status callback of the transport. *)
Definition on_session_status (e : status_env) (code : Z) : M unit :=
  s <- get ;;
  if shutting_down s then ret tt
  else if session s <? 0 then ret tt
  else
    let current_gen := generation s in
    if code =? 0 then
      released (se_released e) ;;
      hang_source_start_consume (se_consume e) current_gen
    else
      when (0 <=? session s)
        (call (moq_session_close (session s)) ;; modify (set_session (-1))) ;;
      when (0 <=? origin s)
        (call (moq_origin_close (origin s)) ;; modify (set_origin (-1))) ;;
      hang_source_blank_video.

(** Builds decoder, frame buffer and scaler outside the mutex, then swaps
    them in under it.  Returns [false], leaving the struct as it is, when
    a construction step fails. *)
Definition hang_source_init_decoder (e : init_env) (config : moq_video_config) : M bool :=
  if negb (ie_find_decoder e) then ret false
  else if negb (ie_alloc_context e) then ret false
  else
    let has_width :=
      match coded_width config with Some w => 0 <? w | None => false end in
    let has_height :=
      match coded_height config with Some h => 0 <? h | None => false end in
    let w := match coded_width config with
             | Some w => if 0 <? w then w else FRAME_WIDTH
             | None => FRAME_WIDTH
             end in
    let h := match coded_height config with
             | Some h => if 0 <? h then h else FRAME_HEIGHT
             | None => FRAME_HEIGHT
             end in
    let extradata_size :=
      if isSome (description config) && (0 <? description_len config) && ie_extradata e
      then description_len config else 0 in
    let new_codec_ctx :=
      {| cc_width := if has_width then to_int w else 0;
         cc_height := if has_height then to_int h else 0;
         cc_extradata_size := to_int extradata_size |} in
    if ie_open2 e <? 0 then ret false
    else
      let buffer_size := u32 (w * h * 4) in
      if negb (ie_bmalloc e) then ret false
      else
        let new_frame_buffer := {| buf_size := buffer_size |} in
        if negb (ie_sws_getContext e) then ret false
        else
          let new_sws_ctx := {| sws_width := to_int w; sws_height := to_int h |} in
          released (ie_released e) ;;
          modify (set_codec_ctx (Some new_codec_ctx)) ;;
          modify (set_sws_ctx (Some new_sws_ctx)) ;;
          modify (set_frame_buffer (Some new_frame_buffer)) ;;
          modify (fun s => set_frame
            {| width := w; height := h; format := VIDEO_FORMAT_RGBA;
               linesize0 := u32 (w * 4); data0 := Some new_frame_buffer;
               timestamp := 0 |} s) ;;
          modify (set_got_keyframe false) ;;
          modify (set_frames_waiting_for_keyframe 0) ;;
          modify (set_consecutive_decode_errors 0) ;;
          ret true.

(** Catalog callback of the transport; [catalog] is a handle, or negative. *)
Definition on_catalog (e : catalog_env) (catalog : Z) : M unit :=
  s <- get ;;
  if shutting_down s then
    when (0 <=? catalog) (call (moq_consume_catalog_close catalog))
  else
    let current_gen := generation s in
    if consume s <? 0 then
      when (0 <=? catalog) (call (moq_consume_catalog_close catalog))
    else if catalog <? 0 then hang_source_blank_video
    else
      match ca_video_config e with
      | None => call (moq_consume_catalog_close catalog)
      | Some video_config =>
          ok <- hang_source_init_decoder (ca_init e) video_config ;;
          if negb ok then call (moq_consume_catalog_close catalog)
          else
            call (moq_consume_video_ordered catalog) ;;
            let track := ca_video_ordered e in
            if track <? 0 then call (moq_consume_catalog_close catalog)
            else
              released (ca_released e) ;;
              s <- get ;;
              if generation s =? current_gen then
                modify (set_video_track track) ;;
                modify (set_catalog_handle catalog)
              else
                call (moq_consume_video_close track) ;;
                call (moq_consume_catalog_close catalog)
      end.

(** Lines 842-855 and 873-887: a decode failure other than [EAGAIN].  At
    the fifth in a row the decoder is flushed and the pipeline waits for a
    keyframe again. *)
Definition decode_error_locked : M unit :=
  modify (fun s => set_consecutive_decode_errors (u32 (consecutive_decode_errors s + 1)) s) ;;
  s <- get ;;
  when (5 <=? consecutive_decode_errors s)
    (call avcodec_flush_buffers ;;
     modify (set_got_keyframe false) ;;
     modify (set_consecutive_decode_errors 0)).

(** Lines 963-976: convert into the frame buffer, stamp, output, close. *)
Definition convert_and_output (frame_data : moq_frame) (frame_id : Z) : M unit :=
  s <- get ;;
  call (sws_scale (sws_ctx s) (to_int (height (frame s))) (frame_buffer s)
          (to_int (u32 (width (frame s) * 4)))) ;;
  modify (fun s => set_frame (set_timestamp (timestamp_us frame_data) (frame s)) s) ;;
  s <- get ;;
  call (obs_source_output_video (Some (frame s))) ;;
  call (moq_consume_frame_close frame_id).

(** The decode pipeline for one frame handle; runs under the mutex. *)
Definition hang_source_decode_frame (e : decode_env) (frame_id : Z) : M unit :=
  s <- get ;;
  if shutting_down s then call (moq_consume_frame_close frame_id)
  else if negb (isSome (codec_ctx s)) || negb (isSome (sws_ctx s))
          || negb (isSome (frame_buffer s))
  then call (moq_consume_frame_close frame_id)
  else
    match de_chunk e with
    | None => call (moq_consume_frame_close frame_id)
    | Some frame_data =>
      if negb (got_keyframe s) && negb (keyframe frame_data) then
        modify (set_frames_waiting_for_keyframe (u32 (frames_waiting_for_keyframe s + 1))) ;;
        call (moq_consume_frame_close frame_id)
      else
        when (keyframe frame_data)
          (when (negb (got_keyframe s)) (call avcodec_flush_buffers) ;;
           modify (set_got_keyframe true) ;;
           modify (set_frames_waiting_for_keyframe 0) ;;
           modify (set_consecutive_decode_errors 0)) ;;
        if negb (de_packet_alloc e) then call (moq_consume_frame_close frame_id)
        else
          call (avcodec_send_packet (to_int (payload_size frame_data))
                  (timestamp_us frame_data / 1000)) ;;
          if de_send_packet e <? 0 then
            when (negb (de_send_packet e =? AVERROR (EAGAIN e))) decode_error_locked ;;
            call (moq_consume_frame_close frame_id)
          else if negb (de_frame_alloc e) then call (moq_consume_frame_close frame_id)
          else
            call avcodec_receive_frame ;;
            if de_receive_frame e <? 0 then
              when (negb (de_receive_frame e =? AVERROR (EAGAIN e))) decode_error_locked ;;
              call (moq_consume_frame_close frame_id)
            else
              modify (set_consecutive_decode_errors 0) ;;
              s <- get ;;
              let fw := de_width e in
              let fh := de_height e in
              if negb (fw =? to_int (width (frame s)))
                 || negb (fh =? to_int (height (frame s)))
              then
                if (fw <=? 0) || (fh <=? 0) || (16384 <? fw) || (16384 <? fh) then
                  call (moq_consume_frame_close frame_id)
                else
                  when (isSome (sws_ctx s)) (modify (set_sws_ctx None)) ;;
                  if negb (de_sws_getContext e) then
                    call (moq_consume_frame_close frame_id)
                  else
                    let new_sws_ctx := {| sws_width := fw; sws_height := fh |} in
                    let new_buffer_size := u64 (u64 (fw * fh) * 4) in
                    if negb (de_bmalloc e) then
                      call (moq_consume_frame_close frame_id)
                    else
                      let new_frame_buffer := {| buf_size := new_buffer_size |} in
                      modify (set_sws_ctx (Some new_sws_ctx)) ;;
                      modify (set_frame_buffer (Some new_frame_buffer)) ;;
                      modify (fun s => set_frame
                        (set_data0 (Some new_frame_buffer)
                          (set_linesize0 (u32 (fw * 4))
                            (set_height (u32 fh) (set_width (u32 fw) (frame s))))) s) ;;
                      convert_and_output frame_data frame_id
              else convert_and_output frame_data frame_id
    end.

(** Video frame callback of the transport; [frame_id] is a handle, or negative. *)
Definition on_video_frame (e : frame_env) (frame_id : Z) : M unit :=
  if frame_id <? 0 then ret tt
  else
    s <- get ;;
    if shutting_down s then call (moq_consume_frame_close frame_id)
    else if consume s <? 0 then call (moq_consume_frame_close frame_id)
    else
      released (fe_released e) ;;
      hang_source_decode_frame (fe_decode e) frame_id.

(** ** Calls into the source *)

(** The entry points the host and the transport call, and the helpers a
    call may still be running when the flag is set. *)
Inductive operation : Type :=
| Update (u b : string) (now : Z)
| Tick (e : tick_env)
| SessionStatus (e : status_env) (code : Z)
| Catalog (e : catalog_env) (catalog : Z)
| VideoFrame (e : frame_env) (frame_id : Z)
| Reconnect (e : reconnect_env)
| StartConsume (e : consume_env) (expected_gen : Z)
| InitDecoder (e : init_env) (config : moq_video_config)
| DecodeFrame (e : decode_env) (frame_id : Z)
| Destroy.

Definition run (op : operation) : M unit :=
  match op with
  | Update u b now => hang_source_update u b now
  | Tick e => hang_source_video_tick e
  | SessionStatus e code => on_session_status e code
  | Catalog e catalog => on_catalog e catalog
  | VideoFrame e frame_id => on_video_frame e frame_id
  | Reconnect e => hang_source_reconnect e
  | StartConsume e expected_gen => hang_source_start_consume e expected_gen
  | InitDecoder e config => _ <- hang_source_init_decoder e config ;; ret tt
  | DecodeFrame e frame_id => hang_source_decode_frame e frame_id
  | Destroy => hang_source_destroy
  end.

Fixpoint run_all (ops : list operation) : M unit :=
  match ops with
  | [] => ret tt
  | op :: rest => run op ;; run_all rest
  end.

(** The tick and the three callbacks of the transport. *)
Definition is_callback (op : operation) : bool :=
  match op with
  | Tick _ | SessionStatus _ _ | Catalog _ _ | VideoFrame _ _ => true
  | _ => false
  end.

(** The close of the resource a callback was handed, when it was handed one. *)
Definition inbound_close (op : operation) : list event :=
  match op with
  | Catalog _ catalog =>
      if 0 <=? catalog then [moq_consume_catalog_close catalog] else []
  | VideoFrame _ frame_id =>
      if frame_id <? 0 then [] else [moq_consume_frame_close frame_id]
  | _ => []
  end.

(** What other threads do while the mutex is free never clears the flag. *)
Definition keeps_flag (other : hang_source -> hang_source) : Prop :=
  forall s, shutting_down s = true -> shutting_down (other s) = true.

(** The same, for every window in which [op] has released the mutex. *)
Definition others_keep_flag (op : operation) : Prop :=
  match op with
  | Tick e => keeps_flag (te_released e) /\ keeps_flag (re_released (te_reconnect e))
  | SessionStatus e _ =>
      keeps_flag (se_released e) /\ keeps_flag (ce_released1 (se_consume e))
      /\ keeps_flag (ce_released2 (se_consume e))
  | Catalog e _ => keeps_flag (ie_released (ca_init e)) /\ keeps_flag (ca_released e)
  | VideoFrame e _ => keeps_flag (fe_released e)
  | Reconnect e => keeps_flag (re_released e)
  | StartConsume e _ => keeps_flag (ce_released1 e) /\ keeps_flag (ce_released2 e)
  | InitDecoder e _ => keeps_flag (ie_released e)
  | Update _ _ _ | DecodeFrame _ _ | Destroy => True
  end.

(** ** What a trace contains *)

(** Calls that create a transport handle or subscription. *)
Definition creates_handle (ev : event) : bool :=
  match ev with
  | moq_origin_create | moq_session_connect _ _ | moq_origin_consume _ _
  | moq_consume_catalog _ | moq_consume_video_ordered _ => true
  | _ => false
  end.

(** A decoded frame handed to the host (not the blank signal). *)
Definition is_output_frame (ev : event) : bool :=
  match ev with
  | obs_source_output_video (Some _) => true
  | _ => false
  end.

Definition is_blank (ev : event) : bool :=
  match ev with
  | obs_source_output_video None => true
  | _ => false
  end.

Definition is_frame_close (ev : event) : bool :=
  match ev with
  | moq_consume_frame_close _ => true
  | _ => false
  end.

Definition is_origin_create (ev : event) : bool :=
  match ev with
  | moq_origin_create => true
  | _ => false
  end.

(** Calls that close a handle of the connection chain. *)
Definition closes_chain_handle (ev : event) : bool :=
  match ev with
  | moq_session_close _ | moq_origin_close _ | moq_consume_close _
  | moq_consume_catalog_close _ | moq_consume_video_close _ => true
  | _ => false
  end.

Definition count (p : event -> bool) (tr : list event) : nat :=
  length (filter p tr).

Definition none_of (p : event -> bool) (tr : list event) : Prop :=
  Forall (fun ev => p ev = false) tr.

(** The close calls of [hang_source_disconnect_locked], for the handles
    that are valid in [s]: track, catalog, consume, session, origin. *)
Definition chain_closes (s : hang_source) : list event :=
  (if 0 <=? video_track s then [moq_consume_video_close (video_track s)] else [])
  ++ (if 0 <=? catalog_handle s then [moq_consume_catalog_close (catalog_handle s)] else [])
  ++ (if 0 <=? consume s then [moq_consume_close (consume s)] else [])
  ++ (if 0 <=? session s then [moq_session_close (session s)] else [])
  ++ (if 0 <=? origin s then [moq_origin_close (origin s)] else []).

(** A handle slot after a close-if-valid. *)
Definition closed (h : Z) : Z := if 0 <=? h then -1 else h.

(** The fields of the connection chain and of the decoder. *)
Definition connection_state (s : hang_source) :=
  (url s, broadcast s, generation s, reconnect_in_progress s,
   (origin s, session s, consume s, catalog_handle s, video_track s)).

Definition decoder_state (s : hang_source) :=
  (codec_ctx s, sws_ctx s, frame_buffer s, frame s,
   (got_keyframe s, frames_waiting_for_keyframe s, consecutive_decode_errors s)).

Definition chain_handles (s : hang_source) :=
  (origin s, session s, consume s, catalog_handle s, video_track s).

(** The struct after [hang_source_disconnect_locked]. *)
Definition disconnected (s : hang_source) : hang_source :=
  set_consecutive_decode_errors 0
    (set_frames_waiting_for_keyframe 0
      (set_got_keyframe false
        (set_frame (if isSome (frame_buffer s) then set_data0 None (frame s) else frame s)
          (set_frame_buffer None
            (set_codec_ctx None
              (set_sws_ctx None
                (set_origin (closed (origin s))
                  (set_session (closed (session s))
                    (set_consume (closed (consume s))
                      (set_catalog_handle (closed (catalog_handle s))
                        (set_video_track (closed (video_track s)) s))))))))))).

(** A run of settings updates, each with the values given and the time of the call. *)
Fixpoint apply_updates (us : list (string * string * Z)) : M unit :=
  match us with
  | [] => ret tt
  | (u, b, now) :: rest => hang_source_update u b now ;; apply_updates rest
  end.

(** Whether an update with [u] and [b] changes what is pending in [s]. *)
Definition changes_pending (u b : string) (s : hang_source) : bool :=
  differs_from (pending_url s) u || differs_from (pending_broadcast s) b.

(** The struct when [hang_source_reconnect] first releases the mutex: the
    attempt is marked in progress, the generation is bumped and the old
    chain and decoder are gone. *)
Definition reconnect_begun (s : hang_source) : hang_source :=
  disconnected
    (set_generation (u32 (generation s + 1)) (set_reconnect_in_progress true s)).

(** What [hang_source_reconnect] calls up to and including the creation of
    the origin. *)
Definition reconnect_prologue (s : hang_source) : list event :=
  chain_closes s ++ [obs_source_output_video None; os_sleep_ms 50; moq_origin_create].

(** A struct with a complete chain and a running decoder, for examples:
    the source of [url], [broadcast] connected under generation 1. *)
Definition connected_example : hang_source :=
  {| url := Some "https://relay"; broadcast := Some "cam";
     pending_url := Some "https://relay"; pending_broadcast := Some "cam";
     settings_changed_time := 0; reconnect_pending := false;
     shutting_down := false;
     generation := 1; reconnect_in_progress := false;
     origin := 10; session := 11; consume := 12; catalog_handle := 13; video_track := 14;
     codec_ctx := Some {| cc_width := 1280; cc_height := 720; cc_extradata_size := 0 |};
     sws_ctx := Some {| sws_width := 1280; sws_height := 720 |};
     got_keyframe := true; frames_waiting_for_keyframe := 0; consecutive_decode_errors := 0;
     frame := {| width := 1280; height := 720; format := VIDEO_FORMAT_RGBA;
                 linesize0 := 5120; data0 := Some {| buf_size := 3686400 |};
                 timestamp := 0 |};
     frame_buffer := Some {| buf_size := 3686400 |} |}.

(** No other thread touches the struct while the mutex is free. *)
Definition undisturbed (s : hang_source) : hang_source := s.

(** Another thread starts a newer reconnect while the mutex is free. *)
Definition superseded (s : hang_source) : hang_source :=
  set_generation (u32 (generation s + 1)) s.

(** The struct after the tick adopted the pending settings as the active ones. *)
Definition adopted (s : hang_source) : hang_source :=
  set_broadcast (pending_broadcast s)
    (set_url (pending_url s) (set_reconnect_pending false s)).

(** Whether the pending settings differ from the active ones, as the tick decides it. *)
Definition settings_differ (s : hang_source) : bool :=
  setting_changed (url s) (pending_url s)
  || setting_changed (broadcast s) (pending_broadcast s).

(** Whether the pending settings are usable: both present and non-empty. *)
Definition pending_valid (s : hang_source) : bool :=
  non_empty (pending_url s) && non_empty (pending_broadcast s).

(** All three parts of the decoder are present. *)
Definition decoder_ready (s : hang_source) : bool :=
  isSome (codec_ctx s) && isSome (sws_ctx s) && isSome (frame_buffer s).

(** A run of frame handles through the decode pipeline, each with what the
    collaborators return for it. *)
Fixpoint decode_frames (fs : list (decode_env * Z)) : M unit :=
  match fs with
  | [] => ret tt
  | (e, frame_id) :: rest => hang_source_decode_frame e frame_id ;; decode_frames rest
  end.

(** The frame carried by [e], if it can be fetched, is not a keyframe. *)
Definition not_keyframe (e : decode_env) : Prop :=
  match de_chunk e with
  | Some frame_data => keyframe frame_data = false
  | None => True
  end.

(** The run [r] with the calls [t] made before it. *)
Definition after {A : Type} (t : list event) (r : A * hang_source * list event)
  : A * hang_source * list event :=
  match r with (a, s, t2) => (a, s, t ++ t2) end.

(** A decodable frame for examples: 1280x720, decoded without error. *)
Definition decodable (is_key : bool) (ts : Z) : decode_env :=
  {| de_chunk := Some {| payload_size := 4096; timestamp_us := ts; keyframe := is_key |};
     de_packet_alloc := true; de_send_packet := 0;
     de_frame_alloc := true; de_receive_frame := 0;
     de_width := 1280; de_height := 720;
     de_sws_getContext := true; de_bmalloc := true; de_EAGAIN := 11 |}.

(** The frame carried by [e] is fetched and is not a keyframe. *)
Definition fetched_non_keyframe (e : decode_env) : Prop :=
  exists frame_data, de_chunk e = Some frame_data /\ keyframe frame_data = false.

(** The decoder reports a failure other than [EAGAIN], on the send or on
    the receive. *)
Definition genuine_failure (e : decode_env) : bool :=
  if de_send_packet e <? 0 then negb (de_send_packet e =? AVERROR (EAGAIN e))
  else de_frame_alloc e && (de_receive_frame e <? 0)
       && negb (de_receive_frame e =? AVERROR (EAGAIN e)).

(** The decoder reports [EAGAIN]: it needs more input. *)
Definition needs_more_input (e : decode_env) : bool :=
  if de_send_packet e <? 0 then de_send_packet e =? AVERROR (EAGAIN e)
  else de_frame_alloc e && (de_receive_frame e =? AVERROR (EAGAIN e)).

(** The frame reaches the decoder: the pipeline is running, the decoder is
    there, the frame is fetched, a keyframe has been seen or this is one,
    and the packet is allocated. *)
Definition reaches_decoder (e : decode_env) (s : hang_source) (frame_data : moq_frame) : Prop :=
  shutting_down s = false /\ decoder_ready s = true /\
  de_chunk e = Some frame_data /\
  (got_keyframe s = true \/ keyframe frame_data = true) /\
  de_packet_alloc e = true.

(** The frame is decoded: it reaches the decoder, and send and receive succeed. *)
Definition decoded (e : decode_env) (s : hang_source) (frame_data : moq_frame) : Prop :=
  reaches_decoder e s frame_data /\
  0 <= de_send_packet e /\ de_frame_alloc e = true /\ 0 <= de_receive_frame e.

(** The decoded geometry differs from the one of the frame buffer. *)
Definition geometry_differs (e : decode_env) (s : hang_source) : Prop :=
  de_width e <> to_int (width (frame s)) \/ de_height e <> to_int (height (frame s)).


(** The video configuration of a 1280x720 stream. *)
Definition config_1280x720 : moq_video_config :=
  {| coded_width := Some 1280; coded_height := Some 720;
     description := None; description_len := 0 |}.

(** A struct whose decoder has just been initialised for 1280x720. *)
Definition waiting_example : hang_source :=
  {| url := None; broadcast := None;
     pending_url := None; pending_broadcast := None;
     settings_changed_time := 0; reconnect_pending := false;
     shutting_down := false;
     generation := 0; reconnect_in_progress := false;
     origin := -1; session := -1; consume := -1; catalog_handle := -1; video_track := -1;
     codec_ctx := Some {| cc_width := 1280; cc_height := 720; cc_extradata_size := 0 |};
     sws_ctx := Some {| sws_width := 1280; sws_height := 720 |};
     got_keyframe := false; frames_waiting_for_keyframe := 0; consecutive_decode_errors := 0;
     frame := {| width := 1280; height := 720; format := VIDEO_FORMAT_RGBA;
                 linesize0 := 5120; data0 := Some {| buf_size := 3686400 |};
                 timestamp := 0 |};
     frame_buffer := Some {| buf_size := 3686400 |} |}.

(** A decoder set up for 1280x720 by a catalog, for examples. *)
Definition catalog_1280x720 : catalog_env :=
  {| ca_video_config := Some config_1280x720;
     ca_init := {| ie_released := undisturbed; ie_find_decoder := true;
                   ie_alloc_context := true; ie_extradata := true; ie_open2 := 0;
                   ie_bmalloc := true; ie_sws_getContext := true |};
     ca_released := undisturbed;
     ca_video_ordered := 14 |}.

(** A frame the decoder rejects with [AVERROR_INVALIDDATA]-like code [-22]. *)
Definition undecodable (is_key : bool) (ts : Z) : decode_env :=
  {| de_chunk := Some {| payload_size := 4096; timestamp_us := ts; keyframe := is_key |};
     de_packet_alloc := true; de_send_packet := -22;
     de_frame_alloc := true; de_receive_frame := 0;
     de_width := 1280; de_height := 720;
     de_sws_getContext := true; de_bmalloc := true; de_EAGAIN := 11 |}.

(** The geometry the pipeline accepts. *)
Definition geometry_in_range (e : decode_env) : Prop :=
  0 < de_width e <= 16384 /\ 0 < de_height e <= 16384.





(** A decoded frame of 640x480, everything succeeding. *)
Definition decoded_640x480 : decode_env :=
  {| de_chunk := Some {| payload_size := 4096; timestamp_us := 1000; keyframe := false |};
     de_packet_alloc := true; de_send_packet := 0;
     de_frame_alloc := true; de_receive_frame := 0;
     de_width := 640; de_height := 480;
     de_sws_getContext := true; de_bmalloc := true; de_EAGAIN := 11 |}.

(** The close of a handle slot, when the slot holds a handle. *)
Definition close_if_valid (close : Z -> event) (h : Z) : list event :=
  if 0 <=? h then [close h] else [].

(** A catalog for 1280x720 whose video track cannot be subscribed. *)
Definition catalog_without_track : catalog_env :=
  {| ca_video_config := Some config_1280x720;
     ca_init := ca_init catalog_1280x720;
     ca_released := undisturbed;
     ca_video_ordered := -1 |}.

(** A struct that consumes a broadcast and waits for its first catalog:
    origin, session and consume handle, no decoder yet. *)
Definition consuming_example : hang_source :=
  {| url := Some "https://relay"; broadcast := Some "cam";
     pending_url := Some "https://relay"; pending_broadcast := Some "cam";
     settings_changed_time := 0; reconnect_pending := false;
     shutting_down := false;
     generation := 1; reconnect_in_progress := false;
     origin := 10; session := 11; consume := 12; catalog_handle := -1; video_track := -1;
     codec_ctx := None; sws_ctx := None;
     got_keyframe := false; frames_waiting_for_keyframe := 0; consecutive_decode_errors := 0;
     frame := {| width := FRAME_WIDTH; height := FRAME_HEIGHT; format := VIDEO_FORMAT_RGBA;
                 linesize0 := FRAME_WIDTH * 4; data0 := None; timestamp := 0 |};
     frame_buffer := None |}.

(** A struct whose session has just connected: origin and session only. *)
Definition session_example : hang_source :=
  set_consume (-1) consuming_example.

(** The broadcast cannot be consumed. *)
Definition no_broadcast : consume_env :=
  {| ce_released1 := undisturbed; ce_origin_consume := -1;
     ce_released2 := undisturbed; ce_consume_catalog := 0 |}.

(** Collaborators that succeed, with no other thread in the way. *)
Definition reconnect_example : reconnect_env :=
  {| re_released := undisturbed; re_origin_create := 20; re_session_connect := 21 |}.

Definition tick_example (now : Z) : tick_env :=
  {| te_now := now; te_released := undisturbed; te_reconnect := reconnect_example |}.

Definition status_example : status_env :=
  {| se_released := undisturbed;
     se_consume := {| ce_released1 := undisturbed; ce_origin_consume := 22;
                      ce_released2 := undisturbed; ce_consume_catalog := 23 |} |}.

Definition frame_example : frame_env :=
  {| fe_released := undisturbed; fe_decode := decodable true 777 |}.

(** The struct once [hang_source_destroy] has set the flag and torn down. *)
Definition destroyed_example : hang_source :=
  state_of (hang_source_destroy connected_example).

(** A flush of the decoder. *)
Definition is_flush (ev : event) : bool :=
  match ev with
  | avcodec_flush_buffers => true
  | _ => false
  end.

(** The frame carried by [e] is fetched, is not a keyframe, gets its
    packet, and the decoder fails on it with an error other than [EAGAIN]. *)
Definition fails_in_decoder (e : decode_env) : Prop :=
  fetched_non_keyframe e /\ de_packet_alloc e = true /\ genuine_failure e = true.

(** [consecutive_decode_errors] after each frame of a run. *)
Fixpoint error_counts (fs : list (decode_env * Z)) (s : hang_source) : list Z :=
  match fs with
  | [] => []
  | (e, frame_id) :: rest =>
      let s1 := state_of (hang_source_decode_frame e frame_id s) in
      consecutive_decode_errors s1 :: error_counts rest s1
  end.

(** Five frames in a row that the decoder rejects, none a keyframe. *)
Definition five_failures : list (decode_env * Z) :=
  [(undecodable false 0, 1); (undecodable false 33, 2); (undecodable false 66, 3);
   (undecodable false 100, 4); (undecodable false 133, 5)].

(** Nine frames in a row that the decoder rejects, every fourth a keyframe. *)
Definition failing_gops : list (decode_env * Z) :=
  [(undecodable true 0, 1); (undecodable false 33, 2); (undecodable false 66, 3);
   (undecodable false 100, 4);
   (undecodable true 133, 5); (undecodable false 166, 6); (undecodable false 200, 7);
   (undecodable false 233, 8);
   (undecodable true 266, 9)].

(** ** Windows, field groups and invariants *)

(** The critical sections of other threads that [op] lets in: one for each
    point at which it takes the mutex again, in program order. *)
Definition windows (op : operation) : list (hang_source -> hang_source) :=
  match op with
  | Tick e => [te_released e; re_released (te_reconnect e)]
  | SessionStatus e _ =>
      [se_released e; ce_released1 (se_consume e); ce_released2 (se_consume e)]
  | Catalog e _ => [ie_released (ca_init e); ca_released e]
  | VideoFrame e _ => [fe_released e]
  | Reconnect e => [re_released e]
  | StartConsume e _ => [ce_released1 e; ce_released2 e]
  | InitDecoder e _ => [ie_released e]
  | Update _ _ _ | DecodeFrame _ _ | Destroy => []
  end.

(** No other thread touches the struct while [op] has released the mutex. *)
Definition quiet (op : operation) : Prop :=
  Forall (fun other => forall s, other s = s) (windows op).

(** The other threads leave the part [part] of the struct as it is. *)
Definition windows_keep {A : Type} (part : hang_source -> A) (op : operation) : Prop :=
  Forall (fun other => forall s, part (other s) = part s) (windows op).

(** The other threads preserve the invariant [P]. *)
Definition windows_preserve (P : hang_source -> Prop) (op : operation) : Prop :=
  Forall (fun other => forall s, P s -> P (other s)) (windows op).

(** The settings: the active pair, the pending pair and the debounce state. *)
Definition settings_state (s : hang_source) :=
  (url s, broadcast s, pending_url s, pending_broadcast s,
   (settings_changed_time s, reconnect_pending s)).

Definition is_catalog_close (ev : event) : bool :=
  match ev with
  | moq_consume_catalog_close _ => true
  | _ => false
  end.

(** The geometry [hang_source_init_decoder] works with: the coded width and
    height of the configuration where it has them and they are not zero,
    [FRAME_WIDTH] and [FRAME_HEIGHT] otherwise. *)
Definition config_width (config : moq_video_config) : Z :=
  match coded_width config with
  | Some w => if 0 <? w then w else FRAME_WIDTH
  | None => FRAME_WIDTH
  end.

Definition config_height (config : moq_video_config) : Z :=
  match coded_height config with
  | Some h => if 0 <? h then h else FRAME_HEIGHT
  | None => FRAME_HEIGHT
  end.

(** A configuration without geometry and with a codec description. *)
Definition config_without_geometry : moq_video_config :=
  {| coded_width := None; coded_height := Some 0;
     description := Some [1; 100; 0; 31]; description_len := 4 |}.

(** The error count is below the threshold of the resynchronisation. *)
Definition errors_bounded (s : hang_source) : Prop :=
  0 <= consecutive_decode_errors s < 5.

(** Scaler, frame buffer and frame agree: the frame has a geometry the
    pipeline accepts, is RGBA with lines of width x 4 bytes and points at
    the frame buffer; a scaler that exists is one for that geometry and a
    buffer that exists has width x height x 4 bytes. *)
Definition pipeline_consistent (s : hang_source) : Prop :=
  (0 < width (frame s) <= 16384 /\ 0 < height (frame s) <= 16384) /\
  linesize0 (frame s) = width (frame s) * 4 /\
  format (frame s) = VIDEO_FORMAT_RGBA /\
  data0 (frame s) = frame_buffer s /\
  match sws_ctx s with
  | Some c => sws_width c = width (frame s) /\ sws_height c = height (frame s)
  | None => True
  end /\
  match frame_buffer s with
  | Some b => buf_size b = width (frame s) * height (frame s) * 4
  | None => True
  end.

(** The geometry of a configuration is one the decode path accepts. *)
Definition config_in_range (config : moq_video_config) : Prop :=
  config_width config <= 16384 /\ config_height config <= 16384.

(** The same, for the configuration an operation initialises a decoder with. *)
Definition catalog_in_range (op : operation) : Prop :=
  match op with
  | Catalog e _ =>
      match ca_video_config e with
      | Some config => config_in_range config
      | None => True
      end
  | InitDecoder _ config => config_in_range config
  | _ => True
  end.

(** The operations that assign a setting, the generation, and the flag. *)
Definition writes_settings (op : operation) : bool :=
  match op with
  | Update _ _ _ | Tick _ => true
  | _ => false
  end.

Definition writes_generation (op : operation) : bool :=
  match op with
  | Tick _ | Reconnect _ => true
  | _ => false
  end.

Definition writes_flag (op : operation) : bool :=
  match op with
  | Destroy => true
  | _ => false
  end.

(** Collaborators that hand out the handles given, succeed in building the
    decoder, and meet no other thread on the way. *)
Definition consumes (consume_h catalog_h : Z) : status_env :=
  {| se_released := undisturbed;
     se_consume := {| ce_released1 := undisturbed; ce_origin_consume := consume_h;
                      ce_released2 := undisturbed; ce_consume_catalog := catalog_h |} |}.

Definition subscribes (config : moq_video_config) (track : Z) : catalog_env :=
  {| ca_video_config := Some config;
     ca_init := {| ie_released := undisturbed; ie_find_decoder := true;
                   ie_alloc_context := true; ie_extradata := true; ie_open2 := 0;
                   ie_bmalloc := true; ie_sws_getContext := true |};
     ca_released := undisturbed;
     ca_video_ordered := track |}.

(** The struct of a new source, after [hang_source_create]. *)
Definition created (u b : string) (now : Z) : hang_source :=
  set_reconnect_pending true
    (set_settings_changed_time now
      (set_pending_broadcast (Some b) (set_pending_url (Some u) hang_source_initial))).

(** ** Reasoning tools *)

(** Computes through the monad and through reads of assigned fields. *)
Ltac msimpl :=
  cbn [bind ret get modify call when released state_of trace_of value_of
       fst snd app negb andb orb isSome
       url broadcast pending_url pending_broadcast settings_changed_time
       reconnect_pending shutting_down generation reconnect_in_progress
       origin session consume catalog_handle video_track codec_ctx sws_ctx
       got_keyframe frames_waiting_for_keyframe consecutive_decode_errors
       frame frame_buffer
       set_url set_broadcast set_pending_url set_pending_broadcast
       set_settings_changed_time set_reconnect_pending set_shutting_down
       set_generation set_reconnect_in_progress set_origin set_session
       set_consume set_catalog_handle set_video_track set_codec_ctx set_sws_ctx
       set_got_keyframe set_frames_waiting_for_keyframe
       set_consecutive_decode_errors set_frame set_frame_buffer
       width height format linesize0 data0 timestamp
       set_width set_height set_format set_linesize0 set_data0 set_timestamp] in *.

Lemma bind_eq {A B : Type} (c : M A) (k : A -> M B) (s : hang_source)
    (a : A) (s1 : hang_source) (t1 : list event) :
  c s = (a, s1, t1) ->
  bind c k s = match k a s1 with (b, s2, t2) => (b, s2, t1 ++ t2) end.
Proof. intros H. unfold bind. rewrite H. reflexivity. Qed.

(** Runs the sub-computation at the head of a [bind] by its equation [L]. *)
Ltac mrun L := erewrite bind_eq by (apply L); msimpl.

(** *** Running a computation step by step *)

Lemma bind_ret {A B : Type} (a : A) (k : A -> M B) (s : hang_source) :
  bind (ret a) k s = k a s.
Proof. unfold bind, ret. now destruct (k a s) as [[? ?] ?]. Qed.

Lemma bind_get {B : Type} (k : hang_source -> M B) (s : hang_source) :
  bind get k s = k s s.
Proof. unfold bind, get. now destruct (k s s) as [[? ?] ?]. Qed.

Lemma bind_modify {B : Type} (f : hang_source -> hang_source) (k : unit -> M B)
    (s : hang_source) :
  bind (modify f) k s = k tt (f s).
Proof. unfold bind, modify. now destruct (k tt (f s)) as [[? ?] ?]. Qed.

Lemma bind_call {B : Type} (ev : event) (k : unit -> M B) (s : hang_source) :
  bind (call ev) k s = after [ev] (k tt s).
Proof. reflexivity. Qed.

Lemma bind_assoc {A B C : Type} (c : M A) (k1 : A -> M B) (k2 : B -> M C)
    (s : hang_source) :
  bind (bind c k1) k2 s = bind c (fun a => bind (k1 a) k2) s.
Proof.
  unfold bind. destruct (c s) as [[a s1] t1]. destruct (k1 a s1) as [[b s2] t2].
  destruct (k2 b s2) as [[? ?] ?]. now rewrite app_assoc.
Qed.

Lemma bind_when {B : Type} (b : bool) (c : M unit) (k : unit -> M B) (s : hang_source) :
  bind (when b c) k s = if b then bind c k s else k tt s.
Proof. destruct b; [reflexivity | apply bind_ret]. Qed.

Lemma bind_if {A B : Type} (b : bool) (c1 c2 : M A) (k : A -> M B) (s : hang_source) :
  bind (if b then c1 else c2) k s = if b then bind c1 k s else bind c2 k s.
Proof. now destruct b. Qed.

Lemma when_run (b : bool) (c : M unit) (s : hang_source) :
  when b c s = if b then c s else (tt, s, []).
Proof. now destruct b. Qed.

Lemma if_run {A : Type} (b : bool) (c1 c2 : M A) (s : hang_source) :
  (if b then c1 else c2) s = if b then c1 s else c2 s.
Proof. now destruct b. Qed.

Lemma after_after {A : Type} (t1 t2 : list event) (r : A * hang_source * list event) :
  after t1 (after t2 r) = after (t1 ++ t2) r.
Proof. destruct r as [[? ?] ?]. cbn. now rewrite app_assoc. Qed.

Lemma after_result {A : Type} (t : list event) (a : A) (s : hang_source) (t2 : list event) :
  after t (a, s, t2) = (a, s, t ++ t2).
Proof. reflexivity. Qed.

(** Reads of assigned fields, and the booleans and lists around them. *)
Ltac fields :=
  cbn [fst snd app negb andb orb isSome
       url broadcast pending_url pending_broadcast settings_changed_time
       reconnect_pending shutting_down generation reconnect_in_progress
       origin session consume catalog_handle video_track codec_ctx sws_ctx
       got_keyframe frames_waiting_for_keyframe consecutive_decode_errors
       frame frame_buffer
       set_url set_broadcast set_pending_url set_pending_broadcast
       set_settings_changed_time set_reconnect_pending set_shutting_down
       set_generation set_reconnect_in_progress set_origin set_session
       set_consume set_catalog_handle set_video_track set_codec_ctx set_sws_ctx
       set_got_keyframe set_frames_waiting_for_keyframe
       set_consecutive_decode_errors set_frame set_frame_buffer
       width height format linesize0 data0 timestamp
       set_width set_height set_format set_linesize0 set_data0 set_timestamp] in *.

Lemma bind_run {A B : Type} (c : M A) (k : A -> M B) (s : hang_source)
    (a : A) (s1 : hang_source) (t1 : list event) :
  c s = (a, s1, t1) -> bind c k s = after t1 (k a s1).
Proof. intros H. unfold bind, after. now rewrite H. Qed.

(** One step of the run [x] at the head of the goal [r = ... -> ...]. *)
Ltac mstep_at x :=
  lazymatch x with
  | bind (bind ?c ?k1) ?k2 ?s => rewrite (bind_assoc c k1 k2 s)
  | bind (ret ?a) ?k ?s => rewrite (bind_ret a k s)
  | bind get ?k ?s => rewrite (bind_get k s)
  | bind (modify ?f) ?k ?s => rewrite (bind_modify f k s)
  | bind (released ?f) ?k ?s =>
      change (bind (released f) k s) with (bind (modify f) k s);
      rewrite (bind_modify f k s)
  | bind (call ?ev) ?k ?s => rewrite (bind_call ev k s)
  | bind (when ?b ?c) ?k ?s => rewrite (bind_when b c k s)
  | bind (if ?b then ?c1 else ?c2) ?k ?s => rewrite (bind_if b c1 c2 k s)
  | when ?b ?c ?s => rewrite (when_run b c s)
  | (if ?b then ?c1 else ?c2) ?s => rewrite (if_run b c1 c2 s)
  | ret ?a ?s => change (ret a s) with (a, s, @nil event)
  | call ?ev ?s => change (call ev s) with (tt, s, [ev])
  | modify ?f ?s => change (modify f s) with (tt, f s, @nil event)
  | released ?f ?s => change (released f s) with (tt, f s, @nil event)
  | after ?t1 (after ?t2 ?r) => rewrite (after_after t1 t2 r)
  | after ?t (?a, ?s, ?t2) => rewrite (after_result t a s t2)
  | after _ ?y => mstep_at y
  end.

(** The condition the run is waiting for, in program order. *)
Ltac stuck t :=
  lazymatch t with
  | after _ ?x => stuck x
  | if ?b then _ else _ => b
  | (if ?b then _ else _) _ => b
  | bind (if ?b then _ else _) _ _ => b
  | bind (when ?b _) _ _ => b
  | when ?b _ _ => b
  | (match ?o with Some _ => _ | None => _ end) _ => o
  | match ?o with Some _ => _ | None => _ end => o
  | bind (match ?o with Some _ => _ | None => _ end) _ _ => o
  end.

(** Names the run [f] in the goal: [r = f -> ...]. *)
Ltac mstart f :=
  let r := fresh "r" in
  let Hr := fresh "Hr" in
  remember f as r eqn:Hr; revert Hr.

(** Decides the next condition: by a hypothesis when one settles it,
    by cases otherwise. *)
Ltac mcase :=
  lazymatch goal with
  | |- _ = ?t -> _ =>
      let b := stuck t in
      first
        [ match goal with H : b = _ |- _ => rewrite H end
        | let E := fresh "E" in destruct b eqn:E ];
      cbv beta iota; fields
  end.

Ltac mstep :=
  lazymatch goal with
  | |- _ = ?t -> _ => mstep_at t; cbv beta; fields
  end.

(** Runs to the results, one goal per path. *)
Ltac mexec := repeat first [mstep | mcase].

(** The run has reached a result. *)
Ltac mdone :=
  lazymatch goal with
  | |- _ = (_, _, _) -> _ => intros ->; cbn [state_of trace_of value_of fst snd]; fields
  end.

(** [mexec], with the conditions that [tac] settles rewritten on the way. *)
Ltac mexec_by tac :=
  repeat first [mstep | progress (tac; cbv beta iota; fields) | mcase].

(** *** Handles and traces *)

Lemma closed_neg (h : Z) : closed h < 0.
Proof. unfold closed. destruct (0 <=? h) eqn:E; [lia | apply Z.leb_gt in E; lia]. Qed.

Lemma hang_source_destroy_decoder_locked_eq (s : hang_source) :
  hang_source_destroy_decoder_locked s =
  (tt,
   set_frame (if isSome (frame_buffer s) then set_data0 None (frame s) else frame s)
     (set_frame_buffer None (set_codec_ctx None (set_sws_ctx None s))),
   []).
Proof.
  unfold hang_source_destroy_decoder_locked.
  destruct s as [? ? ? ? ? ? ? ? ? ? ? ? ? ? cc sw ? ? ? fr fb].
  destruct cc, sw, fb; reflexivity.
Qed.

Lemma hang_source_disconnect_locked_eq (s : hang_source) :
  hang_source_disconnect_locked s = (tt, disconnected s, chain_closes s).
Proof.
  unfold hang_source_disconnect_locked, disconnected, chain_closes, closed.
  destruct (0 <=? video_track s) eqn:E1, (0 <=? catalog_handle s) eqn:E2,
    (0 <=? consume s) eqn:E3, (0 <=? session s) eqn:E4, (0 <=? origin s) eqn:E5;
    msimpl; rewrite ?E1, ?E2, ?E3, ?E4, ?E5; msimpl;
    mrun hang_source_destroy_decoder_locked_eq;
    destruct s; reflexivity.
Qed.

(** ** Settings update *)

Lemma differs_from_false (stored : option string) (v : string) :
  differs_from stored v = false -> stored = Some v.
Proof.
  destruct stored as [p|]; cbn; [|discriminate].
  intros H. apply negb_false_iff, String.eqb_eq in H. now subst.
Qed.

Lemma hang_source_update_eq (u b : string) (now : Z) (s : hang_source) :
  hang_source_update u b now s =
  (tt,
   (let s1 := if differs_from (pending_url s) u then set_pending_url (Some u) s else s in
    let s2 := if differs_from (pending_broadcast s) b
              then set_pending_broadcast (Some b) s1 else s1 in
    if differs_from (pending_url s) u || differs_from (pending_broadcast s) b
    then set_reconnect_pending true (set_settings_changed_time now s2) else s2),
   []).
Proof.
  unfold hang_source_update. msimpl.
  destruct (differs_from (pending_url s) u), (differs_from (pending_broadcast s) b);
    reflexivity.
Qed.

(** What the last update leaves pending, and when the clock restarts. *)
Lemma hang_source_update_pending (u b : string) (now : Z) (s : hang_source) :
  let s' := state_of (hang_source_update u b now s) in
  pending_url s' = Some u /\
  pending_broadcast s' = Some b /\
  (changes_pending u b s = true -> settings_changed_time s' = now) /\
  (changes_pending u b s = false -> s' = s).
Proof.
  cbv zeta. rewrite hang_source_update_eq. unfold changes_pending.
  destruct (differs_from (pending_url s) u) eqn:Eu,
           (differs_from (pending_broadcast s) b) eqn:Eb; msimpl;
    try apply differs_from_false in Eu; try apply differs_from_false in Eb;
    repeat split; auto; discriminate.
Qed.

(** C9 (amended).  Every settings update leaves the given url and broadcast
    name as the pending configuration, makes no collaborator call and leaves
    the connection, the decoder and the shutdown flag alone.  When a given
    value differs from the pending one (or none is pending yet) the call
    records [now] as [settings_changed_time] and sets [reconnect_pending];
    when both are the pending values already, the struct is left as it is. *)
Theorem hang_source_update_stages_intent (u b : string) (now : Z) (s : hang_source) :
  let r := hang_source_update u b now s in
  pending_url (state_of r) = Some u /\
  pending_broadcast (state_of r) = Some b /\
  trace_of r = [] /\
  connection_state (state_of r) = connection_state s /\
  decoder_state (state_of r) = decoder_state s /\
  shutting_down (state_of r) = shutting_down s /\
  (changes_pending u b s = true ->
   settings_changed_time (state_of r) = now /\ reconnect_pending (state_of r) = true) /\
  (changes_pending u b s = false -> state_of r = s).
Proof.
  cbv zeta. rewrite hang_source_update_eq. unfold changes_pending.
  unfold connection_state, decoder_state.
  destruct (differs_from (pending_url s) u) eqn:Eu,
           (differs_from (pending_broadcast s) b) eqn:Eb; msimpl;
    try apply differs_from_false in Eu; try apply differs_from_false in Eb;
    repeat split; auto; discriminate.
Qed.

Lemma hang_source_update_stages_intent_witness :
  let r := hang_source_update "https://relay" "cam" 42 hang_source_initial in
  settings_changed_time (state_of r) = 42 /\ reconnect_pending (state_of r) = true.
Proof.
  cbv zeta.
  destruct (hang_source_update_stages_intent "https://relay" "cam" 42 hang_source_initial)
    as (_ & _ & _ & _ & _ & _ & H & _).
  apply H. reflexivity.
Defined.

(** C9 as stated fails: an update that repeats the pending values neither
    records the time nor sets [reconnect_pending].  The source is created
    at time 0, the tick applies the settings after 600 ms, and the same
    values are given again at 700 ms. *)
Lemma hang_source_update_repeated_values :
  let s0 := fst (hang_source_create "https://relay" "cam" 0) in
  let e := {| te_now := 600000000; te_released := fun s => s;
              te_reconnect := {| re_released := fun s => s;
                                 re_origin_create := 1; re_session_connect := 2 |} |} in
  let s1 := state_of (hang_source_video_tick e s0) in
  let s2 := state_of (hang_source_update "https://relay" "cam" 700000000 s1) in
  reconnect_pending s1 = false /\
  reconnect_pending s2 = false /\
  settings_changed_time s2 = 0 /\
  settings_changed_time s2 <> 700000000.
Proof. vm_compute. repeat split; discriminate. Qed.

(** ** Reconnect *)

Lemma chain_closes_frame (s : hang_source) (g : Z) (b : bool) :
  chain_closes (set_generation g (set_reconnect_in_progress b s)) = chain_closes s.
Proof. reflexivity. Qed.

Lemma hang_source_reconnect_eq (e : reconnect_env) (s : hang_source) :
  reconnect_in_progress s = false ->
  hang_source_reconnect e s =
  (let new_gen := u32 (generation s + 1) in
   let s2 := re_released e (reconnect_begun s) in
   let new_origin := re_origin_create e in
   let new_session := re_session_connect e in
   if new_origin <? 0 then
     (tt, set_reconnect_in_progress false s2, reconnect_prologue s)
   else if new_session <? 0 then
     (tt, set_reconnect_in_progress false s2,
      reconnect_prologue s
      ++ [moq_session_connect (url s) new_origin; moq_origin_close new_origin])
   else if generation s2 =? new_gen then
     (tt,
      set_reconnect_in_progress false (set_session new_session (set_origin new_origin s2)),
      reconnect_prologue s ++ [moq_session_connect (url s) new_origin])
   else
     (tt, set_reconnect_in_progress false s2,
      reconnect_prologue s
      ++ [moq_session_connect (url s) new_origin;
          moq_session_close new_session; moq_origin_close new_origin])).
Proof.
  intros Hrip. unfold hang_source_reconnect, reconnect_prologue, reconnect_begun.
  msimpl. rewrite Hrip. msimpl.
  mrun hang_source_disconnect_locked_eq.
  unfold hang_source_blank_video. msimpl.
  rewrite chain_closes_frame.
  destruct (re_origin_create e <? 0); msimpl; [reflexivity|].
  destruct (re_session_connect e <? 0); msimpl.
  - now rewrite <- app_assoc.
  - destruct (generation _ =? u32 (generation s + 1)); msimpl;
      now rewrite <- app_assoc.
Qed.

Lemma u32_small (x : Z) : 0 <= x < 2 ^ 32 -> u32 x = x.
Proof. intros H. unfold u32. now apply Z.mod_small. Qed.



(** ** The tick *)

Lemma hang_source_video_tick_eq (e : tick_env) (s : hang_source) :
  hang_source_video_tick e s =
  if shutting_down s then (tt, s, [])
  else if negb (reconnect_pending s) then (tt, s, [])
  else if elapsed_ms (te_now e) s <? DEBOUNCE_DELAY_MS then (tt, s, [])
  else if negb (settings_differ s) then (tt, set_reconnect_pending false s, [])
  else if negb (pending_valid s) then
    (tt, disconnected (adopted s), chain_closes s ++ [obs_source_output_video None])
  else hang_source_reconnect (te_reconnect e) (te_released e (adopted s)).
Proof.
  unfold hang_source_video_tick, settings_differ, pending_valid, adopted.
  msimpl.
  destruct (shutting_down s); [reflexivity|].
  destruct (reconnect_pending s); [|reflexivity]. msimpl.
  destruct (elapsed_ms (te_now e) s <? DEBOUNCE_DELAY_MS); [reflexivity|].
  msimpl. rewrite negb_orb.
  destruct (negb (setting_changed (url s) (pending_url s))
            && negb (setting_changed (broadcast s) (pending_broadcast s)));
    [reflexivity|]. msimpl.
  destruct (non_empty (pending_url s) && non_empty (pending_broadcast s)); msimpl.
  - now destruct (hang_source_reconnect _ _) as [[[] ?] ?].
  - mrun hang_source_disconnect_locked_eq. unfold hang_source_blank_video. msimpl.
    reflexivity.
Qed.

Lemma chain_closes_only_closes (s : hang_source) :
  Forall (fun ev => closes_chain_handle ev = true) (chain_closes s).
Proof.
  unfold chain_closes.
  destruct (0 <=? video_track s), (0 <=? catalog_handle s), (0 <=? consume s),
    (0 <=? session s), (0 <=? origin s); cbn; repeat constructor.
Qed.

Lemma chain_closes_none_of (p : event -> bool) (s : hang_source) :
  (forall ev, closes_chain_handle ev = true -> p ev = false) ->
  none_of p (chain_closes s).
Proof.
  intros H. unfold none_of.
  eapply Forall_impl; [|apply chain_closes_only_closes]. exact H.
Qed.

Lemma chain_closes_count (p : event -> bool) (s : hang_source) :
  (forall ev, closes_chain_handle ev = true -> p ev = false) ->
  count p (chain_closes s) = 0%nat.
Proof.
  intros H. unfold count.
  pose proof (chain_closes_only_closes s) as Hall.
  induction Hall as [|ev l Hev _ IH]; [reflexivity|].
  cbn. now rewrite (H ev Hev).
Qed.

Lemma count_app (p : event -> bool) (t1 t2 : list event) :
  count p (t1 ++ t2) = (count p t1 + count p t2)%nat.
Proof. unfold count. now rewrite filter_app, length_app. Qed.

Lemma none_of_app (p : event -> bool) (t1 t2 : list event) :
  none_of p t1 -> none_of p t2 -> none_of p (t1 ++ t2).
Proof. intros H1 H2. apply Forall_app. now split. Qed.

Ltac by_event := intros [] ; cbn; congruence.

(** C8.  When the debounce window has elapsed and the settings the tick
    adopts are unusable (the url or the broadcast name is empty or absent),
    the tick closes whatever chain exists, inside its critical section,
    emits the blank signal, and calls nothing that creates a handle: no
    connection attempt is made. *)
Theorem hang_source_video_tick_invalid_settings (e : tick_env) (s : hang_source) :
  shutting_down s = false ->
  reconnect_pending s = true ->
  DEBOUNCE_DELAY_MS <= elapsed_ms (te_now e) s ->
  settings_differ s = true ->
  pending_valid s = false ->
  let r := hang_source_video_tick e s in
  url (state_of r) = pending_url s /\
  broadcast (state_of r) = pending_broadcast s /\
  reconnect_pending (state_of r) = false /\
  trace_of r = chain_closes s ++ [obs_source_output_video None] /\
  (origin (state_of r) < 0 /\ session (state_of r) < 0 /\ consume (state_of r) < 0 /\
   catalog_handle (state_of r) < 0 /\ video_track (state_of r) < 0) /\
  (codec_ctx (state_of r) = None /\ sws_ctx (state_of r) = None /\
   frame_buffer (state_of r) = None) /\
  none_of creates_handle (trace_of r).
Proof.
  intros Hsd Hrp Hel Hdiff Hval. cbv zeta.
  rewrite hang_source_video_tick_eq, Hsd, Hrp, Hdiff, Hval.
  apply Z.ltb_ge in Hel. rewrite Hel. cbn [negb state_of trace_of fst snd].
  repeat split; try apply closed_neg.
  apply none_of_app; [apply chain_closes_none_of; by_event | repeat constructor].
Qed.

(** The scenario of the specification: url empty, broadcast ["x"], tick
    after the debounce window. *)
Lemma hang_source_video_tick_invalid_settings_witness :
  let s := fst (hang_source_create EmptyString "x" 0) in
  let e := {| te_now := 500000000; te_released := undisturbed;
              te_reconnect := {| re_released := undisturbed;
                                 re_origin_create := 1; re_session_connect := 2 |} |} in
  trace_of (hang_source_video_tick e s) = [obs_source_output_video None] /\
  none_of creates_handle (trace_of (hang_source_video_tick e s)).
Proof.
  cbv zeta.
  destruct (hang_source_video_tick_invalid_settings
    {| te_now := 500000000; te_released := undisturbed;
       te_reconnect := {| re_released := undisturbed;
                          re_origin_create := 1; re_session_connect := 2 |} |}
    (fst (hang_source_create EmptyString "x" 0)))
    as (_ & _ & _ & Ht & _ & _ & Hn);
    [reflexivity | reflexivity | vm_compute; discriminate | reflexivity | reflexivity |].
  split; [exact Ht | exact Hn].
Defined.

Lemma apply_updates_cons (u b : string) (t : Z) (us : list (string * string * Z))
    (s : hang_source) :
  apply_updates ((u, b, t) :: us) s =
  apply_updates us (state_of (hang_source_update u b t s)).
Proof.
  cbn [apply_updates]. erewrite bind_eq by apply hang_source_update_eq.
  rewrite hang_source_update_eq. cbn [state_of fst snd app].
  now destruct (apply_updates us _) as [[[] ?] ?].
Qed.

Lemma apply_updates_snoc (us : list (string * string * Z)) (u b : string) (t : Z)
    (s : hang_source) :
  apply_updates (us ++ [(u, b, t)]) s =
  (tt, state_of (hang_source_update u b t (state_of (apply_updates us s))), []).
Proof.
  revert s. induction us as [|[[u' b'] t'] us IH]; intros s.
  - cbn [app]. rewrite apply_updates_cons. cbn [apply_updates ret state_of fst snd].
    reflexivity.
  - cbn [app]. rewrite !apply_updates_cons. apply IH.
Qed.

Lemma setting_changed_same (v : string) : setting_changed (Some v) (Some v) = false.
Proof. cbn. now rewrite String.eqb_refl. Qed.

Lemma setting_changed_other (a : option string) (v : string) :
  a <> Some v -> setting_changed a (Some v) = true.
Proof.
  intros H. destruct a as [x|]; cbn; [|reflexivity].
  destruct (String.eqb x v) eqn:E; [|reflexivity].
  apply String.eqb_eq in E. congruence.
Qed.

Lemma non_empty_some (v : string) : v <> EmptyString -> non_empty (Some v) = true.
Proof.
  intros H. destruct v; [congruence|].
  cbn [non_empty String.length]. apply Z.ltb_lt. lia.
Qed.

Lemma hang_source_reconnect_attempts (e : reconnect_env) (s : hang_source) :
  count is_origin_create (trace_of (hang_source_reconnect e s)) =
    (if reconnect_in_progress s then 0 else 1)%nat /\
  (forall x o, In (moq_session_connect x o) (trace_of (hang_source_reconnect e s)) ->
               x = url s).
Proof.
  destruct (reconnect_in_progress s) eqn:Hrip.
  - unfold hang_source_reconnect. msimpl. rewrite Hrip. cbn. split; [reflexivity|tauto].
  - rewrite (hang_source_reconnect_eq e s Hrip). cbv zeta. unfold reconnect_prologue.
    assert (Hc : count is_origin_create (chain_closes s) = 0%nat)
      by (apply chain_closes_count; by_event).
    assert (Hn : forall x o, ~ In (moq_session_connect x o) (chain_closes s)).
    { intros x o Hin.
      pose proof (chain_closes_only_closes s) as Hall.
      rewrite Forall_forall in Hall. specialize (Hall _ Hin). discriminate. }
    remember (chain_closes s) as cl eqn:Ecl. clear Ecl.
    destruct (re_origin_create e <? 0); [|destruct (re_session_connect e <? 0);
      [|destruct (generation _ =? _)]]; cbn [trace_of snd];
      rewrite ?count_app, Hc; (split; [reflexivity|]);
      intros x o Hin; repeat (apply in_app_or in Hin; destruct Hin as [Hin|Hin]);
      try (now apply Hn in Hin);
      cbn in Hin; intuition congruence.
Qed.

(** C1 (amended).  After any run of settings updates ending with [(u, b)],
    these are the pending values, and [settings_changed_time] is the time
    of the last update that changed a pending value.  The tick does nothing
    while [shutting_down] is set, while [reconnect_pending] is false, or
    before 500 ms have passed since [settings_changed_time].  Past that, it
    clears [reconnect_pending]; it does nothing more when [u] and [b] are
    the active settings; and when they differ and are both non-empty it
    adopts them and makes one call of [hang_source_reconnect], on the
    adopted values: that call creates one origin unless a reconnect is
    already in progress, and connects only to the url it finds active. *)
Theorem hang_source_video_tick_debounced
    (us : list (string * string * Z)) (u b : string) (t : Z)
    (e : tick_env) (s0 : hang_source) :
  let before := state_of (apply_updates us s0) in
  let s := state_of (apply_updates (us ++ [(u, b, t)]) s0) in
  let r := hang_source_video_tick e s in
  let s1 := te_released e (adopted s) in
  (pending_url s = Some u /\ pending_broadcast s = Some b) /\
  (changes_pending u b before = true -> settings_changed_time s = t) /\
  (changes_pending u b before = false ->
   settings_changed_time s = settings_changed_time before) /\
  (shutting_down s = true \/ reconnect_pending s = false \/
   elapsed_ms (te_now e) s < DEBOUNCE_DELAY_MS ->
   r = (tt, s, [])) /\
  (shutting_down s = false -> reconnect_pending s = true ->
   DEBOUNCE_DELAY_MS <= elapsed_ms (te_now e) s ->
   (url s = Some u /\ broadcast s = Some b ->
    r = (tt, set_reconnect_pending false s, [])) /\
   (url s <> Some u \/ broadcast s <> Some b ->
    u <> EmptyString -> b <> EmptyString ->
    reconnect_pending (adopted s) = false /\
    url (adopted s) = Some u /\ broadcast (adopted s) = Some b /\
    r = hang_source_reconnect (te_reconnect e) s1 /\
    count is_origin_create (trace_of r) =
      (if reconnect_in_progress s1 then 0 else 1)%nat /\
    (forall x o, In (moq_session_connect x o) (trace_of r) -> x = url s1))).
Proof.
  cbv zeta. rewrite apply_updates_snoc. cbn [state_of fst snd].
  set (before := state_of (apply_updates us s0)).
  destruct (hang_source_update_pending u b t before)
    as (Hpu & Hpb & Hch & Hsame).
  cbv zeta in Hpu, Hpb, Hch, Hsame.
  set (s := state_of (hang_source_update u b t before)) in *.
  split; [now split|].
  split; [intros H; now apply Hch|].
  split; [intros H; now rewrite (Hsame H)|].
  split.
  - intros [H|[H|H]]; rewrite hang_source_video_tick_eq.
    + now rewrite H.
    + rewrite H. now destruct (shutting_down s).
    + apply Z.ltb_lt in H. rewrite H.
      now destruct (shutting_down s), (reconnect_pending s).
  - intros Hsd Hrp Hel. apply Z.ltb_ge in Hel.
    rewrite hang_source_video_tick_eq, Hsd, Hrp, Hel. cbn [negb].
    unfold settings_differ, pending_valid. rewrite Hpu, Hpb. split.
    + intros [Hu Hb]. rewrite Hu, Hb, !setting_changed_same. reflexivity.
    + intros Hne Hu Hb.
      assert (Hd : setting_changed (url s) (Some u)
                   || setting_changed (broadcast s) (Some b) = true).
      { destruct Hne as [Hne|Hne]; apply setting_changed_other in Hne; rewrite Hne;
          [reflexivity | apply orb_true_r]. }
      rewrite Hd, (non_empty_some u Hu), (non_empty_some b Hb). cbn [negb andb].
      unfold adopted. msimpl. rewrite Hpu, Hpb.
      repeat (split; [reflexivity|]).
      apply hang_source_reconnect_attempts.
Qed.

Lemma hang_source_video_tick_debounced_witness :
  let s := state_of (apply_updates [("https://r", "cam", 0); ("https://relay", "cam", 100)]
                       hang_source_initial) in
  let e := {| te_now := 700000000; te_released := undisturbed;
              te_reconnect := {| re_released := undisturbed;
                                 re_origin_create := 1; re_session_connect := 2 |} |} in
  count is_origin_create (trace_of (hang_source_video_tick e s)) = 1%nat /\
  (forall x o, In (moq_session_connect x o) (trace_of (hang_source_video_tick e s)) ->
               x = Some "https://relay").
Proof.
  cbv zeta.
  destruct (hang_source_video_tick_debounced
              [("https://r", "cam", 0)] "https://relay" "cam" 100
              {| te_now := 700000000; te_released := undisturbed;
                 te_reconnect := {| re_released := undisturbed;
                                    re_origin_create := 1; re_session_connect := 2 |} |}
              hang_source_initial) as (_ & _ & _ & _ & H).
  destruct (H eq_refl eq_refl ltac:(vm_compute; discriminate)) as [_ H1].
  destruct (H1 ltac:(left; discriminate) ltac:(discriminate) ltac:(discriminate))
    as (_ & _ & _ & _ & Hc & Hu).
  split; [exact Hc | exact Hu].
Defined.

(** C1 as stated fails: the debounce window has elapsed and the pending
    values differ from the active ones, yet no reconnect is made, because
    the url written last is empty.  The source is created and connects at
    600 ms; the url is cleared at 1 s; the tick runs at 2 s. *)
Lemma hang_source_video_tick_empty_url :
  let e1 := {| te_now := 600000000; te_released := undisturbed;
               te_reconnect := {| re_released := undisturbed;
                                  re_origin_create := 1; re_session_connect := 2 |} |} in
  let e2 := {| te_now := 2000000000; te_released := undisturbed;
               te_reconnect := {| re_released := undisturbed;
                                  re_origin_create := 3; re_session_connect := 4 |} |} in
  let s0 := fst (hang_source_create "https://relay" "cam" 0) in
  let s1 := state_of (hang_source_video_tick e1 s0) in
  let s2 := state_of (hang_source_update EmptyString "cam" 1000000000 s1) in
  let r := hang_source_video_tick e2 s2 in
  (shutting_down s2 = false /\ reconnect_pending s2 = true /\
   elapsed_ms (te_now e2) s2 = 1000 /\
   url s2 = Some "https://relay" /\ pending_url s2 = Some EmptyString) /\
  reconnect_pending (state_of r) = false /\
  count is_origin_create (trace_of r) = 0%nat /\
  trace_of r = [moq_session_close 2; moq_origin_close 1; obs_source_output_video None].
Proof. vm_compute. repeat split. Qed.

(** ** The decode pipeline *)

Ltac decode_unfold :=
  unfold hang_source_decode_frame, decode_error_locked, convert_and_output.

(** A trace given element by element ends with its last element. *)
Ltac ends_with :=
  lazymatch goal with
  | |- exists _, ?l = _ => exists (removelast l); reflexivity
  end.

(** Whatever path [hang_source_decode_frame] takes, it closes the frame
    handle once, as its last call, and leaves the chain, the settings and
    the codec alone. *)
Lemma hang_source_decode_frame_frame (e : decode_env) (frame_id : Z) (s : hang_source) :
  let r := hang_source_decode_frame e frame_id s in
  (exists tr, trace_of r = tr ++ [moq_consume_frame_close frame_id]) /\
  count is_frame_close (trace_of r) = 1%nat /\
  none_of closes_chain_handle (trace_of r) /\
  none_of creates_handle (trace_of r) /\
  none_of is_blank (trace_of r) /\
  connection_state (state_of r) = connection_state s /\
  shutting_down (state_of r) = shutting_down s /\
  codec_ctx (state_of r) = codec_ctx s.
Proof.
  cbv zeta. unfold connection_state.
  mstart (hang_source_decode_frame e frame_id s). decode_unfold.
  mexec; mdone;
    (split; [ends_with|]); (split; [reflexivity|]);
    repeat (split; [repeat constructor|]); auto.
Qed.

(** C10.  A frame handle with a non-negative id given to [on_video_frame]
    is closed exactly once, by the last call made for it, whatever path is
    taken: shutting down, disconnected, decoder missing, fetch failure,
    waiting for a keyframe, allocation failure, decode error, rejected
    geometry, or output. *)
Theorem on_video_frame_closes_once (e : frame_env) (frame_id : Z) (s : hang_source) :
  0 <= frame_id ->
  let tr := trace_of (on_video_frame e frame_id s) in
  count is_frame_close tr = 1%nat /\
  (exists tr0, tr = tr0 ++ [moq_consume_frame_close frame_id]).
Proof.
  intros Hid. apply Z.ltb_ge in Hid. cbv zeta.
  mstart (on_video_frame e frame_id s). unfold on_video_frame.
  rewrite Hid. mstep. mcase; [mstep; mdone; split; [reflexivity | ends_with]|].
  mcase; [mstep; mdone; split; [reflexivity | ends_with]|].
  mstep. intros ->.
  destruct (hang_source_decode_frame_frame (fe_decode e) frame_id (fe_released e s))
    as (Hlast & Hcount & _).
  split; assumption.
Qed.

Lemma on_video_frame_closes_once_witness :
  let e := {| fe_released := undisturbed; fe_decode := decodable true 777 |} in
  count is_frame_close (trace_of (on_video_frame e 8 connected_example)) = 1%nat.
Proof.
  cbv zeta.
  apply (on_video_frame_closes_once
           {| fe_released := undisturbed; fe_decode := decodable true 777 |}
           8 connected_example).
  lia.
Defined.

Lemma decoder_ready_parts (s : hang_source) :
  decoder_ready s = true ->
  isSome (codec_ctx s) = true /\ isSome (sws_ctx s) = true /\
  isSome (frame_buffer s) = true.
Proof.
  unfold decoder_ready. intros H.
  apply andb_true_iff in H as [H H3]. apply andb_true_iff in H as [H1 H2]. auto.
Qed.

(** A frame that is not a keyframe, while the pipeline waits for one. *)
Lemma hang_source_decode_frame_waiting (e : decode_env) (frame_id : Z) (s : hang_source)
    (frame_data : moq_frame) :
  shutting_down s = false -> decoder_ready s = true -> got_keyframe s = false ->
  de_chunk e = Some frame_data -> keyframe frame_data = false ->
  hang_source_decode_frame e frame_id s =
  (tt,
   set_frames_waiting_for_keyframe (u32 (frames_waiting_for_keyframe s + 1)) s,
   [moq_consume_frame_close frame_id]).
Proof.
  intros Hsd Hready Hgk Hchunk Hkey.
  destruct (decoder_ready_parts s Hready) as (H1 & H2 & H3).
  mstart (hang_source_decode_frame e frame_id s). decode_unfold.
  mexec_by ltac:(rewrite ?Hsd, ?H1, ?H2, ?H3, ?Hchunk, ?Hgk, ?Hkey). now intros ->.
Qed.

(** While the pipeline waits for a keyframe, a frame that is not one
    produces no output and leaves the pipeline waiting, whatever else is
    the case. *)
Lemma hang_source_decode_frame_no_output (e : decode_env) (frame_id : Z) (s : hang_source) :
  got_keyframe s = false -> not_keyframe e ->
  none_of is_output_frame (trace_of (hang_source_decode_frame e frame_id s)) /\
  got_keyframe (state_of (hang_source_decode_frame e frame_id s)) = false.
Proof.
  intros Hgk Hkey. unfold not_keyframe in Hkey.
  mstart (hang_source_decode_frame e frame_id s). decode_unfold.
  mstep. mstep. mcase; [mstep; mdone; split; [repeat constructor | assumption]|].
  mcase; [mstep; mdone; split; [repeat constructor | assumption]|].
  mcase; [|mstep; mdone; split; [repeat constructor | assumption]].
  rewrite Hgk, Hkey. fields. mexec. mdone. split; [repeat constructor | assumption].
Qed.

Lemma decode_frames_cons (e : decode_env) (frame_id : Z) (fs : list (decode_env * Z))
    (s : hang_source) :
  decode_frames ((e, frame_id) :: fs) s =
  after (trace_of (hang_source_decode_frame e frame_id s))
    (decode_frames fs (state_of (hang_source_decode_frame e frame_id s))).
Proof.
  cbn [decode_frames]. unfold bind.
  destruct (hang_source_decode_frame e frame_id s) as [[[] s1] t1]. reflexivity.
Qed.

Lemma after_trace {A : Type} (t : list event) (r : A * hang_source * list event) :
  trace_of (after t r) = t ++ trace_of r.
Proof. now destruct r as [[? ?] ?]. Qed.

Lemma after_state {A : Type} (t : list event) (r : A * hang_source * list event) :
  state_of (after t r) = state_of r.
Proof. now destruct r as [[? ?] ?]. Qed.

(** No output before the first keyframe, over any run of frames. *)
Lemma decode_frames_no_output (fs : list (decode_env * Z)) (s : hang_source) :
  got_keyframe s = false ->
  Forall (fun f => not_keyframe (fst f)) fs ->
  none_of is_output_frame (trace_of (decode_frames fs s)) /\
  got_keyframe (state_of (decode_frames fs s)) = false.
Proof.
  revert s. induction fs as [|[e frame_id] fs IH]; intros s Hgk Hall.
  - split; [constructor | exact Hgk].
  - inversion Hall as [|? ? Hhd Htl]; subst. cbn [fst] in Hhd.
    destruct (hang_source_decode_frame_no_output e frame_id s Hgk Hhd) as [Hn Hgk'].
    destruct (IH _ Hgk' Htl) as [Hn' Hgk''].
    rewrite decode_frames_cons, after_trace, after_state.
    split; [now apply none_of_app | exact Hgk''].
Qed.

(** A hypothesis that a closed comparison came out wrong. *)
Ltac absurd_case :=
  match goal with
  | E : (5 <=? u32 (0 + 1)) = true |- _ => vm_compute in E; discriminate E
  | E : ?b = true, E' : ?b = false |- _ => congruence
  end.

(** A keyframe, whatever the pipeline was doing. *)
Lemma hang_source_decode_frame_keyframe (e : decode_env) (frame_id : Z) (s : hang_source)
    (frame_data : moq_frame) :
  shutting_down s = false -> decoder_ready s = true ->
  de_chunk e = Some frame_data -> keyframe frame_data = true ->
  got_keyframe (state_of (hang_source_decode_frame e frame_id s)) = true /\
  frames_waiting_for_keyframe (state_of (hang_source_decode_frame e frame_id s)) = 0.
Proof.
  intros Hsd Hready Hchunk Hkey.
  destruct (decoder_ready_parts s Hready) as (H1 & H2 & H3).
  mstart (hang_source_decode_frame e frame_id s). decode_unfold.
  mexec_by ltac:(rewrite ?Hsd, ?H1, ?H2, ?H3, ?Hchunk, ?Hkey, ?andb_false_r);
    mdone; try absurd_case; split; reflexivity.
Qed.

(** [hang_source_init_decoder] either installs a complete decoder that
    waits for a keyframe, or fails and leaves the struct to the other
    threads' doing. *)
Lemma hang_source_init_decoder_result (e : init_env) (config : moq_video_config)
    (s : hang_source) :
  let r := hang_source_init_decoder e config s in
  (value_of r = true ->
   decoder_ready (state_of r) = true /\ got_keyframe (state_of r) = false /\
   frames_waiting_for_keyframe (state_of r) = 0 /\
   consecutive_decode_errors (state_of r) = 0) /\
  (value_of r = false -> state_of r = s) /\
  trace_of r = [].
Proof.
  cbv zeta. mstart (hang_source_init_decoder e config s).
  unfold hang_source_init_decoder.
  mexec; mdone; repeat split; intros; try discriminate; reflexivity.
Qed.

Lemma u32_range (x : Z) : 0 <= u32 x < 2 ^ 32.
Proof. unfold u32. apply Z.mod_pos_bound. lia. Qed.

Lemma u32_add_l (x n : Z) : u32 (u32 x + n) = u32 (x + n).
Proof. unfold u32. now rewrite Zplus_mod_idemp_l. Qed.

(** The skipped frames are counted, and each is closed. *)
Lemma decode_frames_waiting_count (fs : list (decode_env * Z)) (s : hang_source) :
  shutting_down s = false -> decoder_ready s = true -> got_keyframe s = false ->
  0 <= frames_waiting_for_keyframe s < 2 ^ 32 ->
  Forall (fun f => fetched_non_keyframe (fst f)) fs ->
  frames_waiting_for_keyframe (state_of (decode_frames fs s)) =
    u32 (frames_waiting_for_keyframe s + Z.of_nat (length fs)) /\
  trace_of (decode_frames fs s) = map (fun f => moq_consume_frame_close (snd f)) fs.
Proof.
  revert s. induction fs as [|[e frame_id] fs IH]; intros s Hsd Hready Hgk Hfw Hall.
  - cbn. rewrite Z.add_0_r, u32_small; auto.
  - inversion Hall as [|? ? Hhd Htl]; subst. destruct Hhd as (fd & Hchunk & Hkey).
    cbn [fst] in Hchunk.
    rewrite decode_frames_cons.
    rewrite (hang_source_decode_frame_waiting e frame_id s fd); try assumption.
    cbn [state_of trace_of fst snd]. rewrite after_trace, after_state.
    destruct (IH (set_frames_waiting_for_keyframe
                    (u32 (frames_waiting_for_keyframe s + 1)) s))
      as [Hcount Htrace]; try assumption.
    { apply u32_range. }
    rewrite Hcount, Htrace.
    cbn [frames_waiting_for_keyframe set_frames_waiting_for_keyframe map snd length app].
    split; [|reflexivity].
    rewrite u32_add_l. f_equal. lia.
Qed.

(** C2.  A decoder that has just been (re)initialised waits for a keyframe
    with its counter at zero.  While it waits, a fetched frame that is not
    a keyframe is dropped: the only call is the close of its handle and
    the only change is [frames_waiting_for_keyframe] plus one (in
    [uint32_t]).  A keyframe sets [got_keyframe] and resets the counter to
    zero.  So over any run of frames without a keyframe no frame is output,
    and the counter tells how many were skipped. *)
Theorem decode_waits_for_keyframe :
  (forall (ie : init_env) (config : moq_video_config) (s : hang_source)
          (fs : list (decode_env * Z)),
     let r := hang_source_init_decoder ie config s in
     value_of r = true ->
     Forall (fun f => not_keyframe (fst f)) fs ->
     got_keyframe (state_of r) = false /\
     frames_waiting_for_keyframe (state_of r) = 0 /\
     none_of is_output_frame (trace_of (decode_frames fs (state_of r)))) /\
  (forall (e : decode_env) (frame_id : Z) (s : hang_source) (frame_data : moq_frame),
     let r := hang_source_decode_frame e frame_id s in
     shutting_down s = false -> decoder_ready s = true -> got_keyframe s = false ->
     de_chunk e = Some frame_data ->
     (keyframe frame_data = false ->
      r = (tt,
           set_frames_waiting_for_keyframe (u32 (frames_waiting_for_keyframe s + 1)) s,
           [moq_consume_frame_close frame_id]) /\
      (0 <= frames_waiting_for_keyframe s < 2 ^ 32 - 1 ->
       frames_waiting_for_keyframe (state_of r) = frames_waiting_for_keyframe s + 1)) /\
     (keyframe frame_data = true ->
      got_keyframe (state_of r) = true /\
      frames_waiting_for_keyframe (state_of r) = 0)) /\
  (forall (fs : list (decode_env * Z)) (s : hang_source),
     got_keyframe s = false ->
     Forall (fun f => not_keyframe (fst f)) fs ->
     none_of is_output_frame (trace_of (decode_frames fs s)) /\
     got_keyframe (state_of (decode_frames fs s)) = false) /\
  (forall (fs : list (decode_env * Z)) (s : hang_source),
     shutting_down s = false -> decoder_ready s = true -> got_keyframe s = false ->
     0 <= frames_waiting_for_keyframe s < 2 ^ 32 ->
     Forall (fun f => fetched_non_keyframe (fst f)) fs ->
     frames_waiting_for_keyframe (state_of (decode_frames fs s)) =
       u32 (frames_waiting_for_keyframe s + Z.of_nat (length fs))).
Proof.
  split; [|split; [|split]].
  - intros ie config s fs r Hok Hall.
    destruct (hang_source_init_decoder_result ie config s) as [H _].
    destruct (H Hok) as (_ & Hgk & Hfw & _).
    split; [exact Hgk | split; [exact Hfw|]].
    now apply decode_frames_no_output.
  - intros e frame_id s frame_data r Hsd Hready Hgk Hchunk. split; intros Hkey.
    + subst r.
      rewrite (hang_source_decode_frame_waiting e frame_id s frame_data) by assumption.
      split; [reflexivity|]. intros Hfw. cbn. apply u32_small. lia.
    + now apply hang_source_decode_frame_keyframe with (frame_data := frame_data).
  - apply decode_frames_no_output.
  - intros fs s Hsd Hready Hgk Hfw Hall.
    now apply decode_frames_waiting_count.
Qed.

(** The scenario of the specification: a decoder initialised for 1280x720,
    then a frame that is not a keyframe, then a keyframe with timestamp 777. *)
Lemma decode_waits_for_keyframe_witness :
  let r1 := hang_source_init_decoder (ca_init catalog_1280x720) config_1280x720
              (set_consume 12 hang_source_initial) in
  let r2 := hang_source_decode_frame (decodable false 700) 7 waiting_example in
  let r3 := hang_source_decode_frame (decodable true 777) 8 waiting_example in
  (got_keyframe (state_of r1) = false /\ frames_waiting_for_keyframe (state_of r1) = 0 /\
   none_of is_output_frame
     (trace_of (decode_frames [(decodable false 700, 7); (decodable false 733, 8)]
                  (state_of r1)))) /\
  (frames_waiting_for_keyframe (state_of r2) = 1 /\
   trace_of r2 = [moq_consume_frame_close 7]) /\
  (got_keyframe (state_of r3) = true /\ frames_waiting_for_keyframe (state_of r3) = 0).
Proof.
  cbv zeta. destruct decode_waits_for_keyframe as (Hinit & Hframe & _ & _).
  split; [|split].
  - apply Hinit; [vm_compute; reflexivity | repeat constructor].
  - destruct (Hframe (decodable false 700) 7 waiting_example
                {| payload_size := 4096; timestamp_us := 700; keyframe := false |}
                eq_refl eq_refl eq_refl eq_refl) as [Hwait _].
    destruct (Hwait eq_refl) as [Hrun _]. rewrite Hrun. split; reflexivity.
  - apply (Hframe (decodable true 777) 8 waiting_example
             {| payload_size := 4096; timestamp_us := 777; keyframe := true |});
      reflexivity.
Defined.

(** The same scenario run from the catalog callback on. *)
Example catalog_then_frames :
  let s0 := set_consume 12 hang_source_initial in
  let s1 := state_of (on_catalog catalog_1280x720 13 s0) in
  let r2 := hang_source_decode_frame (decodable false 700) 7 s1 in
  let r3 := hang_source_decode_frame (decodable true 777) 8 (state_of r2) in
  s1 = set_video_track 14 (set_catalog_handle 13 (set_consume 12 waiting_example)) /\
  frames_waiting_for_keyframe (state_of r2) = 1 /\
  trace_of r2 = [moq_consume_frame_close 7] /\
  trace_of r3 =
    [avcodec_flush_buffers; avcodec_send_packet 4096 0; avcodec_receive_frame;
     sws_scale (Some {| sws_width := 1280; sws_height := 720 |}) 720
       (Some {| buf_size := 3686400 |}) 5120;
     obs_source_output_video
       (Some {| width := 1280; height := 720; format := VIDEO_FORMAT_RGBA;
                linesize0 := 5120; data0 := Some {| buf_size := 3686400 |};
                timestamp := 777 |});
     moq_consume_frame_close 8].
Proof. vm_compute. repeat split. Qed.

(** *** Decode errors *)

Lemma genuine_failure_cases (e : decode_env) :
  genuine_failure e = true ->
  ((de_send_packet e <? 0) = true /\ (de_send_packet e =? AVERROR (EAGAIN e)) = false) \/
  ((de_send_packet e <? 0) = false /\ de_frame_alloc e = true /\
   (de_receive_frame e <? 0) = true /\ (de_receive_frame e =? AVERROR (EAGAIN e)) = false).
Proof.
  unfold genuine_failure. destruct (de_send_packet e <? 0).
  - intros H. apply negb_true_iff in H. now left.
  - intros H. apply andb_true_iff in H as [H H3]. apply andb_true_iff in H as [H1 H2].
    apply negb_true_iff in H3. right. auto.
Qed.

Lemma EAGAIN_negative (e : decode_env) (x : Z) :
  (x =? AVERROR (EAGAIN e)) = true -> (x <? 0) = true.
Proof.
  intros H. apply Z.eqb_eq in H. subst. apply Z.ltb_lt.
  unfold AVERROR, EAGAIN. pose proof (Pos2Z.is_pos (de_EAGAIN e)). lia.
Qed.

Lemma needs_more_input_cases (e : decode_env) :
  needs_more_input e = true ->
  ((de_send_packet e <? 0) = true /\ (de_send_packet e =? AVERROR (EAGAIN e)) = true) \/
  ((de_send_packet e <? 0) = false /\ de_frame_alloc e = true /\
   (de_receive_frame e <? 0) = true /\ (de_receive_frame e =? AVERROR (EAGAIN e)) = true).
Proof.
  unfold needs_more_input. destruct (de_send_packet e <? 0).
  - intros H. now left.
  - intros H. apply andb_true_iff in H as [H1 H2]. right.
    repeat split; auto. now apply (EAGAIN_negative e).
Qed.

Lemma reaches_decoder_skip (e : decode_env) (s : hang_source) (frame_data : moq_frame) :
  reaches_decoder e s frame_data ->
  negb (got_keyframe s) && negb (keyframe frame_data) = false.
Proof.
  intros (_ & _ & _ & [H|H] & _); rewrite H; [reflexivity | apply andb_false_r].
Qed.

Lemma u32_one : u32 (0 + 1) = 1.
Proof. reflexivity. Qed.

(** A trace given element by element ends with its last two elements. *)
Ltac ends_with_two :=
  lazymatch goal with
  | |- exists _, ?l = _ => exists (removelast (removelast l)); reflexivity
  end.

(** A frame that reaches the decoder and fails there. *)
Lemma hang_source_decode_frame_failure (e : decode_env) (frame_id : Z) (s : hang_source)
    (frame_data : moq_frame) :
  reaches_decoder e s frame_data -> genuine_failure e = true ->
  let r := hang_source_decode_frame e frame_id s in
  let before := if keyframe frame_data then 0 else consecutive_decode_errors s in
  let reached := u32 (before + 1) in
  none_of is_output_frame (trace_of r) /\
  (reached < 5 ->
   consecutive_decode_errors (state_of r) = reached /\ got_keyframe (state_of r) = true) /\
  (5 <= reached ->
   (exists tr0,
      trace_of r = tr0 ++ [avcodec_flush_buffers; moq_consume_frame_close frame_id]) /\
   got_keyframe (state_of r) = false /\ consecutive_decode_errors (state_of r) = 0).
Proof.
  intros Hreach Hfail. pose proof (reaches_decoder_skip e s frame_data Hreach) as Hskip.
  destruct Hreach as (Hsd & Hready & Hchunk & Hgk & Hpa).
  destruct (decoder_ready_parts s Hready) as (H1 & H2 & H3).
  cbv zeta. mstart (hang_source_decode_frame e frame_id s). decode_unfold.
  destruct (genuine_failure_cases e Hfail) as [(Hs & Hne)|(Hs & Hfa & Hrf & Hne)];
    mexec_by ltac:(rewrite ?Hsd, ?H1, ?H2, ?H3, ?Hchunk, ?Hskip, ?Hpa, ?Hs, ?Hne,
                   ?Hfa, ?Hrf);
    mdone;
    repeat match goal with
           | E : (5 <=? _) = true |- _ => apply Z.leb_le in E
           | E : (5 <=? _) = false |- _ => apply Z.leb_gt in E
           end;
    try (exfalso; rewrite u32_one in *; lia);
    (split; [repeat constructor|]);
    (split;
     [ intros Hlt;
       first [ exfalso; lia
             | split; [reflexivity|]; first [reflexivity | destruct Hgk; congruence] ]
     | intros Hge;
       first [ exfalso; lia
             | split; [ends_with_two | split; reflexivity] ] ]).
Qed.

(** A frame that reaches the decoder, which asks for more input. *)
Lemma hang_source_decode_frame_again (e : decode_env) (frame_id : Z) (s : hang_source)
    (frame_data : moq_frame) :
  reaches_decoder e s frame_data -> needs_more_input e = true ->
  let r := hang_source_decode_frame e frame_id s in
  none_of is_output_frame (trace_of r) /\
  consecutive_decode_errors (state_of r) =
    (if keyframe frame_data then 0 else consecutive_decode_errors s) /\
  got_keyframe (state_of r) = true.
Proof.
  intros Hreach Hagain. pose proof (reaches_decoder_skip e s frame_data Hreach) as Hskip.
  destruct Hreach as (Hsd & Hready & Hchunk & Hgk & Hpa).
  destruct (decoder_ready_parts s Hready) as (H1 & H2 & H3).
  cbv zeta. mstart (hang_source_decode_frame e frame_id s). decode_unfold.
  destruct (needs_more_input_cases e Hagain) as [(Hs & Hne)|(Hs & Hfa & Hrf & Hne)];
    mexec_by ltac:(rewrite ?Hsd, ?H1, ?H2, ?H3, ?Hchunk, ?Hskip, ?Hpa, ?Hs, ?Hne,
                   ?Hfa, ?Hrf);
    mdone;
    (split; [repeat constructor|]); (split; [reflexivity|]);
    first [reflexivity | destruct Hgk; congruence].
Qed.

(** A frame that is not a keyframe and fails in the decoder, while the
    pipeline is streaming: the count goes up by one, and at five the
    decoder is flushed and the pipeline waits for a keyframe. *)
Lemma hang_source_decode_frame_fails (e : decode_env) (frame_id : Z) (s : hang_source) :
  shutting_down s = false -> decoder_ready s = true -> got_keyframe s = true ->
  0 <= consecutive_decode_errors s < 5 ->
  fails_in_decoder e ->
  let r := hang_source_decode_frame e frame_id s in
  let c := consecutive_decode_errors s in
  shutting_down (state_of r) = false /\ decoder_ready (state_of r) = true /\
  none_of is_output_frame (trace_of r) /\
  (c + 1 < 5 ->
   consecutive_decode_errors (state_of r) = c + 1 /\ got_keyframe (state_of r) = true /\
   count is_flush (trace_of r) = 0%nat) /\
  (c + 1 = 5 ->
   consecutive_decode_errors (state_of r) = 0 /\ got_keyframe (state_of r) = false /\
   count is_flush (trace_of r) = 1%nat).
Proof.
  intros Hsd Hready Hgk Hc ((fd & Hchunk & Hkey) & Hpa & Hfail).
  destruct (decoder_ready_parts s Hready) as (H1 & H2 & H3).
  assert (Hu : u32 (consecutive_decode_errors s + 1) = consecutive_decode_errors s + 1)
    by (apply u32_small; lia).
  cbv zeta. unfold decoder_ready.
  mstart (hang_source_decode_frame e frame_id s). decode_unfold.
  destruct (genuine_failure_cases e Hfail) as [(Hs & Hne)|(Hs & Hfa & Hrf & Hne)];
    mexec_by ltac:(rewrite ?Hsd, ?H1, ?H2, ?H3, ?Hchunk, ?Hgk, ?Hkey, ?Hpa, ?Hs, ?Hne,
                   ?Hfa, ?Hrf, ?Hu);
    mdone;
    repeat match goal with
           | E : (5 <=? _) = true |- _ => apply Z.leb_le in E
           | E : (5 <=? _) = false |- _ => apply Z.leb_gt in E
           end;
    rewrite ?H1, ?H2, ?H3;
    (split; [assumption|]); (split; [reflexivity|]); (split; [repeat constructor|]);
    (split; intros Hn; first [exfalso; lia | repeat split; assumption || reflexivity]).
Qed.

(** A run of such frames: the count adds up, and the fifth failure forces
    the resynchronisation. *)
Lemma decode_frames_failures (fs : list (decode_env * Z)) (s : hang_source) :
  shutting_down s = false -> decoder_ready s = true -> got_keyframe s = true ->
  0 <= consecutive_decode_errors s ->
  consecutive_decode_errors s + Z.of_nat (length fs) <= 5 ->
  Forall (fun f => fails_in_decoder (fst f)) fs ->
  let r := decode_frames fs s in
  let c := consecutive_decode_errors s in
  let n := Z.of_nat (length fs) in
  none_of is_output_frame (trace_of r) /\
  (c + n < 5 ->
   consecutive_decode_errors (state_of r) = c + n /\ got_keyframe (state_of r) = true /\
   count is_flush (trace_of r) = 0%nat) /\
  (c + n = 5 -> 0 < n ->
   consecutive_decode_errors (state_of r) = 0 /\ got_keyframe (state_of r) = false /\
   count is_flush (trace_of r) = 1%nat).
Proof.
  revert s.
  induction fs as [|[e frame_id] fs IH]; intros s Hsd Hready Hgk Hc Hle Hall; cbv zeta.
  - cbn. split; [constructor|]. split; [intros _; repeat split; [lia | exact Hgk] | lia].
  - inversion Hall as [|? ? Hhd Htl]; subst. cbn [fst] in Hhd.
    rewrite decode_frames_cons, after_trace, after_state.
    cbn [length] in *. rewrite Nat2Z.inj_succ in *.
    set (c := consecutive_decode_errors s) in *.
    set (n := Z.of_nat (length fs)) in *.
    assert (Hn : 0 <= n) by apply Nat2Z.is_nonneg.
    destruct (hang_source_decode_frame_fails e frame_id s Hsd Hready Hgk
                ltac:(fold c; lia) Hhd) as (Hsd1 & Hready1 & Hout1 & Hless & Hfive).
    fold c in Hless, Hfive.
    destruct (Z.eq_dec (c + 1) 5) as [H5|H5].
    + destruct (Hfive H5) as (Herr & Hgk1 & Hflush).
      assert (n = 0) by lia.
      destruct fs as [|f fs]; [|subst n; cbn [length] in *; lia].
      cbn [decode_frames]. unfold ret. cbn [state_of trace_of fst snd].
      rewrite app_nil_r.
      split; [exact Hout1|]. split; [intros; exfalso; lia|].
      intros _ _. repeat split; assumption.
    + destruct (Hless ltac:(lia)) as (Herr & Hgk1 & Hflush).
      destruct (IH _ Hsd1 Hready1 Hgk1 ltac:(rewrite Herr; lia)
                  ltac:(rewrite Herr; fold n; lia) Htl)
        as (Hout & Hless' & Hfive').
      rewrite Herr in Hless', Hfive'. fold n in Hless', Hfive'.
      split; [now apply none_of_app|].
      split.
      * intros Hsum. destruct (Hless' ltac:(lia)) as (He & Hg & Hf).
        rewrite count_app, Hflush, Hf. repeat split; [rewrite He; lia | exact Hg].
      * intros Hsum _. destruct (Hfive' ltac:(lia) ltac:(lia)) as (He & Hg & Hf).
        rewrite count_app, Hflush, Hf. repeat split; assumption.
Qed.

(** C3 (amended).  A frame that reaches the decoder and meets a failure
    other than [EAGAIN] adds one to [consecutive_decode_errors] and is not
    output; a keyframe restarts the count before it is decoded, so a
    failing keyframe leaves the count at one.  When the count reaches 5
    the decoder is flushed, [got_keyframe] is cleared and the count starts
    again from zero; from there on no run of frames without a keyframe
    produces output, whatever the decoder reports.  So of a run of failing
    frames with no keyframe among them, begun at count [c], none is output,
    and the failure that brings the count to 5 forces the
    resynchronisation.  [EAGAIN] counts for nothing.  No path of the
    pipeline touches the connection chain: the session is not torn down. *)
Theorem decode_errors_force_resync :
  (forall (e : decode_env) (frame_id : Z) (s : hang_source) (frame_data : moq_frame),
     let r := hang_source_decode_frame e frame_id s in
     let before := if keyframe frame_data then 0 else consecutive_decode_errors s in
     let reached := u32 (before + 1) in
     reaches_decoder e s frame_data ->
     (genuine_failure e = true ->
      none_of is_output_frame (trace_of r) /\
      (reached < 5 ->
       consecutive_decode_errors (state_of r) = reached /\
       got_keyframe (state_of r) = true) /\
      (5 <= reached ->
       (exists tr0,
          trace_of r = tr0 ++ [avcodec_flush_buffers; moq_consume_frame_close frame_id]) /\
       got_keyframe (state_of r) = false /\
       consecutive_decode_errors (state_of r) = 0)) /\
     (needs_more_input e = true ->
      none_of is_output_frame (trace_of r) /\
      consecutive_decode_errors (state_of r) = before /\
      got_keyframe (state_of r) = true)) /\
  (forall (fs : list (decode_env * Z)) (s : hang_source),
     got_keyframe s = false ->
     Forall (fun f => not_keyframe (fst f)) fs ->
     none_of is_output_frame (trace_of (decode_frames fs s)) /\
     got_keyframe (state_of (decode_frames fs s)) = false) /\
  (forall (e : decode_env) (frame_id : Z) (s : hang_source),
     let r := hang_source_decode_frame e frame_id s in
     connection_state (state_of r) = connection_state s /\
     none_of closes_chain_handle (trace_of r) /\
     none_of is_blank (trace_of r)) /\
  (forall (fs : list (decode_env * Z)) (s : hang_source),
     let r := decode_frames fs s in
     let c := consecutive_decode_errors s in
     let n := Z.of_nat (length fs) in
     shutting_down s = false -> decoder_ready s = true -> got_keyframe s = true ->
     0 <= c -> c + n <= 5 ->
     Forall (fun f => fails_in_decoder (fst f)) fs ->
     none_of is_output_frame (trace_of r) /\
     (c + n < 5 ->
      consecutive_decode_errors (state_of r) = c + n /\
      got_keyframe (state_of r) = true /\
      count is_flush (trace_of r) = 0%nat) /\
     (c + n = 5 -> 0 < n ->
      consecutive_decode_errors (state_of r) = 0 /\
      got_keyframe (state_of r) = false /\
      count is_flush (trace_of r) = 1%nat)).
Proof.
  split; [|split; [|split]].
  - intros e frame_id s frame_data r before reached Hreach. split.
    + intros Hfail. now apply hang_source_decode_frame_failure.
    + intros Hagain. now apply hang_source_decode_frame_again.
  - apply decode_frames_no_output.
  - intros e frame_id s r.
    destruct (hang_source_decode_frame_frame e frame_id s)
      as (_ & _ & Hchain & _ & Hblank & Hconn & _).
    auto.
  - intros fs s r c n Hsd Hready Hgk Hc Hle Hall.
    now apply decode_frames_failures.
Qed.

(** Four failures in a row, then a fifth: the decoder is flushed and the
    pipeline waits for a keyframe, with the chain as it was.  The same
    from a run of five failures after a frame that was decoded. *)
Lemma decode_errors_force_resync_witness :
  let s := set_consecutive_decode_errors 4 connected_example in
  let r := hang_source_decode_frame (undecodable false 900) 9 s in
  let run := decode_frames five_failures connected_example in
  (got_keyframe (state_of r) = false /\
   consecutive_decode_errors (state_of r) = 0 /\
   connection_state (state_of r) = connection_state s) /\
  (none_of is_output_frame (trace_of run) /\
   got_keyframe (state_of run) = false /\
   count is_flush (trace_of run) = 1%nat).
Proof.
  cbv zeta. destruct decode_errors_force_resync as (Hfail & _ & Hchain & Hrun).
  split.
  - destruct (Hfail (undecodable false 900) 9
                (set_consecutive_decode_errors 4 connected_example)
                {| payload_size := 4096; timestamp_us := 900; keyframe := false |})
      as [H _].
    { repeat split; try reflexivity. now left. }
    destruct (H eq_refl) as (_ & _ & Hge).
    destruct (Hge ltac:(vm_compute; discriminate)) as (_ & Hgk & Herr).
    split; [exact Hgk | split; [exact Herr|]].
    apply (Hchain (undecodable false 900) 9
             (set_consecutive_decode_errors 4 connected_example)).
  - destruct (Hrun five_failures connected_example) as (Hout & _ & Hfive);
      try reflexivity.
    + repeat constructor; cbn [fst]; eexists; split; reflexivity.
    + destruct (Hfive eq_refl eq_refl) as (_ & Hgk & Hflush).
      split; [exact Hout | split; [exact Hgk | exact Hflush]].
Defined.

(** C3 as stated fails: a keyframe that the decoder rejects does not add
    to the count, it sets it to one.  With four failures counted, a
    failing keyframe leaves the count at 1 and the decoder unflushed.  And
    over nine failures in a row, every fourth frame a keyframe, the count
    never reaches 5: nothing is flushed, [got_keyframe] stays set, and the
    next frame that decodes is output though it is not a keyframe. *)
Lemma decode_errors_keyframe_restarts_count :
  let s := set_consecutive_decode_errors 4 connected_example in
  let r := hang_source_decode_frame (undecodable true 900) 9 s in
  let run := decode_frames failing_gops connected_example in
  let r2 := hang_source_decode_frame (decodable false 300) 10 (state_of run) in
  (reaches_decoder (undecodable true 900) s
     {| payload_size := 4096; timestamp_us := 900; keyframe := true |} /\
   genuine_failure (undecodable true 900) = true) /\
  (consecutive_decode_errors s = 4 /\
   consecutive_decode_errors (state_of r) = 1 /\
   got_keyframe (state_of r) = true /\
   count is_flush (trace_of r) = 0%nat) /\
  (Forall (fun f => genuine_failure (fst f) = true) failing_gops /\
   error_counts failing_gops connected_example = [1; 2; 3; 4; 1; 2; 3; 4; 1] /\
   count is_flush (trace_of run) = 0%nat /\
   got_keyframe (state_of run) = true) /\
  count is_output_frame (trace_of r2) = 1%nat.
Proof.
  cbv zeta. split; [|split; [|split]].
  - split; [|reflexivity]. repeat split; try reflexivity. now right.
  - vm_compute. repeat split.
  - split; [repeat constructor|]. vm_compute. repeat split.
  - vm_compute. reflexivity.
Qed.

(** *** Geometry changes *)





Lemma decoded_tests (e : decode_env) (s : hang_source) (frame_data : moq_frame) :
  decoded e s frame_data ->
  (shutting_down s = false /\ isSome (codec_ctx s) = true /\
   isSome (sws_ctx s) = true /\ isSome (frame_buffer s) = true) /\
  (de_chunk e = Some frame_data /\
   negb (got_keyframe s) && negb (keyframe frame_data) = false /\
   de_packet_alloc e = true) /\
  ((de_send_packet e <? 0) = false /\ de_frame_alloc e = true /\
   (de_receive_frame e <? 0) = false).
Proof.
  intros (Hreach & Hs & Hfa & Hr).
  pose proof (reaches_decoder_skip e s frame_data Hreach) as Hskip.
  destruct Hreach as (Hsd & Hready & Hchunk & _ & Hpa).
  destruct (decoder_ready_parts s Hready) as (H1 & H2 & H3).
  apply Z.ltb_ge in Hs, Hr. auto 10.
Qed.







(** ** Shutdown *)

(** With the flag set, the tick and the callbacks return at their first test. *)
Lemma callback_after_shutdown (op : operation) (s : hang_source) :
  is_callback op = true -> shutting_down s = true ->
  run op s = (tt, s, inbound_close op).
Proof.
  intros Hcb Hsd. destruct op; try discriminate; cbn [run inbound_close].
  - rewrite hang_source_video_tick_eq, Hsd. reflexivity.
  - mstart (on_session_status e code s). unfold on_session_status.
    mexec. now mdone.
  - mstart (on_catalog e catalog s). unfold on_catalog.
    mexec; now mdone.
  - mstart (on_video_frame e frame_id s). unfold on_video_frame.
    mexec; now mdone.
Qed.

Lemma run_all_cons (op : operation) (ops : list operation) (s : hang_source) :
  run_all (op :: ops) s = after (trace_of (run op s)) (run_all ops (state_of (run op s))).
Proof.
  cbn [run_all]. unfold bind. destruct (run op s) as [[[] s1] t1]. reflexivity.
Qed.

(** Solves [shutting_down (...) = true] through setters and quiet windows. *)
Ltac flag_kept :=
  repeat match goal with
         | |- shutting_down (?f _) = true =>
             match goal with
             | H : keeps_flag f |- _ => apply H
             end
         | _ => progress fields
         end;
  try assumption; try reflexivity.

(** No function of the file clears the flag. *)
Lemma run_keeps_flag (op : operation) (s : hang_source) :
  others_keep_flag op -> shutting_down s = true ->
  shutting_down (state_of (run op s)) = true.
Proof.
  intros Hq Hsd.
  destruct op; cbn [others_keep_flag] in Hq;
    try (now rewrite callback_after_shutdown); cbn [run].
  - rewrite hang_source_update_eq. cbn [state_of fst snd].
    destruct (differs_from (pending_url s) u), (differs_from (pending_broadcast s) b);
      exact Hsd.
  - destruct (reconnect_in_progress s) eqn:Hrip.
    + unfold hang_source_reconnect. msimpl. now rewrite Hrip.
    + rewrite (hang_source_reconnect_eq e s Hrip). cbv zeta.
      assert (Hb : shutting_down (re_released e (reconnect_begun s)) = true)
        by (apply Hq; exact Hsd).
      destruct (re_origin_create e <? 0); [|destruct (re_session_connect e <? 0);
        [|destruct (generation _ =? _)]]; exact Hb.
  - destruct Hq as [Hq1 Hq2].
    mstart (hang_source_start_consume e expected_gen s).
    unfold hang_source_start_consume, hang_source_blank_video.
    mexec; mdone; flag_kept.
  - mstart ((_ <- hang_source_init_decoder e config;; ret tt) s).
    unfold hang_source_init_decoder.
    mexec; mdone; flag_kept.
  - destruct (hang_source_decode_frame_frame e frame_id s) as (_ & _ & _ & _ & _ & _ & H & _).
    now rewrite H.
  - unfold hang_source_destroy. msimpl.
    erewrite bind_eq by apply hang_source_disconnect_locked_eq. reflexivity.
Qed.

(** C7.  Once [shutting_down] is set no function of the file clears it,
    as long as the other threads, which run the same functions, do not.
    From then on the tick and the callbacks for session status, catalog
    and video frame return at their first test: the struct is left exactly
    as it is, connection and decoder included, and the only call made is
    the close of the catalog or frame handle the callback was given. *)
Theorem shutting_down_is_final :
  (forall (ops : list operation) (s : hang_source),
     Forall others_keep_flag ops -> shutting_down s = true ->
     shutting_down (state_of (run_all ops s)) = true) /\
  (forall (op : operation) (s : hang_source),
     is_callback op = true -> shutting_down s = true ->
     run op s = (tt, s, inbound_close op)) /\
  (forall (ops : list operation) (s : hang_source),
     Forall (fun op => is_callback op = true) ops -> shutting_down s = true ->
     let r := run_all ops s in
     state_of r = s /\
     connection_state (state_of r) = connection_state s /\
     decoder_state (state_of r) = decoder_state s /\
     trace_of r = flat_map inbound_close ops).
Proof.
  split; [|split].
  - intros ops. induction ops as [|op ops IH]; intros s Hq Hsd.
    + exact Hsd.
    + inversion Hq as [|? ? Hop Hrest]; subst.
      rewrite run_all_cons, after_state. apply IH; [exact Hrest|].
      now apply run_keeps_flag.
  - exact callback_after_shutdown.
  - intros ops. induction ops as [|op ops IH]; intros s Hcb Hsd; cbv zeta.
    + repeat split.
    + inversion Hcb as [|? ? Hop Hrest]; subst.
      rewrite run_all_cons, (callback_after_shutdown op s Hop Hsd).
      cbn [state_of trace_of fst snd]. rewrite after_state, after_trace.
      destruct (IH s Hrest Hsd) as (Hs & Hc & Hd & Ht).
      unfold state_of, trace_of in *. rewrite Hs, Ht. repeat split.
Qed.

(** ** Setup failures *)

(** [moq_origin_consume] fails while the attempt is still the current one. *)
Lemma hang_source_start_consume_no_broadcast (e : consume_env) (expected_gen : Z)
    (s : hang_source) :
  0 <= origin s -> generation s = expected_gen -> ce_origin_consume e < 0 ->
  generation (ce_released1 e s) = expected_gen ->
  let s1 := ce_released1 e s in
  let r := hang_source_start_consume e expected_gen s in
  trace_of r =
    [moq_origin_consume (origin s) (broadcast s)]
    ++ close_if_valid moq_session_close (session s1)
    ++ close_if_valid moq_origin_close (origin s1)
    ++ [obs_source_output_video None] /\
  session (state_of r) = closed (session s1) /\
  origin (state_of r) = closed (origin s1) /\
  consume (state_of r) = consume s1 /\
  reconnect_pending (state_of r) = reconnect_pending s1.
Proof.
  intros Ho Hg Hc Hg1. cbv zeta. unfold close_if_valid, closed.
  apply Z.ltb_ge in Ho. apply Z.eqb_eq in Hg, Hg1. apply Z.ltb_lt in Hc.
  mstart (hang_source_start_consume e expected_gen s).
  unfold hang_source_start_consume, hang_source_blank_video.
  mexec_by ltac:(rewrite ?Ho, ?Hg, ?Hc, ?Hg1); mdone; repeat split.
Qed.

(** [moq_consume_catalog] fails while the attempt is still the current one. *)
Lemma hang_source_start_consume_no_catalog (e : consume_env) (expected_gen : Z)
    (s : hang_source) :
  0 <= origin s -> generation s = expected_gen -> 0 <= ce_origin_consume e ->
  generation (ce_released1 e s) = expected_gen ->
  ce_consume_catalog e < 0 ->
  generation (ce_released2 e (set_consume (ce_origin_consume e) (ce_released1 e s)))
    = expected_gen ->
  let s2 := ce_released2 e (set_consume (ce_origin_consume e) (ce_released1 e s)) in
  let r := hang_source_start_consume e expected_gen s in
  trace_of r =
    [moq_origin_consume (origin s) (broadcast s);
     moq_consume_catalog (ce_origin_consume e)]
    ++ close_if_valid moq_consume_close (consume s2)
    ++ close_if_valid moq_session_close (session s2)
    ++ close_if_valid moq_origin_close (origin s2)
    ++ [obs_source_output_video None] /\
  consume (state_of r) = closed (consume s2) /\
  session (state_of r) = closed (session s2) /\
  origin (state_of r) = closed (origin s2) /\
  reconnect_pending (state_of r) = reconnect_pending s2.
Proof.
  intros Ho Hg Hc Hg1 Hcat Hg2. cbv zeta. unfold close_if_valid, closed.
  apply Z.ltb_ge in Ho, Hc. apply Z.eqb_eq in Hg, Hg1, Hg2. apply Z.ltb_lt in Hcat.
  mstart (hang_source_start_consume e expected_gen s).
  unfold hang_source_start_consume, hang_source_blank_video.
  mexec_by ltac:(rewrite ?Ho, ?Hg, ?Hc, ?Hg1, ?Hcat, ?Hg2); mdone; repeat split.
Qed.

(** [moq_consume_video_ordered] fails in the catalog callback. *)
Lemma on_catalog_no_track (e : catalog_env) (catalog : Z) (s : hang_source)
    (config : moq_video_config) :
  shutting_down s = false -> 0 <= consume s -> 0 <= catalog ->
  ca_video_config e = Some config ->
  value_of (hang_source_init_decoder (ca_init e) config s) = true ->
  ca_video_ordered e < 0 ->
  let r := on_catalog e catalog s in
  trace_of r = [moq_consume_video_ordered catalog; moq_consume_catalog_close catalog] /\
  state_of r = state_of (hang_source_init_decoder (ca_init e) config s).
Proof.
  intros Hsd Hc Hcat Hcfg Hinit Htrack. cbv zeta.
  apply Z.ltb_ge in Hc, Hcat. apply Z.ltb_lt in Htrack.
  destruct (hang_source_init_decoder_result (ca_init e) config s) as (_ & _ & Htr).
  destruct (hang_source_init_decoder (ca_init e) config s) as [[ok s1] t1] eqn:Hrun.
  cbn [value_of trace_of state_of fst snd] in *. subst ok t1.
  mstart (on_catalog e catalog s). unfold on_catalog.
  mexec_by ltac:(rewrite ?Hsd, ?Hc, ?Hcat, ?Hcfg, ?Htrack).
  erewrite bind_run by exact Hrun. cbv beta iota. fields.
  mexec_by ltac:(rewrite ?Htrack). mdone. split; reflexivity.
Qed.

(** C5 (amended).  When the origin cannot be created, the session cannot be
    connected, the broadcast cannot be consumed or the catalog cannot be
    subscribed, every handle the attempt has created so far is closed and
    its slot cleared (for an attempt that is still the current one), the
    blank signal is emitted, and nothing is tried again: no creating call
    follows the failed one and [reconnect_pending] is not set.  When the
    video track cannot be subscribed, in the catalog callback, nothing is
    tried again either. *)
Theorem setup_failure_teardown :
  (forall (e : reconnect_env) (s : hang_source),
     let r := hang_source_reconnect e s in
     let s2 := re_released e (reconnect_begun s) in
     reconnect_in_progress s = false ->
     (re_origin_create e < 0 ->
      trace_of r =
        chain_closes s
        ++ [obs_source_output_video None; os_sleep_ms 50; moq_origin_create] /\
      state_of r = set_reconnect_in_progress false s2) /\
     (0 <= re_origin_create e -> re_session_connect e < 0 ->
      trace_of r =
        chain_closes s
        ++ [obs_source_output_video None; os_sleep_ms 50; moq_origin_create;
            moq_session_connect (url s) (re_origin_create e);
            moq_origin_close (re_origin_create e)] /\
      state_of r = set_reconnect_in_progress false s2)) /\
  (forall (e : consume_env) (expected_gen : Z) (s : hang_source),
     let r := hang_source_start_consume e expected_gen s in
     let s1 := ce_released1 e s in
     let s2 := ce_released2 e (set_consume (ce_origin_consume e) s1) in
     0 <= origin s -> generation s = expected_gen ->
     generation s1 = expected_gen ->
     (ce_origin_consume e < 0 ->
      trace_of r =
        [moq_origin_consume (origin s) (broadcast s)]
        ++ close_if_valid moq_session_close (session s1)
        ++ close_if_valid moq_origin_close (origin s1)
        ++ [obs_source_output_video None] /\
      session (state_of r) < 0 /\ origin (state_of r) < 0 /\
      reconnect_pending (state_of r) = reconnect_pending s1) /\
     (0 <= ce_origin_consume e -> ce_consume_catalog e < 0 ->
      generation s2 = expected_gen ->
      trace_of r =
        [moq_origin_consume (origin s) (broadcast s);
         moq_consume_catalog (ce_origin_consume e)]
        ++ close_if_valid moq_consume_close (consume s2)
        ++ close_if_valid moq_session_close (session s2)
        ++ close_if_valid moq_origin_close (origin s2)
        ++ [obs_source_output_video None] /\
      consume (state_of r) < 0 /\ session (state_of r) < 0 /\
      origin (state_of r) < 0 /\
      reconnect_pending (state_of r) = reconnect_pending s2)) /\
  (forall (e : catalog_env) (catalog : Z) (s : hang_source) (config : moq_video_config),
     let r := on_catalog e catalog s in
     let r0 := hang_source_init_decoder (ca_init e) config s in
     shutting_down s = false -> 0 <= consume s -> 0 <= catalog ->
     ca_video_config e = Some config -> value_of r0 = true ->
     ca_video_ordered e < 0 ->
     count creates_handle (trace_of r) = 1%nat /\
     reconnect_pending (state_of r) = reconnect_pending (state_of r0)).
Proof.
  split; [|split].
  - intros e s r s2 Hrip. subst r s2. rewrite (hang_source_reconnect_eq e s Hrip).
    cbv zeta. unfold reconnect_prologue. split.
    + intros Ho. apply Z.ltb_lt in Ho. rewrite Ho. split; reflexivity.
    + intros Ho Hs. apply Z.ltb_ge in Ho. apply Z.ltb_lt in Hs. rewrite Ho, Hs.
      cbn [trace_of state_of fst snd]. rewrite <- app_assoc. split; reflexivity.
  - intros e expected_gen s r s1 s2 Ho Hg Hg1. split.
    + intros Hc.
      destruct (hang_source_start_consume_no_broadcast e expected_gen s Ho Hg Hc Hg1)
        as (Ht & Hs & Hor & _ & Hrp).
      subst r. rewrite Ht, Hs, Hor, Hrp. repeat split; apply closed_neg.
    + intros Hc Hcat Hg2.
      destruct (hang_source_start_consume_no_catalog e expected_gen s Ho Hg Hc Hg1 Hcat Hg2)
        as (Ht & Hco & Hs & Hor & Hrp).
      subst r. rewrite Ht, Hco, Hs, Hor, Hrp. repeat split; apply closed_neg.
  - intros e catalog s config r r0 Hsd Hc Hcat Hcfg Hinit Htrack.
    destruct (on_catalog_no_track e catalog s config Hsd Hc Hcat Hcfg Hinit Htrack)
      as [Ht Hs].
    subst r r0. rewrite Ht, Hs. split; reflexivity.
Qed.

(** The session is connected, the broadcast does not exist. *)
Lemma setup_failure_teardown_witness :
  let r := hang_source_start_consume no_broadcast 1 session_example in
  trace_of r =
    [moq_origin_consume 10 (Some "cam"); moq_session_close 11; moq_origin_close 10;
     obs_source_output_video None] /\
  session (state_of r) < 0 /\ origin (state_of r) < 0.
Proof.
  cbv zeta. destruct setup_failure_teardown as (_ & H & _).
  destruct (H no_broadcast 1 session_example) as [Hfail _];
    [cbn; lia | reflexivity | reflexivity |].
  destruct (Hfail ltac:(cbn; lia)) as (Ht & Hs & Ho & _).
  rewrite Ht. repeat split; assumption.
Defined.

(** C5 as stated fails: the video track cannot be subscribed in the
    catalog callback, and the callback closes the catalog it was given and
    returns: origin, session and consume handle stay open and stored, and
    no blank signal is emitted. *)
Lemma on_catalog_track_failure_keeps_chain :
  let r := on_catalog catalog_without_track 13 consuming_example in
  (shutting_down consuming_example = false /\
   chain_handles consuming_example = (10, 11, 12, -1, -1)) /\
  trace_of r = [moq_consume_video_ordered 13; moq_consume_catalog_close 13] /\
  count is_blank (trace_of r) = 0%nat /\
  chain_handles (state_of r) = (10, 11, 12, -1, -1).
Proof. vm_compute. repeat split. Qed.

(** After [hang_source_destroy]: a tick and one callback of each kind. *)
Lemma shutting_down_is_final_witness :
  let ops := [Tick (tick_example 900000000); Catalog catalog_1280x720 5;
              VideoFrame frame_example 7; SessionStatus status_example 0] in
  shutting_down (state_of (run_all ops destroyed_example)) = true /\
  state_of (run_all ops destroyed_example) = destroyed_example /\
  trace_of (run_all ops destroyed_example) =
    [moq_consume_catalog_close 5; moq_consume_frame_close 7].
Proof.
  cbv zeta. destruct shutting_down_is_final as (Hflag & _ & Hquiet).
  split; [|split].
  - apply Hflag; [|reflexivity].
    repeat constructor; intros s Hs; exact Hs.
  - apply Hquiet; [repeat constructor | reflexivity].
  - apply Hquiet; [repeat constructor | reflexivity].
Defined.

(** ** Teardown *)

(** The struct, field by field. *)
Ltac destruct_state s :=
  destruct s as [f_url f_broadcast f_purl f_pbroadcast f_time f_pending f_down f_gen
                 f_rip f_origin f_session f_consume f_catalog f_track f_codec f_sws
                 f_gk f_waiting f_errors f_frame f_buffer].

(** Assignments to a struct given field by field, innermost first. *)
Ltac assign :=
  cbv [url broadcast pending_url pending_broadcast settings_changed_time
       reconnect_pending shutting_down generation reconnect_in_progress
       origin session consume catalog_handle video_track codec_ctx sws_ctx
       got_keyframe frames_waiting_for_keyframe consecutive_decode_errors
       frame frame_buffer
       set_url set_broadcast set_pending_url set_pending_broadcast
       set_settings_changed_time set_reconnect_pending set_shutting_down
       set_generation set_reconnect_in_progress set_origin set_session
       set_consume set_catalog_handle set_video_track set_codec_ctx set_sws_ctx
       set_got_keyframe set_frames_waiting_for_keyframe
       set_consecutive_decode_errors set_frame set_frame_buffer].

Lemma closed_invalid (h : Z) : (0 <=? closed h) = false.
Proof. apply Z.leb_gt, closed_neg. Qed.

Lemma closed_closed (h : Z) : closed (closed h) = closed h.
Proof. unfold closed at 1. now rewrite closed_invalid. Qed.

Lemma chain_closes_disconnected (s : hang_source) : chain_closes (disconnected s) = [].
Proof.
  destruct_state s. unfold chain_closes, disconnected. assign.
  now rewrite !closed_invalid.
Qed.

Lemma disconnected_disconnected (s : hang_source) :
  disconnected (disconnected s) = disconnected s.
Proof.
  destruct_state s. unfold disconnected. assign. rewrite !closed_closed.
  destruct f_buffer; reflexivity.
Qed.

Lemma chain_closes_shutting_down (b : bool) (s : hang_source) :
  chain_closes (set_shutting_down b s) = chain_closes s.
Proof. now destruct_state s. Qed.

(** X1.  [hang_source_disconnect_locked] closes the handles that are valid,
    track first and origin last, and nothing else; afterwards no slot holds
    a handle, the decoder is gone and the keyframe and error state is
    reset, while the settings, the generation and the flags are as they
    were.  A second teardown finds nothing to do: it makes no call and
    leaves the struct as it is, so no handle is closed twice. *)
Theorem hang_source_disconnect_locked_idempotent (s : hang_source) :
  let r1 := hang_source_disconnect_locked s in
  let r2 := hang_source_disconnect_locked (state_of r1) in
  trace_of r1 = chain_closes s /\
  (origin (state_of r1) < 0 /\ session (state_of r1) < 0 /\ consume (state_of r1) < 0 /\
   catalog_handle (state_of r1) < 0 /\ video_track (state_of r1) < 0) /\
  (codec_ctx (state_of r1) = None /\ sws_ctx (state_of r1) = None /\
   frame_buffer (state_of r1) = None) /\
  (got_keyframe (state_of r1) = false /\ frames_waiting_for_keyframe (state_of r1) = 0 /\
   consecutive_decode_errors (state_of r1) = 0) /\
  settings_state (state_of r1) = settings_state s /\
  (generation (state_of r1) = generation s /\
   shutting_down (state_of r1) = shutting_down s /\
   reconnect_in_progress (state_of r1) = reconnect_in_progress s) /\
  r2 = (tt, state_of r1, []).
Proof.
  cbv zeta. rewrite (hang_source_disconnect_locked_eq s).
  cbn [state_of trace_of fst snd].
  rewrite (hang_source_disconnect_locked_eq (disconnected s)).
  rewrite chain_closes_disconnected, disconnected_disconnected.
  split; [reflexivity|].
  destruct_state s. unfold disconnected, settings_state. assign.
  repeat split; apply closed_neg.
Qed.

(** X2.  [hang_source_destroy] sets the flag, closes the handles that are
    valid, track first and origin last, and then sleeps 100 ms.  It creates
    nothing and outputs nothing, not even the blank signal; afterwards no
    slot holds a handle and the decoder is gone. *)
Theorem hang_source_destroy_teardown (s : hang_source) :
  let r := hang_source_destroy s in
  trace_of r = chain_closes s ++ [os_sleep_ms 100] /\
  state_of r = disconnected (set_shutting_down true s) /\
  shutting_down (state_of r) = true /\
  chain_closes (state_of r) = [] /\
  decoder_ready (state_of r) = false /\
  settings_state (state_of r) = settings_state s /\
  none_of creates_handle (trace_of r) /\
  none_of is_blank (trace_of r) /\
  none_of is_output_frame (trace_of r).
Proof.
  cbv zeta.
  assert (Hrun : hang_source_destroy s =
                 (tt, disconnected (set_shutting_down true s),
                  chain_closes s ++ [os_sleep_ms 100])).
  { unfold hang_source_destroy. rewrite bind_modify.
    erewrite bind_run by apply hang_source_disconnect_locked_eq.
    rewrite chain_closes_shutting_down. reflexivity. }
  rewrite Hrun. cbn [state_of trace_of fst snd].
  split; [reflexivity|]. split; [reflexivity|].
  rewrite chain_closes_disconnected.
  split; [now destruct_state s|]. split; [reflexivity|].
  split; [now destruct_state s|]. split; [now destruct_state s|].
  repeat split; (apply none_of_app; [apply chain_closes_none_of; by_event | repeat constructor]).
Qed.

(** ** Session status and consume *)

(** X3.  A session status other than 0 for a session that is still stored:
    the session is closed, then the origin when there is one, both slots
    are cleared and the blank signal is emitted.  Nothing else is touched:
    a consume handle, a catalog, a track and a decoder that exist stay as
    they are, and no reconnect is scheduled. *)
Theorem on_session_status_failure (e : status_env) (code : Z) (s : hang_source) :
  shutting_down s = false -> 0 <= session s -> code <> 0 ->
  let r := on_session_status e code s in
  trace_of r =
    [moq_session_close (session s)] ++ close_if_valid moq_origin_close (origin s)
    ++ [obs_source_output_video None] /\
  (session (state_of r) = -1 /\ origin (state_of r) = closed (origin s)) /\
  (consume (state_of r) = consume s /\ catalog_handle (state_of r) = catalog_handle s /\
   video_track (state_of r) = video_track s) /\
  decoder_state (state_of r) = decoder_state s /\
  settings_state (state_of r) = settings_state s /\
  generation (state_of r) = generation s.
Proof.
  intros Hsd Hse Hcode. cbv zeta. unfold close_if_valid, closed, decoder_state, settings_state.
  assert (Hse1 : (session s <? 0) = false) by now apply Z.ltb_ge.
  apply Z.leb_le in Hse. apply Z.eqb_neq in Hcode.
  mstart (on_session_status e code s).
  unfold on_session_status, hang_source_blank_video.
  mexec_by ltac:(rewrite ?Hsd, ?Hse, ?Hse1, ?Hcode); mdone; repeat split.
Qed.

Lemma on_session_status_failure_witness :
  trace_of (on_session_status status_example 3 connected_example) =
    [moq_session_close 11; moq_origin_close 10; obs_source_output_video None] /\
  consume (state_of (on_session_status status_example 3 connected_example)) = 12.
Proof.
  destruct (on_session_status_failure status_example 3 connected_example)
    as (Ht & _ & (Hc & _) & _); [reflexivity | cbn; lia | lia |].
  split; [exact Ht | exact Hc].
Defined.

(** X4.  A session status for a session that is no longer stored is
    ignored, whatever its code.  A status 0 hands over to
    [hang_source_start_consume] with the generation read under the mutex;
    when the origin is gone or a reconnect has changed the generation by
    the time the mutex is taken again, nothing is called and nothing is
    changed. *)
Theorem on_session_status_stale (e : status_env) (code : Z) (s : hang_source) :
  let r := on_session_status e code s in
  let s1 := se_released e s in
  (session s < 0 -> r = (tt, s, [])) /\
  (shutting_down s = false -> 0 <= session s -> code = 0 ->
   r = hang_source_start_consume (se_consume e) (generation s) s1 /\
   (origin s1 < 0 \/ generation s1 <> generation s -> r = (tt, s1, []))).
Proof.
  cbv zeta. split.
  - intros Hse. apply Z.ltb_lt in Hse.
    mstart (on_session_status e code s). unfold on_session_status.
    mexec_by ltac:(rewrite ?Hse); now mdone.
  - intros Hsd Hse Hcode. subst code. apply Z.ltb_ge in Hse.
    assert (Hrun : on_session_status e 0 s =
                   hang_source_start_consume (se_consume e) (generation s) (se_released e s)).
    { unfold on_session_status. rewrite bind_get, Hsd, Hse. cbn [Z.eqb].
      rewrite bind_modify. reflexivity. }
    split; [exact Hrun|]. rewrite Hrun. intros Hstale.
    assert (Hb : (origin (se_released e s) <? 0)
                 || negb (generation (se_released e s) =? generation s) = true).
    { destruct Hstale as [H|H].
      - apply Z.ltb_lt in H. now rewrite H.
      - apply Z.eqb_neq in H. rewrite H. apply orb_true_r. }
    mstart (hang_source_start_consume (se_consume e) (generation s) (se_released e s)).
    unfold hang_source_start_consume.
    mexec_by ltac:(rewrite ?Hb); now mdone.
Qed.

Lemma on_session_status_stale_witness :
  on_session_status status_example 0 (set_session (-1) connected_example)
  = (tt, set_session (-1) connected_example, []).
Proof.
  destruct (on_session_status_stale status_example 0 (set_session (-1) connected_example))
    as [H _].
  apply H. cbn. lia.
Defined.

(** X5.  [hang_source_start_consume] does nothing for an attempt that is
    no longer current or whose origin is gone.  Otherwise it consumes the
    broadcast found active from the origin found stored; a consume handle
    obtained while the attempt is still current is stored and the catalog
    is subscribed on it, and one obtained after a reconnect has superseded
    the attempt is closed at once and never stored. *)
Theorem hang_source_start_consume_commit (e : consume_env) (expected_gen : Z)
    (s : hang_source) :
  let r := hang_source_start_consume e expected_gen s in
  let s1 := ce_released1 e s in
  let consume_h := ce_origin_consume e in
  (origin s < 0 \/ generation s <> expected_gen -> r = (tt, s, [])) /\
  (0 <= origin s -> generation s = expected_gen -> 0 <= consume_h ->
   (generation s1 = expected_gen -> 0 <= ce_consume_catalog e ->
    r = (tt, set_consume consume_h s1,
         [moq_origin_consume (origin s) (broadcast s); moq_consume_catalog consume_h])) /\
   (generation s1 <> expected_gen ->
    r = (tt, s1,
         [moq_origin_consume (origin s) (broadcast s); moq_consume_close consume_h]))).
Proof.
  cbv zeta. split.
  - intros Hstale.
    assert (Hb : (origin s <? 0) || negb (generation s =? expected_gen) = true).
    { destruct Hstale as [H|H].
      - apply Z.ltb_lt in H. now rewrite H.
      - apply Z.eqb_neq in H. rewrite H. apply orb_true_r. }
    mstart (hang_source_start_consume e expected_gen s). unfold hang_source_start_consume.
    mexec_by ltac:(rewrite ?Hb); now mdone.
  - intros Ho Hg Hc. apply Z.ltb_ge in Ho, Hc. apply Z.eqb_eq in Hg. split.
    + intros Hg1 Hcat. apply Z.eqb_eq in Hg1. apply Z.ltb_ge in Hcat.
      mstart (hang_source_start_consume e expected_gen s).
      unfold hang_source_start_consume, hang_source_blank_video.
      mexec_by ltac:(rewrite ?Ho, ?Hg, ?Hc, ?Hg1, ?Hcat); now mdone.
    + intros Hg1. apply Z.eqb_neq in Hg1.
      mstart (hang_source_start_consume e expected_gen s).
      unfold hang_source_start_consume, hang_source_blank_video.
      mexec_by ltac:(rewrite ?Ho, ?Hg, ?Hc, ?Hg1); now mdone.
Qed.

Lemma hang_source_start_consume_commit_witness :
  hang_source_start_consume (se_consume status_example) 1 session_example
  = (tt, set_consume 22 session_example,
     [moq_origin_consume 10 (Some "cam"); moq_consume_catalog 22]).
Proof.
  destruct (hang_source_start_consume_commit (se_consume status_example) 1 session_example)
    as [_ H].
  destruct H as [H _]; [cbn; lia | reflexivity | cbn; lia |].
  apply H; [reflexivity | cbn; lia].
Defined.

(** ** The catalog callback *)

Ltac catalog_closed :=
  right; split; [reflexivity|]; split; [ends_with|];
  first [ intros Hin; cbn [In] in Hin; exfalso;
          repeat (destruct Hin as [Hin|Hin]; [discriminate Hin|]); exact Hin
        | intros _ Ht; exfalso; lia
        | intros _ _; cbn [In]; auto ].

(** X6.  A catalog handle given to [on_catalog] is accounted for on every
    path: either it is stored in [catalog_handle], together with the track
    subscribed on it, and nothing is closed; or it is closed exactly once,
    by the last call the callback makes, and a track that was subscribed
    on it is closed before it. *)
Theorem on_catalog_accounts_for_catalog (e : catalog_env) (catalog : Z) (s : hang_source) :
  0 <= catalog ->
  let r := on_catalog e catalog s in
  let track := ca_video_ordered e in
  (catalog_handle (state_of r) = catalog /\ video_track (state_of r) = track /\
   0 <= track /\ trace_of r = [moq_consume_video_ordered catalog])
  \/
  (count is_catalog_close (trace_of r) = 1%nat /\
   (exists tr0, trace_of r = tr0 ++ [moq_consume_catalog_close catalog]) /\
   (In (moq_consume_video_ordered catalog) (trace_of r) -> 0 <= track ->
    In (moq_consume_video_close track) (trace_of r))).
Proof.
  intros Hcat. cbv zeta.
  assert (Hc1 : (0 <=? catalog) = true) by now apply Z.leb_le.
  assert (Hc2 : (catalog <? 0) = false) by now apply Z.ltb_ge.
  mstart (on_catalog e catalog s).
  unfold on_catalog, hang_source_init_decoder, hang_source_blank_video.
  mexec_by ltac:(rewrite ?Hc1, ?Hc2); mdone;
    repeat match goal with
           | E : (_ <? 0) = true |- _ => apply Z.ltb_lt in E
           | E : (_ <? 0) = false |- _ => apply Z.ltb_ge in E
           end;
    first [ catalog_closed | left; repeat split; assumption ].
Qed.

Lemma on_catalog_accounts_for_catalog_witness :
  let r := on_catalog catalog_1280x720 13 consuming_example in
  catalog_handle (state_of r) = 13 /\ video_track (state_of r) = 14 /\
  trace_of r = [moq_consume_video_ordered 13].
Proof.
  cbv zeta.
  destruct (on_catalog_accounts_for_catalog catalog_1280x720 13 consuming_example)
    as [(Hc & Ht & _ & Htr)|(Hn & _)]; [lia | |].
  - split; [exact Hc | split; [exact Ht | exact Htr]].
  - exfalso. vm_compute in Hn. discriminate Hn.
Defined.

(** X7.  A catalog for which the decoder was initialised and the track
    subscribed: when the generation is still the one read at entry, track
    and catalog are stored, over whatever the two slots held, and nothing
    is closed; when a reconnect has changed the generation meanwhile, the
    track and then the catalog are closed and neither is stored. *)
Theorem on_catalog_commit (e : catalog_env) (catalog : Z) (s : hang_source)
    (config : moq_video_config) :
  shutting_down s = false -> 0 <= consume s -> 0 <= catalog ->
  ca_video_config e = Some config ->
  value_of (hang_source_init_decoder (ca_init e) config s) = true ->
  0 <= ca_video_ordered e ->
  let s2 := ca_released e (state_of (hang_source_init_decoder (ca_init e) config s)) in
  let track := ca_video_ordered e in
  let r := on_catalog e catalog s in
  (generation s2 = generation s ->
   r = (tt, set_catalog_handle catalog (set_video_track track s2),
        [moq_consume_video_ordered catalog])) /\
  (generation s2 <> generation s ->
   r = (tt, s2,
        [moq_consume_video_ordered catalog; moq_consume_video_close track;
         moq_consume_catalog_close catalog])).
Proof.
  intros Hsd Hc Hcat Hcfg Hinit Htrack. cbv zeta.
  apply Z.ltb_ge in Hc, Hcat, Htrack.
  destruct (hang_source_init_decoder_result (ca_init e) config s) as (_ & _ & Htr).
  destruct (hang_source_init_decoder (ca_init e) config s) as [[ok s1] t1] eqn:Hrun.
  cbn [value_of trace_of state_of fst snd] in *. subst ok t1.
  split; intros Hg; [apply Z.eqb_eq in Hg | apply Z.eqb_neq in Hg];
    mstart (on_catalog e catalog s); unfold on_catalog;
    mexec_by ltac:(rewrite ?Hsd, ?Hc, ?Hcat, ?Hcfg, ?Htrack);
    erewrite bind_run by exact Hrun; cbv beta iota; fields;
    mexec_by ltac:(rewrite ?Htrack, ?Hg); now mdone.
Qed.

Lemma on_catalog_commit_witness :
  let e := {| ca_video_config := Some config_1280x720;
              ca_init := ca_init catalog_1280x720;
              ca_released := superseded; ca_video_ordered := 14 |} in
  trace_of (on_catalog e 13 consuming_example) =
    [moq_consume_video_ordered 13; moq_consume_video_close 14;
     moq_consume_catalog_close 13] /\
  chain_handles (state_of (on_catalog e 13 consuming_example)) = (10, 11, 12, -1, -1).
Proof.
  cbv zeta.
  destruct (on_catalog_commit
              {| ca_video_config := Some config_1280x720;
                 ca_init := ca_init catalog_1280x720;
                 ca_released := superseded; ca_video_ordered := 14 |}
              13 consuming_example config_1280x720) as [_ H];
    [reflexivity | cbn; lia | lia | reflexivity | reflexivity | cbn; lia |].
  rewrite H; [split; reflexivity | vm_compute; discriminate].
Defined.

(** X8.  The exits of [on_catalog] before the track is subscribed leave
    the struct untouched.  A catalog that arrives during shutdown or after
    the consume handle is gone is closed, when it is a handle, and that is
    all.  An error in place of a catalog emits the blank signal and tears
    nothing down.  A catalog whose video configuration cannot be read, or
    for which the decoder cannot be initialised, is closed: the chain
    stays connected, no blank signal is emitted and the decoder in place,
    if any, stays. *)
Theorem on_catalog_rejects (e : catalog_env) (catalog : Z) (s : hang_source) :
  let r := on_catalog e catalog s in
  (shutting_down s = true \/ consume s < 0 ->
   r = (tt, s, close_if_valid moq_consume_catalog_close catalog)) /\
  (shutting_down s = false -> 0 <= consume s ->
   (catalog < 0 -> r = (tt, s, [obs_source_output_video None])) /\
   (0 <= catalog ->
    ca_video_config e = None \/
    (exists config, ca_video_config e = Some config /\
                    value_of (hang_source_init_decoder (ca_init e) config s) = false) ->
    r = (tt, s, [moq_consume_catalog_close catalog]))).
Proof.
  cbv zeta. unfold close_if_valid. split.
  - intros Hgone.
    mstart (on_catalog e catalog s). unfold on_catalog.
    mstep. mcase; [mexec; now mdone|].
    destruct Hgone as [H|H]; [congruence|]. apply Z.ltb_lt in H.
    mexec_by ltac:(rewrite ?H); now mdone.
  - intros Hsd Hc. apply Z.ltb_ge in Hc. split.
    + intros Hcat. apply Z.ltb_lt in Hcat.
      mstart (on_catalog e catalog s). unfold on_catalog, hang_source_blank_video.
      mexec_by ltac:(rewrite ?Hsd, ?Hc, ?Hcat); now mdone.
    + intros Hcat Hfail. apply Z.ltb_ge in Hcat.
      destruct Hfail as [Hcfg|(config & Hcfg & Hinit)].
      * mstart (on_catalog e catalog s). unfold on_catalog.
        mexec_by ltac:(rewrite ?Hsd, ?Hc, ?Hcat, ?Hcfg); now mdone.
      * destruct (hang_source_init_decoder_result (ca_init e) config s)
          as (_ & Hstate & Htr).
        destruct (hang_source_init_decoder (ca_init e) config s) as [[ok s1] t1] eqn:Hrun.
        cbn [value_of trace_of state_of fst snd] in *. subst ok t1.
        rewrite (Hstate eq_refl) in Hrun.
        mstart (on_catalog e catalog s). unfold on_catalog.
        mexec_by ltac:(rewrite ?Hsd, ?Hc, ?Hcat, ?Hcfg).
        erewrite bind_run by exact Hrun. cbv beta iota. fields.
        mexec. now mdone.
Qed.

Lemma on_catalog_rejects_witness :
  on_catalog catalog_1280x720 (-1) consuming_example
  = (tt, consuming_example, [obs_source_output_video None]).
Proof.
  destruct (on_catalog_rejects catalog_1280x720 (-1) consuming_example) as [_ H].
  destruct H as [H _]; [reflexivity | cbn; lia |].
  apply H. lia.
Defined.

(** ** Decoder initialisation *)

Lemma to_int_small (x : Z) : 0 <= x < 2 ^ 31 -> to_int x = x.
Proof.
  intros H. unfold to_int.
  change (2 ^ 31) with 2147483648 in *. change (2 ^ 32) with 4294967296.
  rewrite Z.mod_small; lia.
Qed.

(** X9.  [hang_source_init_decoder] succeeds exactly when the decoder is
    found, its context allocated and opened, and the frame buffer and the
    scaler are created; a codec description that cannot be copied is not a
    failure.  It calls nothing that the trace records.  On failure the
    struct is untouched.  On success the frame geometry is the coded one,
    or 1920x1080 where the configuration has none, the frame is RGBA with
    timestamp 0 and points at the new buffer, the pipeline waits for a
    keyframe, and the connection and the settings are as the other threads
    left them; for a geometry of at most 16384x16384 the scaler has that
    geometry, the buffer has width x height x 4 bytes and a line has
    width x 4. *)
Theorem hang_source_init_decoder_installs (e : init_env) (config : moq_video_config)
    (s : hang_source) :
  let r := hang_source_init_decoder e config s in
  let w := config_width config in
  let h := config_height config in
  value_of r =
    ie_find_decoder e && ie_alloc_context e && (0 <=? ie_open2 e)
    && ie_bmalloc e && ie_sws_getContext e /\
  trace_of r = [] /\
  (value_of r = false -> state_of r = s) /\
  (value_of r = true ->
   connection_state (state_of r) = connection_state (ie_released e s) /\
   settings_state (state_of r) = settings_state (ie_released e s) /\
   shutting_down (state_of r) = shutting_down (ie_released e s) /\
   (width (frame (state_of r)) = w /\ height (frame (state_of r)) = h /\
    format (frame (state_of r)) = VIDEO_FORMAT_RGBA /\
    timestamp (frame (state_of r)) = 0 /\
    data0 (frame (state_of r)) = frame_buffer (state_of r)) /\
   (got_keyframe (state_of r) = false /\ frames_waiting_for_keyframe (state_of r) = 0 /\
    consecutive_decode_errors (state_of r) = 0) /\
   (0 < w <= 16384 -> 0 < h <= 16384 ->
    sws_ctx (state_of r) = Some {| sws_width := w; sws_height := h |} /\
    frame_buffer (state_of r) = Some {| buf_size := w * h * 4 |} /\
    linesize0 (frame (state_of r)) = w * 4)).
Proof.
  cbv zeta. unfold config_width, config_height, connection_state, settings_state.
  mstart (hang_source_init_decoder e config s). unfold hang_source_init_decoder.
  mexec; mdone;
    repeat match goal with
           | E : negb _ = true |- _ => apply negb_true_iff in E
           | E : negb _ = false |- _ => apply negb_false_iff in E
           | E : (?x <? 0) = true |- _ =>
               assert ((0 <=? x) = false) by (apply Z.leb_gt, Z.ltb_lt; exact E); clear E
           | E : (?x <? 0) = false |- _ =>
               assert ((0 <=? x) = true) by (apply Z.leb_le, Z.ltb_ge; exact E); clear E
           end;
    repeat match goal with
           | E : ?b = _ |- context [?b] => rewrite E
           end;
    (split; [reflexivity|]); (split; [reflexivity|]);
    (split; [intros; first [reflexivity | discriminate]|]);
    intros Hok; try discriminate Hok;
    (repeat (split; [reflexivity|])); (split; [repeat split|]); (split; [repeat split|]);
    intros Hw Hh;
    rewrite !to_int_small by lia; rewrite !u32_small by nia;
    repeat split.
Qed.

(** The defaults, with a codec description that cannot be copied. *)
Lemma hang_source_init_decoder_installs_witness :
  let e := {| ie_released := undisturbed; ie_find_decoder := true;
              ie_alloc_context := true; ie_extradata := false; ie_open2 := 0;
              ie_bmalloc := true; ie_sws_getContext := true |} in
  let r := hang_source_init_decoder e config_without_geometry consuming_example in
  value_of r = true /\
  sws_ctx (state_of r) = Some {| sws_width := 1920; sws_height := 1080 |} /\
  frame_buffer (state_of r) = Some {| buf_size := 8294400 |} /\
  linesize0 (frame (state_of r)) = 7680.
Proof.
  cbv zeta.
  destruct (hang_source_init_decoder_installs
              {| ie_released := undisturbed; ie_find_decoder := true;
                 ie_alloc_context := true; ie_extradata := false; ie_open2 := 0;
                 ie_bmalloc := true; ie_sws_getContext := true |}
              config_without_geometry consuming_example) as (Hv & _ & _ & Hok).
  split; [exact Hv|].
  destruct (Hok Hv) as (_ & _ & _ & _ & _ & Hgeo).
  apply Hgeo; (split; [reflexivity | discriminate]).
Defined.

(** ** Frames through the pipeline *)

(** X10.  A frame that is decoded with the geometry of the frame buffer:
    the decoder is flushed first when this is the keyframe the pipeline
    waited for; the packet is sent with the payload size and the timestamp
    in milliseconds; the decoded picture is converted with the scaler and
    into the buffer in place; and the frame handed to the host is the one
    of the struct, stamped with the timestamp of the frame in
    microseconds.  Then the handle is closed.  The error count is zero
    afterwards, and scaler, buffer and codec are the ones found. *)
Theorem hang_source_decode_frame_outputs (e : decode_env) (frame_id : Z) (s : hang_source)
    (frame_data : moq_frame) :
  decoded e s frame_data ->
  de_width e = to_int (width (frame s)) -> de_height e = to_int (height (frame s)) ->
  let r := hang_source_decode_frame e frame_id s in
  let out := set_timestamp (timestamp_us frame_data) (frame s) in
  trace_of r =
    (if keyframe frame_data && negb (got_keyframe s) then [avcodec_flush_buffers] else [])
    ++ [avcodec_send_packet (to_int (payload_size frame_data))
          (timestamp_us frame_data / 1000);
        avcodec_receive_frame;
        sws_scale (sws_ctx s) (to_int (height (frame s))) (frame_buffer s)
          (to_int (u32 (width (frame s) * 4)));
        obs_source_output_video (Some out);
        moq_consume_frame_close frame_id] /\
  frame (state_of r) = out /\
  (got_keyframe (state_of r) = true /\ consecutive_decode_errors (state_of r) = 0 /\
   frames_waiting_for_keyframe (state_of r) =
     (if keyframe frame_data then 0 else frames_waiting_for_keyframe s)) /\
  (codec_ctx (state_of r) = codec_ctx s /\ sws_ctx (state_of r) = sws_ctx s /\
   frame_buffer (state_of r) = frame_buffer s).
Proof.
  intros Hdec Hw Hh.
  destruct (decoded_tests e s frame_data Hdec)
    as ((Hsd & H1 & H2 & H3) & (Hchunk & Hskip & Hpa) & (Hs & Hfa & Hrf)).
  destruct Hdec as ((_ & _ & _ & Hgk & _) & _).
  apply Z.eqb_eq in Hw, Hh. cbv zeta.
  mstart (hang_source_decode_frame e frame_id s). decode_unfold.
  mexec_by ltac:(rewrite ?Hsd, ?H1, ?H2, ?H3, ?Hchunk, ?Hskip, ?Hpa, ?Hs, ?Hfa, ?Hrf,
                 ?Hw, ?Hh);
    mdone; repeat split; destruct Hgk; congruence.
Qed.

Lemma hang_source_decode_frame_outputs_witness :
  trace_of (hang_source_decode_frame (decodable false 40000) 9 connected_example) =
    [avcodec_send_packet 4096 40; avcodec_receive_frame;
     sws_scale (Some {| sws_width := 1280; sws_height := 720 |}) 720
       (Some {| buf_size := 3686400 |}) 5120;
     obs_source_output_video
       (Some {| width := 1280; height := 720; format := VIDEO_FORMAT_RGBA;
                linesize0 := 5120; data0 := Some {| buf_size := 3686400 |};
                timestamp := 40000 |});
     moq_consume_frame_close 9].
Proof.
  assert (Hdec : decoded (decodable false 40000) connected_example
                   {| payload_size := 4096; timestamp_us := 40000; keyframe := false |}).
  { repeat split; try reflexivity; try discriminate. now left. }
  pose proof (hang_source_decode_frame_outputs (decodable false 40000) 9 connected_example
                _ Hdec eq_refl eq_refl) as H.
  cbv zeta in H. destruct H as (Ht & _). exact Ht.
Defined.

Lemma decoder_ready_false (s : hang_source) :
  decoder_ready s = false ->
  negb (isSome (codec_ctx s)) || negb (isSome (sws_ctx s))
  || negb (isSome (frame_buffer s)) = true.
Proof.
  unfold decoder_ready.
  destruct (isSome (codec_ctx s)), (isSome (sws_ctx s)), (isSome (frame_buffer s));
    now cbn.
Qed.

Lemma hang_source_decode_frame_no_decoder (e : decode_env) (frame_id : Z) (s : hang_source) :
  shutting_down s = true \/ decoder_ready s = false \/ de_chunk e = None ->
  hang_source_decode_frame e frame_id s = (tt, s, [moq_consume_frame_close frame_id]).
Proof.
  intros Hdrop.
  mstart (hang_source_decode_frame e frame_id s). decode_unfold.
  mstep. mcase; [mstep; now mdone|].
  mcase; [mstep; now mdone|].
  destruct Hdrop as [H|[H|H]]; [congruence | |].
  - apply decoder_ready_false in H. congruence.
  - rewrite H. mstep. now mdone.
Qed.

(** X11.  A frame that arrives during shutdown, without a complete decoder,
    or whose data cannot be fetched is dropped: the one call is the close
    of its handle and the struct is untouched.  So whatever frames are
    still delivered after a teardown are closed one by one and change
    nothing, until a decoder is installed again. *)
Theorem decode_frames_without_decoder :
  (forall (e : decode_env) (frame_id : Z) (s : hang_source),
     shutting_down s = true \/ decoder_ready s = false \/ de_chunk e = None ->
     hang_source_decode_frame e frame_id s = (tt, s, [moq_consume_frame_close frame_id])) /\
  (forall (fs : list (decode_env * Z)) (s : hang_source),
     shutting_down s = true \/ decoder_ready s = false ->
     decode_frames fs s = (tt, s, map (fun f => moq_consume_frame_close (snd f)) fs)) /\
  (forall (fs : list (decode_env * Z)) (s : hang_source),
     let s1 := state_of (hang_source_disconnect_locked s) in
     decode_frames fs s1 = (tt, s1, map (fun f => moq_consume_frame_close (snd f)) fs)).
Proof.
  assert (Hrun : forall (fs : list (decode_env * Z)) (s : hang_source),
             shutting_down s = true \/ decoder_ready s = false ->
             decode_frames fs s
             = (tt, s, map (fun f => moq_consume_frame_close (snd f)) fs)).
  { intros fs s Hdrop. induction fs as [|[e frame_id] fs IH]; [reflexivity|].
    rewrite decode_frames_cons, hang_source_decode_frame_no_decoder by tauto.
    cbn [state_of trace_of fst snd]. rewrite IH. reflexivity. }
  split; [exact hang_source_decode_frame_no_decoder|]. split; [exact Hrun|].
  intros fs s s1. apply Hrun. right. subst s1.
  rewrite hang_source_disconnect_locked_eq. cbn [state_of fst snd].
  now destruct_state s.
Qed.

(** Frames still delivered after the teardown of a running pipeline. *)
Lemma decode_frames_without_decoder_witness :
  let s1 := state_of (hang_source_disconnect_locked connected_example) in
  decode_frames five_failures s1 =
  (tt, s1,
   [moq_consume_frame_close 1; moq_consume_frame_close 2; moq_consume_frame_close 3;
    moq_consume_frame_close 4; moq_consume_frame_close 5]).
Proof.
  destruct decode_frames_without_decoder as (_ & _ & H).
  exact (H five_failures connected_example).
Defined.

Ltac bool_facts :=
  repeat match goal with
         | E : negb _ = true |- _ => apply negb_true_iff in E
         | E : negb _ = false |- _ => apply negb_false_iff in E
         | E : _ || _ = false |- _ => apply orb_false_iff in E; destruct E
         | E : _ && _ = true |- _ => apply andb_true_iff in E; destruct E
         | E : (_ <? _) = true |- _ => apply Z.ltb_lt in E
         | E : (_ <? _) = false |- _ => apply Z.ltb_ge in E
         | E : (_ <=? _) = true |- _ => apply Z.leb_le in E
         | E : (_ <=? _) = false |- _ => apply Z.leb_gt in E
         | E : (_ =? _) = true |- _ => apply Z.eqb_eq in E
         | E : (_ =? _) = false |- _ => apply Z.eqb_neq in E
         end.

(** X12.  [hang_source_decode_frame] hands at most one frame to the host,
    and only a frame that was decoded: the pipeline is not shutting down,
    the decoder is complete, the frame data was fetched, a keyframe has
    been seen or this is one, and send and receive both succeeded.  When
    the decoded geometry is not the one of the frame buffer, it is in
    range and scaler and buffer were rebuilt.  The frame handed over is
    the one of the struct and carries the timestamp of the frame data. *)
Theorem hang_source_decode_frame_output_requires (e : decode_env) (frame_id : Z)
    (s : hang_source) :
  let r := hang_source_decode_frame e frame_id s in
  (count is_output_frame (trace_of r) <= 1)%nat /\
  (count is_output_frame (trace_of r) = 1%nat ->
   exists frame_data,
     decoded e s frame_data /\
     (geometry_differs e s ->
      geometry_in_range e /\ de_sws_getContext e = true /\ de_bmalloc e = true) /\
     In (obs_source_output_video (Some (frame (state_of r)))) (trace_of r) /\
     timestamp (frame (state_of r)) = timestamp_us frame_data).
Proof.
  cbv zeta.
  mstart (hang_source_decode_frame e frame_id s). decode_unfold.
  mexec; mdone;
    (split; [cbn; lia|]); intros Hout; try (cbn in Hout; discriminate Hout);
    match goal with
    | E : de_chunk e = Some ?fd |- _ => exists fd
    end;
    unfold decoded, reaches_decoder, decoder_ready, geometry_differs, geometry_in_range;
    bool_facts;
    repeat match goal with
           | E : isSome _ = true |- _ => rewrite E
           end;
    (split; [ repeat split; try assumption; try reflexivity; try lia;
              match goal with
              | |- _ \/ _ =>
                  destruct (got_keyframe s), (keyframe _); cbn in *;
                  first [now left | now right | discriminate]
              end |]);
    (split; [ intros Hdiff; first [ repeat split; assumption || lia
                                  | exfalso; destruct Hdiff; congruence ] |]);
    (split; [cbn [In]; auto 10 | reflexivity]).
Qed.

Lemma hang_source_decode_frame_output_requires_witness :
  exists frame_data,
    decoded (decodable false 40000) connected_example frame_data /\
    timestamp
      (frame (state_of (hang_source_decode_frame (decodable false 40000) 9
                          connected_example)))
    = timestamp_us frame_data.
Proof.
  destruct (hang_source_decode_frame_output_requires (decodable false 40000) 9
              connected_example) as [_ H].
  destruct (H eq_refl) as (fd & Hdec & _ & _ & Hts).
  exists fd. split; [exact Hdec | exact Hts].
Defined.

(** ** Invariants *)

Lemma windows_preserve_cons (P : hang_source -> Prop) (f : hang_source -> hang_source)
    (l : list (hang_source -> hang_source)) :
  Forall (fun other => forall s, P s -> P (other s)) (f :: l) ->
  (forall s, P s -> P (f s)) /\ Forall (fun other => forall s, P s -> P (other s)) l.
Proof. intros H. inversion H; subst. now split. Qed.

(** The windows of an operation, one hypothesis each. *)
Ltac open_windows H :=
  unfold windows_preserve in H; cbn [windows] in H;
  repeat match type of H with
         | Forall _ (_ :: _) =>
             let Hw := fresh "Hw" in
             apply windows_preserve_cons in H; destruct H as [Hw H]
         end;
  clear H.

(** Windows that are all the identity. *)
Ltac no_interference :=
  repeat first
    [ apply Forall_nil
    | apply Forall_cons
    | progress (unfold windows_preserve, windows_keep, quiet; cbn [windows])
    | (intros ? ?; assumption)
    | (intros ?; reflexivity) ].

(** The bound on a struct reached by assignments and windows. *)
Ltac errors_kept :=
  repeat first
    [ assumption
    | match goal with
      | H : forall s, errors_bounded s -> errors_bounded (?f s)
        |- errors_bounded (?f _) => apply H
      end
    | progress (unfold errors_bounded; fields);
      match goal with
      | |- 0 <= consecutive_decode_errors ?x < 5 => change (errors_bounded x)
      | |- _ => lia
      end ].

Lemma errors_bounded_disconnected (s : hang_source) : errors_bounded (disconnected s).
Proof. destruct_state s. unfold errors_bounded, disconnected. assign. lia. Qed.

Lemma hang_source_decode_frame_errors_bounded (e : decode_env) (frame_id : Z)
    (s : hang_source) :
  errors_bounded s -> errors_bounded (state_of (hang_source_decode_frame e frame_id s)).
Proof.
  intros Hb. unfold errors_bounded in *.
  mstart (hang_source_decode_frame e frame_id s). decode_unfold.
  mexec; mdone; bool_facts;
    try match goal with
        | |- context [u32 ?x] => pose proof (u32_range x)
        end;
    lia.
Qed.

Lemma hang_source_reconnect_errors_bounded (e : reconnect_env) (s : hang_source) :
  (forall s, errors_bounded s -> errors_bounded (re_released e s)) ->
  errors_bounded s -> errors_bounded (state_of (hang_source_reconnect e s)).
Proof.
  intros Hw Hb. destruct (reconnect_in_progress s) eqn:Hrip.
  - unfold hang_source_reconnect. rewrite bind_get, Hrip. exact Hb.
  - rewrite (hang_source_reconnect_eq e s Hrip). cbv zeta.
    assert (Hb1 : errors_bounded (re_released e (reconnect_begun s)))
      by (apply Hw, errors_bounded_disconnected).
    destruct (re_origin_create e <? 0); [|destruct (re_session_connect e <? 0);
      [|destruct (generation _ =? _)]]; cbn [state_of fst snd]; errors_kept.
Qed.

Lemma run_errors_bounded (op : operation) (s : hang_source) :
  windows_preserve errors_bounded op -> errors_bounded s ->
  errors_bounded (state_of (run op s)).
Proof.
  intros Hq Hb. destruct op; open_windows Hq; cbn [run].
  - rewrite hang_source_update_eq. cbn [state_of fst snd].
    destruct (differs_from (pending_url s) u), (differs_from (pending_broadcast s) b);
      cbv zeta; cbn [orb]; errors_kept.
  - rewrite hang_source_video_tick_eq.
    destruct (shutting_down s); [exact Hb|].
    destruct (negb (reconnect_pending s)); [exact Hb|].
    destruct (elapsed_ms (te_now e) s <? DEBOUNCE_DELAY_MS); [exact Hb|].
    destruct (negb (settings_differ s)); [cbn [state_of fst snd]; errors_kept|].
    destruct (negb (pending_valid s));
      [cbn [state_of fst snd]; apply errors_bounded_disconnected|].
    apply hang_source_reconnect_errors_bounded; [assumption|].
    unfold adopted. errors_kept.
  - mstart (on_session_status e code s).
    unfold on_session_status, hang_source_start_consume, hang_source_blank_video.
    mexec; mdone; errors_kept.
  - mstart (on_catalog e catalog s).
    unfold on_catalog, hang_source_init_decoder, hang_source_blank_video.
    mexec; mdone; errors_kept.
  - mstart (on_video_frame e frame_id s). unfold on_video_frame.
    mexec; try (mdone; errors_kept).
    intros ->. apply hang_source_decode_frame_errors_bounded. errors_kept.
  - now apply hang_source_reconnect_errors_bounded.
  - mstart (hang_source_start_consume e expected_gen s).
    unfold hang_source_start_consume, hang_source_blank_video.
    mexec; mdone; errors_kept.
  - mstart ((_ <- hang_source_init_decoder e config;; ret tt) s).
    unfold hang_source_init_decoder.
    mexec; mdone; errors_kept.
  - now apply hang_source_decode_frame_errors_bounded.
  - unfold hang_source_destroy. rewrite bind_modify.
    erewrite bind_run by apply hang_source_disconnect_locked_eq.
    cbn [call after state_of fst snd]. apply errors_bounded_disconnected.
Qed.

(** X13.  The number of decode errors counted stays below five: every
    function of the file keeps [0 <= consecutive_decode_errors < 5], as
    long as the other threads, which run the same functions, do.  A new
    source starts within the bound. *)
Theorem consecutive_decode_errors_bounded :
  errors_bounded hang_source_initial /\
  (forall (ops : list operation) (s : hang_source),
     Forall (windows_preserve errors_bounded) ops -> errors_bounded s ->
     errors_bounded (state_of (run_all ops s))).
Proof.
  split; [unfold errors_bounded; cbn; lia|].
  intros ops. induction ops as [|op ops IH]; intros s Hq Hb.
  - exact Hb.
  - inversion Hq as [|? ? Hop Hrest]; subst.
    rewrite run_all_cons, after_state. apply IH; [exact Hrest|].
    now apply run_errors_bounded.
Qed.

Lemma consecutive_decode_errors_bounded_witness :
  errors_bounded
    (state_of (run_all [Catalog catalog_1280x720 13; DecodeFrame (undecodable true 0) 1;
                        DecodeFrame (undecodable false 33) 2]
                 consuming_example)).
Proof.
  destruct consecutive_decode_errors_bounded as [_ H].
  apply H.
  - no_interference.
  - split; [reflexivity | reflexivity].
Defined.

(** The invariant on a struct reached by assignments outside the decoder
    and by windows. *)
Ltac consistent_kept :=
  repeat first
    [ assumption
    | match goal with
      | H : forall s, pipeline_consistent s -> pipeline_consistent (?f s)
        |- pipeline_consistent (?f _) => apply H
      | |- pipeline_consistent (?set ?v ?x) => change (pipeline_consistent x)
      end ].

Lemma pipeline_consistent_disconnected (s : hang_source) :
  pipeline_consistent s -> pipeline_consistent (disconnected s).
Proof.
  destruct_state s. unfold pipeline_consistent, disconnected. assign.
  intros (Hg & Hl & Hf & Hd & _ & _). destruct f_buffer; cbn in *; repeat split; tauto.
Qed.

Lemma config_width_pos (config : moq_video_config) : 0 < config_width config.
Proof.
  unfold config_width, FRAME_WIDTH. destruct (coded_width config) as [w|]; [|lia].
  destruct (0 <? w) eqn:E; [now apply Z.ltb_lt | lia].
Qed.

Lemma config_height_pos (config : moq_video_config) : 0 < config_height config.
Proof.
  unfold config_height, FRAME_HEIGHT. destruct (coded_height config) as [h|]; [|lia].
  destruct (0 <? h) eqn:E; [now apply Z.ltb_lt | lia].
Qed.

Lemma hang_source_init_decoder_consistent (e : init_env) (config : moq_video_config)
    (s : hang_source) :
  config_in_range config -> pipeline_consistent s ->
  pipeline_consistent (state_of (hang_source_init_decoder e config s)).
Proof.
  intros [Hw Hh] Hc.
  pose proof (config_width_pos config) as Hw0.
  pose proof (config_height_pos config) as Hh0.
  unfold config_width, config_height in *.
  mstart (hang_source_init_decoder e config s). unfold hang_source_init_decoder.
  mexec; mdone; try exact Hc;
    unfold pipeline_consistent; fields;
    rewrite ?to_int_small by lia; rewrite ?u32_small by nia;
    repeat split; lia.
Qed.

Lemma u64_small (x : Z) : 0 <= x < 2 ^ 64 -> u64 x = x.
Proof. intros H. unfold u64. now apply Z.mod_small. Qed.

Lemma hang_source_decode_frame_consistent (e : decode_env) (frame_id : Z)
    (s : hang_source) :
  pipeline_consistent s ->
  pipeline_consistent (state_of (hang_source_decode_frame e frame_id s)).
Proof.
  intros Hc.
  mstart (hang_source_decode_frame e frame_id s). decode_unfold.
  mexec; mdone; try exact Hc;
    unfold pipeline_consistent in *; fields; bool_facts;
    destruct Hc as ((Hw & Hh) & Hl & Hf & Hd & Hs & Hb);
    try (repeat split; assumption || lia);
    rewrite ?u32_small by (change (2 ^ 32) with 4294967296; lia);
    rewrite ?u64_small
      by (rewrite ?u64_small by (change (2 ^ 64) with 18446744073709551616; nia);
          change (2 ^ 64) with 18446744073709551616; nia);
    repeat split; assumption || lia.
Qed.

Lemma hang_source_reconnect_consistent (e : reconnect_env) (s : hang_source) :
  (forall s, pipeline_consistent s -> pipeline_consistent (re_released e s)) ->
  pipeline_consistent s -> pipeline_consistent (state_of (hang_source_reconnect e s)).
Proof.
  intros Hw Hc. destruct (reconnect_in_progress s) eqn:Hrip.
  - unfold hang_source_reconnect. rewrite bind_get, Hrip. exact Hc.
  - rewrite (hang_source_reconnect_eq e s Hrip). cbv zeta.
    assert (Hc1 : pipeline_consistent (re_released e (reconnect_begun s))).
    { apply Hw. unfold reconnect_begun. apply pipeline_consistent_disconnected.
      consistent_kept. }
    destruct (re_origin_create e <? 0); [|destruct (re_session_connect e <? 0);
      [|destruct (generation _ =? _)]]; cbn [state_of fst snd]; consistent_kept.
Qed.

Lemma run_consistent (op : operation) (s : hang_source) :
  windows_preserve pipeline_consistent op -> catalog_in_range op ->
  pipeline_consistent s -> pipeline_consistent (state_of (run op s)).
Proof.
  intros Hq Hr Hc. destruct op; open_windows Hq; cbn [run catalog_in_range] in *.
  - rewrite hang_source_update_eq. cbn [state_of fst snd].
    destruct (differs_from (pending_url s) u), (differs_from (pending_broadcast s) b);
      cbv zeta; cbn [orb]; consistent_kept.
  - rewrite hang_source_video_tick_eq.
    destruct (shutting_down s); [exact Hc|].
    destruct (negb (reconnect_pending s)); [exact Hc|].
    destruct (elapsed_ms (te_now e) s <? DEBOUNCE_DELAY_MS); [exact Hc|].
    destruct (negb (settings_differ s)); [cbn [state_of fst snd]; consistent_kept|].
    destruct (negb (pending_valid s)).
    + cbn [state_of fst snd]. apply pipeline_consistent_disconnected.
      unfold adopted. consistent_kept.
    + apply hang_source_reconnect_consistent; [assumption|].
      unfold adopted. consistent_kept.
  - mstart (on_session_status e code s).
    unfold on_session_status, hang_source_start_consume, hang_source_blank_video.
    mexec; mdone; consistent_kept.
  - destruct (ca_video_config e) as [config|] eqn:Hcfg.
    + pose proof (hang_source_init_decoder_consistent (ca_init e) config s Hr Hc) as Hi.
      destruct (hang_source_init_decoder (ca_init e) config s) as [[ok s1] t1] eqn:Hrun.
      cbn [state_of fst snd] in Hi.
      mstart (on_catalog e catalog s). unfold on_catalog, hang_source_blank_video.
      mexec_by ltac:(rewrite ?Hcfg); try (mdone; consistent_kept).
      erewrite bind_run by exact Hrun. cbv beta iota. fields.
      mexec; mdone; consistent_kept.
    + mstart (on_catalog e catalog s). unfold on_catalog, hang_source_blank_video.
      mexec_by ltac:(rewrite ?Hcfg); mdone; consistent_kept.
  - mstart (on_video_frame e frame_id s). unfold on_video_frame.
    mexec; try (mdone; consistent_kept).
    intros ->. apply hang_source_decode_frame_consistent. consistent_kept.
  - now apply hang_source_reconnect_consistent.
  - mstart (hang_source_start_consume e expected_gen s).
    unfold hang_source_start_consume, hang_source_blank_video.
    mexec; mdone; consistent_kept.
  - pose proof (hang_source_init_decoder_consistent e config s Hr Hc) as Hi.
    destruct (hang_source_init_decoder e config s) as [[ok s1] t1] eqn:Hrun.
    unfold bind. rewrite Hrun. exact Hi.
  - now apply hang_source_decode_frame_consistent.
  - unfold hang_source_destroy. rewrite bind_modify.
    erewrite bind_run by apply hang_source_disconnect_locked_eq.
    cbn [call after state_of fst snd]. apply pipeline_consistent_disconnected.
    consistent_kept.
Qed.

(** X14.  Scaler, frame buffer and frame stay in agreement.  A new source
    has a frame of 1920x1080 and neither scaler nor buffer; from there
    every function of the file keeps the frame RGBA, of a geometry of at
    most 16384x16384, with lines of width x 4 bytes and pointing at the
    frame buffer, the scaler (when there is one) built for that geometry
    and the buffer (when there is one) of width x height x 4 bytes.  This
    holds as long as the other threads keep it and no catalog announces a
    coded geometry beyond 16384, which [hang_source_init_decoder] does not
    check. *)
Theorem pipeline_stays_consistent :
  pipeline_consistent hang_source_initial /\
  (forall (ops : list operation) (s : hang_source),
     Forall (windows_preserve pipeline_consistent) ops ->
     Forall catalog_in_range ops ->
     pipeline_consistent s ->
     pipeline_consistent (state_of (run_all ops s))).
Proof.
  split.
  - unfold pipeline_consistent. cbn. repeat split; lia || discriminate.
  - intros ops. induction ops as [|op ops IH]; intros s Hq Hr Hc.
    + exact Hc.
    + inversion Hq as [|? ? Hop Hrest]; subst. inversion Hr as [|? ? Hop' Hrest']; subst.
      rewrite run_all_cons, after_state. apply IH; [exact Hrest | exact Hrest' |].
      now apply run_consistent.
Qed.

Lemma pipeline_stays_consistent_witness :
  pipeline_consistent
    (state_of (run_all [Catalog catalog_1280x720 13; DecodeFrame decoded_640x480 1]
                 (set_consume 12 hang_source_initial))).
Proof.
  destruct pipeline_stays_consistent as [Hinit H].
  apply H.
  - no_interference.
  - repeat constructor; discriminate.
  - exact Hinit.
Defined.

(** X15.  From a consistent struct the conversion cannot overrun: whenever
    [hang_source_decode_frame] calls [sws_scale], the scaler is one built
    for the geometry of the decoded picture, the slice height is that
    picture's height, a destination line has width x 4 bytes and the
    destination is a buffer of width x height x 4 bytes; and a frame handed
    to the host is RGBA, has that geometry and line size and points at
    such a buffer. *)
Theorem sws_scale_within_buffer (e : decode_env) (frame_id : Z) (s : hang_source) :
  pipeline_consistent s ->
  let tr := trace_of (hang_source_decode_frame e frame_id s) in
  (forall c h b ls, In (sws_scale c h b ls) tr ->
     c = Some {| sws_width := de_width e; sws_height := de_height e |} /\
     h = de_height e /\ ls = de_width e * 4 /\
     b = Some {| buf_size := de_width e * de_height e * 4 |}) /\
  (forall f, In (obs_source_output_video (Some f)) tr ->
     width f = de_width e /\ height f = de_height e /\
     format f = VIDEO_FORMAT_RGBA /\ linesize0 f = de_width e * 4 /\
     data0 f = Some {| buf_size := de_width e * de_height e * 4 |}).
Proof.
  intros Hc. cbv zeta.
  mstart (hang_source_decode_frame e frame_id s). decode_unfold.
  mexec; mdone;
    (split; [intros c h b ls Hin | intros f Hin]);
    cbn [In] in Hin;
    repeat match goal with
           | H : _ \/ _ |- _ => destruct H as [H|H]; [try discriminate H|]
           | H : False |- _ => destruct H
           end;
    inversion Hin; subst; clear Hin;
    unfold pipeline_consistent in Hc; fields; bool_facts;
    revert Hc;
    repeat match goal with
           | H : isSome (codec_ctx s) = true |- _ => clear H
           | H : isSome (sws_ctx s) = true |- _ =>
               destruct (sws_ctx s) as [[sw sh]|]; [clear H | discriminate H]
           | H : isSome (frame_buffer s) = true |- _ =>
               destruct (frame_buffer s) as [[bs]|]; [clear H | discriminate H]
           end;
    intros ((Hw & Hh) & Hl & Hf & Hd & Hs & Hb);
    cbn [sws_width sws_height buf_size] in *;
    rewrite ?(to_int_small (width (frame s))) in *
      by (change (2 ^ 31) with 2147483648; lia);
    rewrite ?(to_int_small (height (frame s))) in *
      by (change (2 ^ 31) with 2147483648; lia);
    rewrite ?(u32_small (de_width e)), ?(u32_small (de_height e))
      by (change (2 ^ 32) with 4294967296; lia);
    rewrite ?u32_small in * by (change (2 ^ 32) with 4294967296; lia);
    rewrite ?to_int_small in * by (change (2 ^ 31) with 2147483648; lia);
    rewrite ?u64_small
      by (rewrite ?u64_small by (change (2 ^ 64) with 18446744073709551616; nia);
          change (2 ^ 64) with 18446744073709551616; nia);
    repeat split; try congruence; try lia;
    repeat f_equal; try congruence; lia.
Qed.

Lemma sws_scale_within_buffer_witness :
  pipeline_consistent connected_example /\
  (forall c h b ls,
     In (sws_scale c h b ls)
        (trace_of (hang_source_decode_frame decoded_640x480 9 connected_example)) ->
     c = Some {| sws_width := 640; sws_height := 480 |} /\
     b = Some {| buf_size := 1228800 |}).
Proof.
  assert (Hc : pipeline_consistent connected_example).
  { unfold pipeline_consistent. cbn. repeat split; reflexivity || discriminate. }
  split; [exact Hc|]. intros c h b ls Hin.
  destruct (sws_scale_within_buffer decoded_640x480 9 connected_example Hc) as [H _].
  destruct (H c h b ls Hin) as (Hs & _ & _ & Hb). split; [exact Hs | exact Hb].
Defined.

(** ** Debounce and reconnect *)

Lemma elapsed_ms_threshold (now : Z) (s : hang_source) :
  0 <= settings_changed_time s <= now -> now < 2 ^ 64 ->
  (elapsed_ms now s <? DEBOUNCE_DELAY_MS) = (now - settings_changed_time s <? 500000000).
Proof.
  intros Ht Hn. unfold elapsed_ms, DEBOUNCE_DELAY_MS.
  rewrite u64_small by lia.
  set (d := now - settings_changed_time s). assert (0 <= d) by (subst d; lia).
  destruct (d <? 500000000) eqn:E.
  - apply Z.ltb_lt in E. apply Z.ltb_lt. apply Z.div_lt_upper_bound; lia.
  - apply Z.ltb_ge in E. apply Z.ltb_ge.
    apply Z.div_le_lower_bound; lia.
Qed.

(** X16.  The debounce window is 500 000 000 ns of the host clock, counted
    from [settings_changed_time]: a tick with a reconnect pending does
    nothing before that, and from exactly that on it clears
    [reconnect_pending] and either finds the pending settings active, or
    adopts them and tears down on unusable settings, or adopts them and
    reconnects. *)
Theorem hang_source_video_tick_threshold (e : tick_env) (s : hang_source) :
  shutting_down s = false -> reconnect_pending s = true ->
  0 <= settings_changed_time s <= te_now e -> te_now e < 2 ^ 64 ->
  let r := hang_source_video_tick e s in
  let waited := te_now e - settings_changed_time s in
  (waited < 500000000 -> r = (tt, s, [])) /\
  (500000000 <= waited ->
   (settings_differ s = false -> r = (tt, set_reconnect_pending false s, [])) /\
   (settings_differ s = true -> pending_valid s = false ->
    r = (tt, disconnected (adopted s), chain_closes s ++ [obs_source_output_video None])) /\
   (settings_differ s = true -> pending_valid s = true ->
    r = hang_source_reconnect (te_reconnect e) (te_released e (adopted s)))).
Proof.
  intros Hsd Hrp Ht Hn. cbv zeta.
  rewrite hang_source_video_tick_eq, Hsd, Hrp, elapsed_ms_threshold by assumption.
  cbn [negb]. split.
  - intros Hlt. apply Z.ltb_lt in Hlt. now rewrite Hlt.
  - intros Hge. apply Z.ltb_ge in Hge. rewrite Hge.
    split; [|split]; intros Hd; rewrite Hd; cbn [negb]; [reflexivity| |];
      intros Hv; now rewrite Hv.
Qed.

Lemma hang_source_video_tick_threshold_witness :
  let s := fst (hang_source_create "https://relay" "cam" 1000) in
  hang_source_video_tick (tick_example 500000999) s = (tt, s, []) /\
  trace_of (hang_source_video_tick (tick_example 500001000) s) =
    [obs_source_output_video None; os_sleep_ms 50; moq_origin_create;
     moq_session_connect (Some "https://relay") 20].
Proof.
  cbv zeta.
  split.
  - destruct (hang_source_video_tick_threshold (tick_example 500000999)
                (fst (hang_source_create "https://relay" "cam" 1000)))
      as [H _]; [reflexivity | reflexivity | cbn; lia | reflexivity |].
    apply H. cbn. lia.
  - destruct (hang_source_video_tick_threshold (tick_example 500001000)
                (fst (hang_source_create "https://relay" "cam" 1000)))
      as [_ H]; [reflexivity | reflexivity | cbn; lia | reflexivity |].
    destruct H as (_ & _ & H); [cbn; lia|].
    rewrite H by reflexivity. reflexivity.
Defined.

(** X17.  [hang_source_reconnect] never leaves its guard set: whether the
    origin cannot be created, the session cannot be connected, the attempt
    is superseded or the handles are installed, [reconnect_in_progress] is
    false when it returns, so a failed attempt does not block the next.
    It creates one origin and connects at most one session, after closing
    the old chain and emitting the blank signal; and a handle it has
    created is stored in its slot or closed by the last calls it makes. *)
Theorem hang_source_reconnect_releases_guard (e : reconnect_env) (s : hang_source) :
  reconnect_in_progress s = false ->
  let r := hang_source_reconnect e s in
  let new_origin := re_origin_create e in
  let new_session := re_session_connect e in
  reconnect_in_progress (state_of r) = false /\
  (exists rest,
     trace_of r = reconnect_prologue s ++ rest /\
     none_of is_origin_create rest /\ none_of is_blank rest) /\
  (new_origin < 0 -> trace_of r = reconnect_prologue s) /\
  (0 <= new_origin ->
   (origin (state_of r) = new_origin /\ session (state_of r) = new_session /\
    0 <= new_session /\
    trace_of r = reconnect_prologue s ++ [moq_session_connect (url s) new_origin])
   \/
   ((exists tr0, trace_of r = tr0 ++ [moq_origin_close new_origin]) /\
    (0 <= new_session ->
     exists tr0,
       trace_of r =
         tr0 ++ [moq_session_close new_session; moq_origin_close new_origin]))).
Proof.
  intros Hrip. cbv zeta. rewrite (hang_source_reconnect_eq e s Hrip). cbv zeta.
  destruct (re_origin_create e <? 0) eqn:Eo; bool_facts.
  - cbn [state_of trace_of fst snd]. split; [reflexivity|]. split; [|split].
    + exists []. rewrite app_nil_r. repeat split; constructor.
    + reflexivity.
    + intros; lia.
  - destruct (re_session_connect e <? 0) eqn:Es; bool_facts;
      [|destruct (generation _ =? _) eqn:Eg];
      cbn [state_of trace_of fst snd]; (split; [reflexivity|]);
      (split; [eexists; split; [reflexivity|]; split; repeat constructor|]);
      (split; [intros; lia|]); intros _.
    + right. split.
      * exists (reconnect_prologue s ++ [moq_session_connect (url s) (re_origin_create e)]).
        now rewrite <- app_assoc.
      * intros; lia.
    + left. repeat split; assumption.
    + right. split.
      * exists (reconnect_prologue s
                ++ [moq_session_connect (url s) (re_origin_create e);
                    moq_session_close (re_session_connect e)]).
        now rewrite <- app_assoc.
      * intros _.
        exists (reconnect_prologue s ++ [moq_session_connect (url s) (re_origin_create e)]).
        now rewrite <- app_assoc.
Qed.

Lemma hang_source_reconnect_releases_guard_witness :
  let e := {| re_released := undisturbed; re_origin_create := 20; re_session_connect := -1 |} in
  reconnect_in_progress (state_of (hang_source_reconnect e connected_example)) = false /\
  exists tr0,
    trace_of (hang_source_reconnect e connected_example) = tr0 ++ [moq_origin_close 20].
Proof.
  cbv zeta.
  destruct (hang_source_reconnect_releases_guard
              {| re_released := undisturbed; re_origin_create := 20;
                 re_session_connect := -1 |} connected_example eq_refl)
    as (Hg & _ & _ & H).
  split; [exact Hg|].
  destruct H as [(_ & _ & Hs & _)|(Hc & _)]; [cbn; lia | | exact Hc].
  exfalso. cbn in Hs. lia.
Defined.

(** ** Which function writes what *)

Lemma windows_keep_cons {A : Type} (part : hang_source -> A)
    (f : hang_source -> hang_source) (l : list (hang_source -> hang_source)) :
  Forall (fun other => forall s, part (other s) = part s) (f :: l) ->
  (forall s, part (f s) = part s) /\ Forall (fun other => forall s, part (other s) = part s) l.
Proof. intros H. inversion H; subst. now split. Qed.

Ltac open_kept H :=
  unfold windows_keep in H; cbn [windows] in H;
  repeat match type of H with
         | Forall _ (_ :: _) =>
             let Hw := fresh "Hw" in
             apply windows_keep_cons in H; destruct H as [Hw H]
         end;
  clear H.

(** A part of the struct that assignments to other fields and the windows
    leave alone. *)
Ltac kept :=
  repeat first
    [ reflexivity
    | assumption
    | match goal with
      | H : forall s, ?p (?f s) = ?p s |- ?p (?f ?x) = _ => rewrite (H x)
      | |- ?p (?set ?v ?x) = _ =>
          let H := fresh in
          assert (H : forall y, p (set v y) = p y)
            by (let y := fresh in intros y; destruct_state y; reflexivity);
          rewrite (H x); clear H
      end ].

Lemma disconnected_keeps (s : hang_source) :
  settings_state (disconnected s) = settings_state s /\
  generation (disconnected s) = generation s /\
  shutting_down (disconnected s) = shutting_down s.
Proof. now destruct_state s. Qed.

Lemma hang_source_decode_frame_keeps (e : decode_env) (frame_id : Z) (s : hang_source) :
  let s1 := state_of (hang_source_decode_frame e frame_id s) in
  settings_state s1 = settings_state s /\ generation s1 = generation s /\
  shutting_down s1 = shutting_down s.
Proof.
  cbv zeta.
  mstart (hang_source_decode_frame e frame_id s). decode_unfold.
  mexec; mdone; (split; [|split]); kept.
Qed.

Lemma hang_source_reconnect_keeps (e : reconnect_env) (s : hang_source) :
  let s1 := state_of (hang_source_reconnect e s) in
  ((forall s, settings_state (re_released e s) = settings_state s) ->
   settings_state s1 = settings_state s) /\
  ((forall s, shutting_down (re_released e s) = shutting_down s) ->
   shutting_down s1 = shutting_down s).
Proof.
  cbv zeta. destruct (reconnect_in_progress s) eqn:Hrip.
  - unfold hang_source_reconnect. rewrite bind_get, Hrip. split; reflexivity.
  - rewrite (hang_source_reconnect_eq e s Hrip). cbv zeta.
    destruct (disconnected_keeps
                (set_generation (u32 (generation s + 1)) (set_reconnect_in_progress true s)))
      as (Hs & _ & Hf).
    split; intros Hw;
      (destruct (re_origin_create e <? 0); [|destruct (re_session_connect e <? 0);
         [|destruct (generation _ =? _)]]); cbn [state_of fst snd];
      kept; unfold reconnect_begun; first [rewrite Hs | rewrite Hf]; reflexivity.
Qed.

(** X18.  The settings (the active and the pending url and broadcast name,
    the time of the last change and [reconnect_pending]) are written by the
    settings update and by the tick only: no callback, no setup step, no
    decode path and not the teardown changes them, so nothing but a
    settings update schedules a reconnect.  And the shutdown flag is
    written by [hang_source_destroy] only.  Both hold as long as the other
    threads, which run the same functions, do the same. *)
Theorem settings_and_flag_writers :
  (forall (op : operation) (s : hang_source),
     writes_settings op = false -> windows_keep settings_state op ->
     settings_state (state_of (run op s)) = settings_state s) /\
  (forall (op : operation) (s : hang_source),
     writes_flag op = false -> windows_keep shutting_down op ->
     shutting_down (state_of (run op s)) = shutting_down s).
Proof.
  split; intros op s Hop Hq; destruct op; try discriminate Hop; open_kept Hq; cbn [run].
  - mstart (on_session_status e code s).
    unfold on_session_status, hang_source_start_consume, hang_source_blank_video.
    mexec; mdone; kept.
  - mstart (on_catalog e catalog s).
    unfold on_catalog, hang_source_init_decoder, hang_source_blank_video.
    mexec; mdone; kept.
  - mstart (on_video_frame e frame_id s). unfold on_video_frame.
    mexec; try (mdone; kept).
    intros ->. destruct (hang_source_decode_frame_keeps (fe_decode e) frame_id
                           (fe_released e s)) as (H & _). rewrite H. kept.
  - now apply hang_source_reconnect_keeps.
  - mstart (hang_source_start_consume e expected_gen s).
    unfold hang_source_start_consume, hang_source_blank_video.
    mexec; mdone; kept.
  - mstart ((_ <- hang_source_init_decoder e config;; ret tt) s).
    unfold hang_source_init_decoder.
    mexec; mdone; kept.
  - apply hang_source_decode_frame_keeps.
  - unfold hang_source_destroy. rewrite bind_modify.
    erewrite bind_run by apply hang_source_disconnect_locked_eq.
    cbn [call after state_of fst snd].
    destruct (disconnected_keeps (set_shutting_down true s)) as (H & _). rewrite H. kept.
  - rewrite hang_source_update_eq. cbn [state_of fst snd].
    destruct (differs_from (pending_url s) u), (differs_from (pending_broadcast s) b);
      cbv zeta; cbn [orb]; kept.
  - rewrite hang_source_video_tick_eq.
    destruct (shutting_down s) eqn:Hsd; [cbn [state_of fst snd]; now rewrite Hsd|].
    destruct (negb (reconnect_pending s)); [cbn [state_of fst snd]; now rewrite Hsd|].
    destruct (elapsed_ms (te_now e) s <? DEBOUNCE_DELAY_MS);
      [cbn [state_of fst snd]; now rewrite Hsd|].
    destruct (negb (settings_differ s)); [cbn [state_of fst snd]; now rewrite <- Hsd; kept|].
    destruct (negb (pending_valid s)).
    + cbn [state_of fst snd].
      destruct (disconnected_keeps (adopted s)) as (_ & _ & H). rewrite H.
      unfold adopted. now rewrite <- Hsd; kept.
    + destruct (hang_source_reconnect_keeps (te_reconnect e) (te_released e (adopted s)))
        as (_ & H).
      rewrite (H Hw0), Hw. unfold adopted. now rewrite <- Hsd; kept.
  - mstart (on_session_status e code s).
    unfold on_session_status, hang_source_start_consume, hang_source_blank_video.
    mexec; mdone; kept.
  - mstart (on_catalog e catalog s).
    unfold on_catalog, hang_source_init_decoder, hang_source_blank_video.
    mexec; mdone; kept.
  - mstart (on_video_frame e frame_id s). unfold on_video_frame.
    mexec; try (mdone; kept).
    intros ->. destruct (hang_source_decode_frame_keeps (fe_decode e) frame_id
                           (fe_released e s)) as (_ & _ & H). rewrite H. kept.
  - now apply hang_source_reconnect_keeps.
  - mstart (hang_source_start_consume e expected_gen s).
    unfold hang_source_start_consume, hang_source_blank_video.
    mexec; mdone; kept.
  - mstart ((_ <- hang_source_init_decoder e config;; ret tt) s).
    unfold hang_source_init_decoder.
    mexec; mdone; kept.
  - apply hang_source_decode_frame_keeps.
Qed.

Lemma settings_and_flag_writers_witness :
  settings_state (state_of (run (Catalog catalog_1280x720 13) consuming_example))
  = settings_state consuming_example.
Proof.
  destruct settings_and_flag_writers as [H _].
  apply (H (Catalog catalog_1280x720 13) consuming_example); [reflexivity|].
  repeat constructor.
Defined.

(** X19.  The generation is written by [hang_source_reconnect] only, that
    is by a reconnect and by the tick that calls it: every other function
    leaves it as it is.  A reconnect that is not skipped adds exactly one
    to it, in [uint32_t]; so, with the other threads leaving it alone, the
    generation counts the reconnects begun, and an attempt that is not
    interfered with finds its own generation at commit and installs the
    handles it was given. *)
Theorem generation_writers :
  (forall (op : operation) (s : hang_source),
     writes_generation op = false -> windows_keep generation op ->
     generation (state_of (run op s)) = generation s) /\
  (forall (e : reconnect_env) (s : hang_source),
     (forall s, generation (re_released e s) = generation s) ->
     let r := hang_source_reconnect e s in
     generation (state_of r) =
       (if reconnect_in_progress s then generation s else u32 (generation s + 1)) /\
     (reconnect_in_progress s = false ->
      0 <= re_origin_create e -> 0 <= re_session_connect e ->
      origin (state_of r) = re_origin_create e /\
      session (state_of r) = re_session_connect e)).
Proof.
  split.
  - intros op s Hop Hq; destruct op; try discriminate Hop; open_kept Hq; cbn [run].
    + rewrite hang_source_update_eq. cbn [state_of fst snd].
      destruct (differs_from (pending_url s) u), (differs_from (pending_broadcast s) b);
        cbv zeta; cbn [orb]; kept.
    + mstart (on_session_status e code s).
      unfold on_session_status, hang_source_start_consume, hang_source_blank_video.
      mexec; mdone; kept.
    + mstart (on_catalog e catalog s).
      unfold on_catalog, hang_source_init_decoder, hang_source_blank_video.
      mexec; mdone; kept.
    + mstart (on_video_frame e frame_id s). unfold on_video_frame.
      mexec; try (mdone; kept).
      intros ->. destruct (hang_source_decode_frame_keeps (fe_decode e) frame_id
                             (fe_released e s)) as (_ & H & _). rewrite H. kept.
    + mstart (hang_source_start_consume e expected_gen s).
      unfold hang_source_start_consume, hang_source_blank_video.
      mexec; mdone; kept.
    + mstart ((_ <- hang_source_init_decoder e config;; ret tt) s).
      unfold hang_source_init_decoder.
      mexec; mdone; kept.
    + apply hang_source_decode_frame_keeps.
    + unfold hang_source_destroy. rewrite bind_modify.
      erewrite bind_run by apply hang_source_disconnect_locked_eq.
      cbn [call after state_of fst snd].
      destruct (disconnected_keeps (set_shutting_down true s)) as (_ & H & _).
      rewrite H. kept.
  - intros e s Hw. cbv zeta. destruct (reconnect_in_progress s) eqn:Hrip.
    + unfold hang_source_reconnect. rewrite bind_get, Hrip.
      split; [reflexivity | discriminate].
    + rewrite (hang_source_reconnect_eq e s Hrip). cbv zeta.
      assert (Hg : generation (re_released e (reconnect_begun s)) = u32 (generation s + 1)).
      { rewrite Hw. unfold reconnect_begun.
        destruct (disconnected_keeps
                    (set_generation (u32 (generation s + 1))
                       (set_reconnect_in_progress true s))) as (_ & H & _).
        now rewrite H. }
      rewrite Hg, Z.eqb_refl. split.
      * destruct (re_origin_create e <? 0); [|destruct (re_session_connect e <? 0)];
          cbn [state_of fst snd]; kept.
      * intros _ Ho Hs. apply Z.ltb_ge in Ho, Hs. rewrite Ho, Hs.
        cbn [state_of fst snd]. split; reflexivity.
Qed.

Lemma generation_writers_witness :
  generation (state_of (hang_source_reconnect reconnect_example connected_example)) = 2 /\
  origin (state_of (hang_source_reconnect reconnect_example connected_example)) = 20.
Proof.
  destruct generation_writers as [_ H].
  destruct (H reconnect_example connected_example (fun s => eq_refl)) as [Hg Hi].
  split; [exact Hg|].
  destruct (Hi eq_refl) as [Ho _]; [cbn; lia | cbn; lia | exact Ho].
Defined.

(** ** From creation to teardown *)

Ltac env_fields :=
  cbn [se_released se_consume ce_released1 ce_origin_consume ce_released2
       ce_consume_catalog ca_video_config ca_init ca_released ca_video_ordered
       ie_released ie_find_decoder ie_alloc_context ie_extradata ie_open2 ie_bmalloc
       ie_sws_getContext te_now te_released te_reconnect re_released re_origin_create
       re_session_connect negb Z.ltb Z.compare].

Lemma disconnected_handles (s : hang_source) :
  chain_handles (disconnected s) =
  (closed (origin s), closed (session s), closed (consume s),
   closed (catalog_handle s), closed (video_track s)) /\
  decoder_ready (disconnected s) = false.
Proof. now destruct_state s. Qed.

Lemma closed_valid (h : Z) : (0 <=? h) = true -> closed h = -1.
Proof. intros H. unfold closed. now rewrite H. Qed.

Lemma hang_source_init_decoder_succeeds (e : init_env) (config : moq_video_config)
    (s : hang_source) :
  ie_find_decoder e = true -> ie_alloc_context e = true -> 0 <= ie_open2 e ->
  ie_bmalloc e = true -> ie_sws_getContext e = true ->
  let r := hang_source_init_decoder e config s in
  value_of r = true /\
  chain_handles (state_of r) = chain_handles (ie_released e s) /\
  generation (state_of r) = generation (ie_released e s) /\
  shutting_down (state_of r) = shutting_down (ie_released e s).
Proof.
  intros Hf Ha Ho Hb Hs. apply Z.ltb_ge in Ho. cbv zeta. unfold chain_handles.
  mstart (hang_source_init_decoder e config s). unfold hang_source_init_decoder.
  mexec_by ltac:(rewrite ?Hf, ?Ha, ?Ho, ?Hb, ?Hs). mdone. repeat split.
Qed.

(** X20.  From a connected session to a complete chain, and back: a status
    0 consumes the active broadcast from the stored origin and subscribes
    the catalog on the new consume handle; the catalog that arrives gets a
    decoder and a track; the slots then hold origin, session, consume
    handle, catalog and track, and the pipeline waits for a keyframe.
    [hang_source_destroy] closes exactly these five, the track first and
    the origin last, and leaves no handle and no decoder behind. *)
Theorem chain_completes_and_tears_down (s : hang_source)
    (consume_h catalog_h catalog track : Z) (config : moq_video_config) :
  shutting_down s = false -> 0 <= origin s -> 0 <= session s ->
  0 <= consume_h -> 0 <= catalog_h -> 0 <= catalog -> 0 <= track ->
  let r1 := on_session_status (consumes consume_h catalog_h) 0 s in
  let r2 := on_catalog (subscribes config track) catalog (state_of r1) in
  let r3 := hang_source_destroy (state_of r2) in
  trace_of r1 =
    [moq_origin_consume (origin s) (broadcast s); moq_consume_catalog consume_h] /\
  trace_of r2 = [moq_consume_video_ordered catalog] /\
  chain_handles (state_of r2) = (origin s, session s, consume_h, catalog, track) /\
  (decoder_ready (state_of r2) = true /\ got_keyframe (state_of r2) = false) /\
  trace_of r3 =
    [moq_consume_video_close track; moq_consume_catalog_close catalog;
     moq_consume_close consume_h; moq_session_close (session s);
     moq_origin_close (origin s); os_sleep_ms 100] /\
  chain_handles (state_of r3) = (-1, -1, -1, -1, -1) /\
  decoder_ready (state_of r3) = false.
Proof.
  intros Hsd Ho Hse Hc Hk Hcat Htr. cbv zeta.
  assert (Ho1 : (origin s <? 0) = false) by now apply Z.ltb_ge.
  assert (Hse1 : (session s <? 0) = false) by now apply Z.ltb_ge.
  assert (Hc1 : (consume_h <? 0) = false) by now apply Z.ltb_ge.
  assert (Hk1 : (catalog_h <? 0) = false) by now apply Z.ltb_ge.
  assert (Hcat1 : (catalog <? 0) = false) by now apply Z.ltb_ge.
  assert (Htr1 : (track <? 0) = false) by now apply Z.ltb_ge.
  apply Z.leb_le in Ho, Hse, Hc, Hcat, Htr.
  assert (H1 : on_session_status (consumes consume_h catalog_h) 0 s =
               (tt, set_consume consume_h s,
                [moq_origin_consume (origin s) (broadcast s);
                 moq_consume_catalog consume_h])).
  { mstart (on_session_status (consumes consume_h catalog_h) 0 s).
    unfold on_session_status, hang_source_start_consume, hang_source_blank_video,
      consumes, undisturbed.
    env_fields.
    mexec_by ltac:(rewrite ?Hsd, ?Ho1, ?Hse1, ?Hc1, ?Hk1, ?Z.eqb_refl; env_fields).
    now mdone. }
  rewrite H1. cbn [state_of trace_of fst snd].
  set (s1 := set_consume consume_h s).
  destruct (hang_source_init_decoder_result
              (ca_init (subscribes config track)) config s1) as (Hok & _ & Hnil).
  destruct (hang_source_init_decoder_succeeds
              (ca_init (subscribes config track)) config s1)
    as (Hvalue & Hch & Hgen & _); try reflexivity.
  destruct (hang_source_init_decoder (ca_init (subscribes config track)) config s1)
    as [[ok s2] t2] eqn:Hrun.
  cbn [value_of state_of trace_of fst snd] in Hok, Hnil, Hvalue, Hch, Hgen.
  subst t2 ok.
  change (ie_released (ca_init (subscribes config track)) s1) with s1 in Hch, Hgen.
  destruct (Hok eq_refl) as (Hready & Hgk & _).
  assert (H2 : on_catalog (subscribes config track) catalog s1 =
               (tt, set_catalog_handle catalog (set_video_track track s2),
                [moq_consume_video_ordered catalog])).
  { mstart (on_catalog (subscribes config track) catalog s1).
    unfold on_catalog. subst s1.
    change (ca_video_config (subscribes config track)) with (Some config).
    change (ca_video_ordered (subscribes config track)) with track.
    change (ca_released (subscribes config track)) with undisturbed.
    unfold undisturbed. cbv beta iota. fields.
    mexec_by ltac:(rewrite ?Hsd, ?Hc1, ?Hcat1).
    erewrite bind_run by exact Hrun. cbv beta iota. fields.
    mexec_by ltac:(rewrite ?Htr1, ?Hgen; fields; rewrite ?Z.eqb_refl).
    now mdone. }
  rewrite H2. cbn [state_of trace_of fst snd].
  split; [reflexivity|]. split; [reflexivity|].
  assert (Hh : chain_handles (set_catalog_handle catalog (set_video_track track s2))
               = (origin s, session s, consume_h, catalog, track)).
  { unfold chain_handles in *. fields. subst s1. fields.
    injection Hch as -> -> -> _ _. reflexivity. }
  split; [exact Hh|].
  split; [split; [unfold decoder_ready in *; fields; exact Hready | fields; exact Hgk]|].
  unfold hang_source_destroy. rewrite bind_modify.
  erewrite bind_run by apply hang_source_disconnect_locked_eq.
  cbn [call after state_of trace_of fst snd].
  rewrite chain_closes_shutting_down.
  destruct (disconnected_handles
              (set_shutting_down true
                 (set_catalog_handle catalog (set_video_track track s2))))
    as (Hd & Hnr).
  rewrite Hd, Hnr. unfold chain_handles in Hh. fields.
  injection Hh as Ho2 Hs2 Hc2.
  unfold chain_closes. fields. rewrite Ho2, Hs2, Hc2, Ho, Hse, Hc, Hcat, Htr.
  rewrite !closed_valid by assumption. repeat split.
Qed.

Lemma chain_completes_and_tears_down_witness :
  let r1 := on_session_status (consumes 22 23) 0 session_example in
  let r2 := on_catalog (subscribes config_1280x720 14) 13 (state_of r1) in
  trace_of (hang_source_destroy (state_of r2)) =
    [moq_consume_video_close 14; moq_consume_catalog_close 13; moq_consume_close 22;
     moq_session_close 11; moq_origin_close 10; os_sleep_ms 100].
Proof.
  cbv zeta.
  destruct (chain_completes_and_tears_down session_example 22 23 13 14 config_1280x720)
    as (_ & _ & _ & _ & H & _); first [exact H | reflexivity | cbn; lia].
Defined.

Lemma hang_source_create_created (u b : string) (now : Z) :
  hang_source_create u b now = (created u b now, []).
Proof. unfold hang_source_create. rewrite hang_source_update_eq. reflexivity. Qed.

(** The struct of a new source once the tick has adopted its settings, and
    once a reconnect has begun from there. *)
Lemma created_adopted (u b : string) (now : Z) :
  adopted (created u b now) =
  set_broadcast (Some b)
    (set_url (Some u)
      (set_settings_changed_time now
        (set_pending_broadcast (Some b) (set_pending_url (Some u) hang_source_initial)))).
Proof. unfold adopted, created, hang_source_initial. assign. reflexivity. Qed.

Lemma created_reconnect_begun (u b : string) (now : Z) :
  reconnect_begun (adopted (created u b now)) =
  set_generation 1 (set_reconnect_in_progress true (adopted (created u b now))).
Proof.
  rewrite created_adopted. unfold reconnect_begun, disconnected, hang_source_initial.
  assign. reflexivity.
Qed.

Lemma created_disconnected (u b : string) (now : Z) :
  disconnected (adopted (created u b now)) = adopted (created u b now) /\
  chain_closes (created u b now) = [].
Proof.
  rewrite created_adopted. unfold disconnected, created, hang_source_initial.
  assign. split; reflexivity.
Qed.

Lemma created_tests (u b : string) (now : Z) :
  shutting_down (created u b now) = false /\
  reconnect_pending (created u b now) = true /\
  settings_changed_time (created u b now) = now /\
  settings_differ (created u b now) = true /\
  pending_valid (created u b now) = non_empty (Some u) && non_empty (Some b) /\
  reconnect_in_progress (adopted (created u b now)) = false /\
  url (adopted (created u b now)) = Some u.
Proof. repeat split. Qed.

(** X21.  A new source connects by its first tick half a second after its
    creation, and not before.  [hang_source_create] calls nothing: it
    leaves every slot without a handle, no decoder, generation 0, no active
    settings, the given settings pending and a reconnect pending, whatever
    the settings are.  With no other thread in the way, a tick within
    500 000 000 ns of the creation does nothing.  A later one adopts the
    settings; when one of them is empty it emits the blank signal and
    calls nothing else, and when both are there it blanks, sleeps 50 ms,
    creates the origin and connects the session to the url, and stores
    both handles under generation 1. *)
Theorem hang_source_create_then_tick (u b : string) (t0 : Z) (e : tick_env) :
  0 <= t0 <= te_now e -> te_now e < 2 ^ 64 -> quiet (Tick e) ->
  let s := fst (hang_source_create u b t0) in
  let r := hang_source_video_tick e s in
  let new_origin := re_origin_create (te_reconnect e) in
  let new_session := re_session_connect (te_reconnect e) in
  (snd (hang_source_create u b t0) = [] /\
   chain_handles s = (-1, -1, -1, -1, -1) /\ decoder_ready s = false /\
   generation s = 0 /\ url s = None /\ broadcast s = None /\
   pending_url s = Some u /\ pending_broadcast s = Some b /\
   reconnect_pending s = true) /\
  (te_now e - t0 < 500000000 -> r = (tt, s, [])) /\
  (500000000 <= te_now e - t0 ->
   (u = EmptyString \/ b = EmptyString ->
    r = (tt, adopted s, [obs_source_output_video None])) /\
   (u <> EmptyString -> b <> EmptyString -> 0 <= new_origin -> 0 <= new_session ->
    r = (tt,
         set_session new_session
           (set_origin new_origin (set_generation 1 (adopted s))),
         [obs_source_output_video None; os_sleep_ms 50; moq_origin_create;
          moq_session_connect (Some u) new_origin]))).
Proof.
  intros Ht Hn Hq. cbv zeta. rewrite hang_source_create_created. cbn [fst snd].
  unfold quiet in Hq. cbn [windows] in Hq.
  inversion Hq as [|? ? Hq1 Hq']; subst. inversion Hq' as [|? ? Hq2 _]; subst.
  split; [repeat split|].
  destruct (created_tests u b t0) as (Hsd & Hrp & Htime & Hdiff & Hvalid & Hrip & Hurl).
  rewrite hang_source_video_tick_eq, Hsd, Hrp, elapsed_ms_threshold
    by (rewrite ?Htime; assumption).
  rewrite Htime, Hdiff, Hvalid. cbn [negb]. split.
  - intros Hlt. apply Z.ltb_lt in Hlt. now rewrite Hlt.
  - intros Hge. apply Z.ltb_ge in Hge. rewrite Hge. split.
    + intros Hempty.
      assert (Hv : non_empty (Some u) && non_empty (Some b) = false).
      { destruct Hempty as [-> | ->]; [reflexivity | apply andb_false_r]. }
      rewrite Hv. cbn [negb].
      destruct (created_disconnected u b t0) as [Hd Hc]. now rewrite Hd, Hc.
    + intros Hu Hb Ho Hs. apply non_empty_some in Hu, Hb. rewrite Hu, Hb. cbn [negb andb].
      apply Z.ltb_ge in Ho, Hs.
      rewrite Hq1, (hang_source_reconnect_eq _ _ Hrip). cbv zeta.
      rewrite Hq2, Ho, Hs, created_reconnect_begun.
      unfold reconnect_prologue.
      destruct (created_disconnected u b t0) as [_ Hc].
      assert (Hc' : chain_closes (adopted (created u b t0)) = []) by reflexivity.
      rewrite Hc', Hurl.
      change (generation (set_generation 1 (set_reconnect_in_progress true
                (adopted (created u b t0))))) with 1.
      change (u32 (generation (adopted (created u b t0)) + 1)) with 1.
      cbn [Z.eqb Pos.eqb app]. reflexivity.
Qed.

Lemma hang_source_create_then_tick_witness :
  let s := fst (hang_source_create "https://relay" "cam" 0) in
  trace_of (hang_source_video_tick (tick_example 500000000) s) =
    [obs_source_output_video None; os_sleep_ms 50; moq_origin_create;
     moq_session_connect (Some "https://relay") 20] /\
  chain_handles (state_of (hang_source_video_tick (tick_example 500000000) s))
  = (20, 21, -1, -1, -1).
Proof.
  cbv zeta.
  destruct (hang_source_create_then_tick "https://relay" "cam" 0 (tick_example 500000000))
    as (_ & _ & H); [cbn; lia | reflexivity | repeat constructor |].
  destruct H as (_ & H); [cbn; lia|].
  rewrite H; [split; reflexivity | discriminate | discriminate | cbn; lia | cbn; lia].
Defined.
